(** * Chat_Backend: the real-time messaging core

    A shallow embedding of [chat/consumers.py], of the model methods of
    [chat/models.py] and [accounts/models.py] the consumers call, and of
    the serializer entry points of [chat/serializers.py].

    Synchronous ORM code runs in the monad [Db] (a store plus the server
    clock, with Python exceptions); the consumers' coroutines run in
    [Aw], over a world made of the store, the channel layer and the
    trace of what went out on the wire. An exception never rolls the
    store back: every [save] is committed as it is made. *)

From stdpp Require Import gmap strings list.
From Stdlib Require Import ZArith Ascii String.

Open Scope Z_scope.
Open Scope string_scope.

(** ** Exceptions and the state-and-exception monad *)

Inductive exn :=
  | AttributeError
  | TypeError
  | ValueError
  | IntegrityError
  | DatabaseError
  | ConnectionError
  | RecursionError.

Inductive result (A : Type) :=
  | Ok (a : A)
  | Raise (e : exn).
Arguments Ok {A} a.
Arguments Raise {A} e.

Definition SE (S A : Type) : Type := S → result A * S.

Global Instance SE_ret {S} : MRet (SE S) := λ A a s, (Ok a, s).
Global Instance SE_bind {S} : MBind (SE S) := λ A B f m s,
  match m s with
  | (Ok a, s') => f a s'
  | (Raise e, s') => (Raise e, s')
  end.

Definition raise {S A} (e : exn) : SE S A := λ s, (Raise e, s).
Definition get {S} : SE S S := λ s, (Ok s, s).
Definition put {S} (s : S) : SE S unit := λ _, (Ok tt, s).
Definition modify {S} (f : S → S) : SE S unit := λ s, (Ok tt, f s).

(** ** Names as the source files import them

    [consumers.py] and [views.py] bind [timezone] with
    [from datetime import timezone]; [models.py] binds it with
    [from django.utils import timezone]. [serializers.py] binds [models]
    with [from chat_project.accounts import models]. Attribute access on
    a name raises [AttributeError] when the object bound to it has no
    such attribute. *)

Inductive pyobject :=
  | datetime_timezone        (* the class datetime.timezone *)
  | django_utils_timezone    (* the module django.utils.timezone *)
  | accounts_models.         (* the module accounts/models.py *)

(** The public attributes of each: those of the class
    [datetime.timezone], the functions of [django.utils.timezone], and
    the names [accounts/models.py] imports or defines. *)
Definition py_dir (o : pyobject) : list string :=
  match o with
  | datetime_timezone =>
      ["utc"; "min"; "max"; "utcoffset"; "tzname"; "dst"; "fromutc"]
  | django_utils_timezone =>
      ["now"; "localtime"; "localdate"; "make_aware"; "make_naive";
       "is_aware"; "is_naive"; "get_current_timezone"; "timedelta"]
  | accounts_models =>
      ["AbstractUser"; "models"; "timezone"; "User"; "UserProfile"]
  end.

Definition hasattr (o : pyobject) (name : string) : bool :=
  bool_decide (name ∈ py_dir o).

Definition getattr {S} (o : pyobject) (name : string) : SE S unit :=
  if hasattr o name then mret tt else raise AttributeError.

Module consumers_py.
Definition timezone : pyobject := datetime_timezone.
End consumers_py.

Module models_py.
Definition timezone : pyobject := django_utils_timezone.
End models_py.

Module serializers_py.
Definition models : pyobject := accounts_models.
End serializers_py.

(** ** Strings: [str.strip()]

    A Python [str] is held as its UTF-8 encoding (a lone surrogate, which
    UTF-8 leaves out, in the same three-byte form). [str.strip()] removes
    from both ends the code points for which [str.isspace] holds:
    U+0009 to U+000D, U+001C to U+0020, U+0085, U+00A0, U+1680, U+2000 to
    U+200A, U+2028, U+2029, U+202F, U+205F and U+3000. [isspace] takes
    the bytes of one code point. *)

Definition isspace (bytes : list ascii) : bool :=
  match nat_of_ascii <$> bytes with
  | [a] =>
      ((9 <=? a)%nat && (a <=? 13)%nat) || ((28 <=? a)%nat && (a <=? 32)%nat)
  | [a; b] => (a =? 194)%nat && ((b =? 133)%nat || (b =? 160)%nat)
  | [a; b; c] =>
      ((a =? 225)%nat && (b =? 154)%nat && (c =? 128)%nat)
      || ((a =? 226)%nat && (b =? 128)%nat
          && (((128 <=? c)%nat && (c <=? 138)%nat)
              || (c =? 168)%nat || (c =? 169)%nat || (c =? 175)%nat))
      || ((a =? 226)%nat && (b =? 129)%nat && (c =? 159)%nat)
      || ((a =? 227)%nat && (b =? 128)%nat && (c =? 128)%nat)
  | _ => false
  end.

(** Drop the leading code points [space] accepts; a code point that is
    a space takes one, two or three bytes. *)
Fixpoint lstrip_by (space : list ascii → bool) (s : string) : string :=
  match s with
  | EmptyString => EmptyString
  | String a s1 =>
      if space [a] then lstrip_by space s1
      else
        match s1 with
        | EmptyString => s
        | String b s2 =>
            if space [a; b] then lstrip_by space s2
            else
              match s2 with
              | EmptyString => s
              | String c s3 =>
                  if space [a; b; c] then lstrip_by space s3 else s
              end
        end
  end.

Definition lstrip (s : string) : string := lstrip_by isspace s.

(** From the right the bytes of a code point are met last byte first. *)
Definition rstrip (s : string) : string :=
  String.rev (lstrip_by (λ bytes, isspace (rev bytes)) (String.rev s)).

Definition strip (s : string) : string := rstrip (lstrip s).

(** Python truthiness of a string and of an optional integer. *)
Definition str_truthy (s : string) : bool :=
  match s with EmptyString => false | _ => true end.

Definition int_truthy (v : option Z) : bool :=
  match v with Some n => negb (n =? 0)%Z | None => false end.

(** ** The data model ([accounts/models.py], [chat/models.py]) *)

Module User.
(** The columns the messaging core reads or writes; the primary key is
    the key of the table. *)
Record t := mk {
  username : string;
  status : string;
  last_seen : Z;
  is_online : bool;
}.
End User.

(** [scope['user']]: what the authentication middleware resolved. *)
Inductive ScopeUser :=
  | AnonymousUser
  | AuthUser (pk : Z) (row : User.t).

Definition user_id (u : ScopeUser) : option Z :=
  match u with AnonymousUser => None | AuthUser pk _ => Some pk end.

Definition user_username (u : ScopeUser) : string :=
  match u with
  | AnonymousUser => EmptyString
  | AuthUser _ row => User.username row
  end.

Module ChatRoom.
Record t := mk {
  name : string;
  is_active : bool;
  members : gset Z;          (* through ChatRoomMembership *)
}.
End ChatRoom.

Module Message.
Record t := mk {
  room : Z;
  sender : Z;
  content : string;
  message_type : string;
  reply_to : option Z;
  is_edited : bool;
  edited_at : option Z;
  is_deleted : bool;
  deleted_at : option Z;
  created_at : Z;
  updated_at : Z;
}.
End Message.

Module MessageReaction.
Record t := mk {
  message : Z;
  user : Z;
  reaction_type : string;
  created_at : Z;
}.
End MessageReaction.

Module DirectMessage.
Record t := mk {
  sender : Z;
  recipient : Z;
  content : string;
  message_type : string;
  is_read : bool;
  read_at : option Z;
  is_edited : bool;
  edited_at : option Z;
  is_deleted : bool;
  deleted_at : option Z;
  created_at : Z;
  updated_at : Z;
}.
End DirectMessage.

Module Conversation.
Record t := mk {
  participants : list Z;     (* in the order the queryset yields them *)
  last_message : option Z;
}.
End Conversation.

(** The persistence store and the server clock [timezone.now()] reads.
    Tables are keyed by primary key; reactions are kept as rows, in
    insertion order, since their uniqueness is a property to prove. *)
Record DB := mkDB {
  users : gmap Z User.t;
  rooms : gmap Z ChatRoom.t;
  messages : gmap Z Message.t;
  reactions : list MessageReaction.t;
  direct_messages : gmap Z DirectMessage.t;
  conversations : gmap Z Conversation.t;
  clock : Z;
}.

Abbreviation Db := (SE DB).

(** The key the store gives a new row. The database takes it from the
    table's sequence, which the model does not keep; what the properties
    below use of it is that no row has it. Here it is one past the
    largest key in use. *)
Definition next_pk {A} (table : gmap Z A) : Z :=
  1 + foldr Z.max 0 ((map_to_list table).*1).

Definition with_users (f : gmap Z User.t → gmap Z User.t) (db : DB) : DB :=
  mkDB (f (users db)) (rooms db) (messages db) (reactions db)
       (direct_messages db) (conversations db) (clock db).

Definition with_messages (f : gmap Z Message.t → gmap Z Message.t)
    (db : DB) : DB :=
  mkDB (users db) (rooms db) (f (messages db)) (reactions db)
       (direct_messages db) (conversations db) (clock db).

Definition with_reactions
    (f : list MessageReaction.t → list MessageReaction.t) (db : DB) : DB :=
  mkDB (users db) (rooms db) (messages db) (f (reactions db))
       (direct_messages db) (conversations db) (clock db).

Definition with_direct_messages
    (f : gmap Z DirectMessage.t → gmap Z DirectMessage.t) (db : DB) : DB :=
  mkDB (users db) (rooms db) (messages db) (reactions db)
       (f (direct_messages db)) (conversations db) (clock db).

Definition with_conversations
    (f : gmap Z Conversation.t → gmap Z Conversation.t) (db : DB) : DB :=
  mkDB (users db) (rooms db) (messages db) (reactions db)
       (direct_messages db) (f (conversations db)) (clock db).

(** [timezone.now()], through whatever the calling file bound to
    [timezone]. *)
Definition timezone_now (timezone : pyobject) : Db Z :=
  getattr timezone "now";;
  db ← get;
  mret (clock db).

(** Django's own clock reads ([auto_now], [auto_now_add]). *)
Definition django_now : Db Z := timezone_now django_utils_timezone.

(** ** Model methods *)

(** [User.update_last_seen] on the in-memory object [(pk, self)]
    ([accounts/models.py] imports Django's [timezone], as [models.py]);
    [save(update_fields=...)] raises when it updates no row. *)
Definition User_update_last_seen (pk : Z) (self : User.t) : Db User.t :=
  now ← timezone_now models_py.timezone;
  let self := User.mk (User.username self) (User.status self) now
                      (User.is_online self) in
  db ← get;
  match users db !! pk with
  | None => raise DatabaseError
  | Some row =>
      modify (with_users <[pk := User.mk (User.username row) (User.status row)
                                         (User.last_seen self)
                                         (User.is_online row)]>);;
      mret self
  end.

(** [User.set_online_status]. *)
Definition User_set_online_status (pk : Z) (self : User.t)
    (is_online : bool) : Db User.t :=
  let self := User.mk (User.username self)
                      (if is_online then "online" else "offline")
                      (User.last_seen self) is_online in
  self ← (if is_online then User_update_last_seen pk self else mret self);
  db ← get;
  match users db !! pk with
  | None => raise DatabaseError
  | Some row =>
      modify (with_users <[pk := User.mk (User.username row)
                                         (User.status self)
                                         (User.last_seen self)
                                         (User.is_online self)]>);;
      mret self
  end.

(** A foreign-key column written with [new]: the database accepts it
    when it is null, when it is the value the row already holds ([old]),
    or when it is the key of a row of the referenced [table]. *)
Definition foreign_key {A} (table : gmap Z A) (old new : option Z) : bool :=
  match new with
  | None => true
  | Some key =>
      bool_decide (old = new) || bool_decide (is_Some (table !! key))
  end.

(** The foreign keys of a message written over [stored] (no row when a
    row is inserted): room, sender and reply target. *)
Definition Message_foreign_keys (db : DB) (stored : option Message.t)
    (self : Message.t) : bool :=
  foreign_key (rooms db) (Message.room <$> stored)
    (Some (Message.room self))
  && foreign_key (users db) (Message.sender <$> stored)
       (Some (Message.sender self))
  && foreign_key (messages db) (stored ≫= Message.reply_to)
       (Message.reply_to self).

(** [Model.save()] of a message holding the key [pk]: the row of that
    key is updated, and when there is none a row is inserted.
    [updated_at] is [auto_now]; [created_at] is [auto_now_add], stamped
    when the row is inserted. A foreign key that names no row is refused
    with [IntegrityError]. *)
Definition Message_save (pk : Z) (self : Message.t) : Db Message.t :=
  now ← django_now;
  db ← get;
  let stored := messages db !! pk in
  if Message_foreign_keys db stored self then
    let created_at := match stored with
                      | Some _ => Message.created_at self
                      | None => now
                      end in
    let self := Message.mk (Message.room self) (Message.sender self)
                  (Message.content self) (Message.message_type self)
                  (Message.reply_to self) (Message.is_edited self)
                  (Message.edited_at self) (Message.is_deleted self)
                  (Message.deleted_at self) created_at now in
    modify (with_messages <[pk := self]>);;
    mret self
  else raise IntegrityError.

(** [Message.edit_message]. *)
Definition Message_edit_message (pk : Z) (self : Message.t)
    (new_content : string) : Db Message.t :=
  now ← timezone_now models_py.timezone;
  Message_save pk
    (Message.mk (Message.room self) (Message.sender self)
       new_content (Message.message_type self)
       (Message.reply_to self) true (Some now)
       (Message.is_deleted self) (Message.deleted_at self)
       (Message.created_at self) (Message.updated_at self)).

Definition deleted_placeholder : string := "This message was deleted".

(** [Message.delete_message]. *)
Definition Message_delete_message (pk : Z) (self : Message.t)
    : Db Message.t :=
  now ← timezone_now models_py.timezone;
  Message_save pk
    (Message.mk (Message.room self) (Message.sender self)
       deleted_placeholder (Message.message_type self)
       (Message.reply_to self) (Message.is_edited self)
       (Message.edited_at self) true (Some now)
       (Message.created_at self) (Message.updated_at self)).

(** The foreign keys of a direct message: sender and recipient. *)
Definition DirectMessage_foreign_keys (db : DB)
    (stored : option DirectMessage.t) (self : DirectMessage.t) : bool :=
  foreign_key (users db) (DirectMessage.sender <$> stored)
    (Some (DirectMessage.sender self))
  && foreign_key (users db) (DirectMessage.recipient <$> stored)
       (Some (DirectMessage.recipient self)).

(** [Model.save()] of a direct message holding the key [pk], as for a
    message. *)
Definition DirectMessage_save (pk : Z) (self : DirectMessage.t)
    : Db DirectMessage.t :=
  now ← django_now;
  db ← get;
  let stored := direct_messages db !! pk in
  if DirectMessage_foreign_keys db stored self then
    let created_at := match stored with
                      | Some _ => DirectMessage.created_at self
                      | None => now
                      end in
    let self := DirectMessage.mk (DirectMessage.sender self)
                  (DirectMessage.recipient self) (DirectMessage.content self)
                  (DirectMessage.message_type self)
                  (DirectMessage.is_read self) (DirectMessage.read_at self)
                  (DirectMessage.is_edited self)
                  (DirectMessage.edited_at self)
                  (DirectMessage.is_deleted self)
                  (DirectMessage.deleted_at self) created_at now in
    modify (with_direct_messages <[pk := self]>);;
    mret self
  else raise IntegrityError.

(** [DirectMessage.delete_message]. *)
Definition DirectMessage_delete_message (pk : Z) (self : DirectMessage.t)
    : Db DirectMessage.t :=
  now ← timezone_now models_py.timezone;
  DirectMessage_save pk
    (DirectMessage.mk (DirectMessage.sender self)
       (DirectMessage.recipient self) deleted_placeholder
       (DirectMessage.message_type self) (DirectMessage.is_read self)
       (DirectMessage.read_at self) (DirectMessage.is_edited self)
       (DirectMessage.edited_at self) true (Some now)
       (DirectMessage.created_at self) (DirectMessage.updated_at self)).

(** [Conversation.get_other_participant]:
    [participants.exclude(id=user.id).first()]. *)
Definition Conversation_get_other_participant (self : Conversation.t)
    (user : Z) : option Z :=
  head (filter (λ p, p ≠ user) (Conversation.participants self)).

(** ** Frames, events and the wire *)

(** A JSON value read where the protocol has a text: a string, or one of
    the other values [json.loads] produces (null, a number, a boolean, a
    list, an object), none of which has a [strip] method. *)
Inductive JsonText :=
  | json_str (s : string)
  | json_not_str.

(** A decoded inbound frame that is a JSON object, by the keys the
    handlers read. ['type'] is kept where it holds a string: any other
    value equals none of the tags, as an absent key does. ['content'] is
    absent or holds a JSON value. Each other key is absent or carries a
    value of the type the protocol gives it. *)
Record Frame := mkFrame {
  frame_type : option string;
  frame_content : option JsonText;
  frame_reply_to : option Z;
  frame_message_id : option Z;
  frame_reaction_type : option string;
  frame_action : option string;
  frame_is_typing : option bool;
  frame_message_ids : option (list Z);
}.

(** What [json.loads] returns: an object, or another value (a list, a
    string, a number, a boolean or null). *)
Inductive Json :=
  | json_object (data : Frame)
  | json_other.

(** What a call of [json.loads] comes to: a value,
    [json.JSONDecodeError], or another exception ([RecursionError] on a
    text nested too deep). *)
Inductive Decoded :=
  | decoded (value : Json)
  | JSONDecodeError
  | decode_failure (e : exn).

(** [data.get('content', '').strip()]. *)
Definition get_content_strip {S} (data : Frame) : SE S string :=
  match frame_content data with
  | None => mret (strip EmptyString)
  | Some (json_str s) => mret (strip s)
  | Some json_not_str => raise AttributeError
  end.

(** [MessageSerializer(message).data] and
    [DirectMessageSerializer(message).data]. *)
Record MessageData := mkMessageData {
  md_id : Z;
  md_fields : Message.t;
  md_sender : option User.t;
  md_reply_to : option Message.t;
  md_reactions : list MessageReaction.t;
  md_reaction_counts : list (string * nat);
}.

Record DirectMessageData := mkDirectMessageData {
  dmd_id : Z;
  dmd_fields : DirectMessage.t;
  dmd_sender : User.t;
  dmd_recipient : User.t;
}.

(** A direct message as [objects.create] returns it: the key, the
    columns, and the user objects it was built from, which the instance
    keeps and the serializer reads. *)
Record DirectMessageInstance := mkDirectMessageInstance {
  dmi_pk : Z;
  dmi_fields : DirectMessage.t;
  dmi_sender : User.t;
  dmi_recipient : User.t;
}.

(** What [group_send] carries; the constructor is the ['type'] key. *)
Inductive Event :=
  | chat_message_ev (message : MessageData)
  | typing_indicator_ev (user : string) (is_typing : bool)
  | message_reaction_ev (message_id : option Z)
      (reaction_type : option string) (action : string) (user : string)
  | message_edited_ev (message : MessageData)
  | message_deleted_ev (message_id : option Z)
  | direct_message_ev (message : DirectMessageData)
  | messages_read_ev (message_ids : list Z) (user : string).

(** What [self.send] writes: the error reply, or an event's fields
    under the same ['type']. *)
Inductive OutFrame :=
  | error_frame (error : string)
  | event_frame (ev : Event).

Inductive Effect :=
  | Accept (channel : string)
  | Close (channel : string)
  | Send (channel : string) (text_data : OutFrame)
  | GroupSend (group : string) (ev : Event).

(** The channel layer, as the consumers use it. A backend may raise. *)
Class ChannelLayer (L : Type) := {
  group_add : string → string → L → result L;
  group_discard : string → string → L → result L;
  group_send : string → Event → L → result L;
}.

Record World (L : Type) := mkWorld {
  db : DB;
  layer : L;
  trace : list Effect;
}.
Arguments mkWorld {L} db layer trace.
Arguments db {L} w.
Arguments layer {L} w.
Arguments trace {L} w.

Abbreviation Aw L := (SE (World L)).

Section Runtime.
Context {L : Type} `{!ChannelLayer L}.

(** [@database_sync_to_async]: run ORM code against the world's store. *)
Definition database_sync_to_async {A} (m : Db A) : Aw L A := λ w,
  let '(r, db') := m (db w) in (r, mkWorld db' (layer w) (trace w)).

Definition emit (e : Effect) : Aw L unit :=
  modify (λ w, mkWorld (db w) (layer w) (trace w ++ [e])).

Definition on_layer (op : L → result L) : Aw L unit := λ w,
  match op (layer w) with
  | Ok l' => (Ok tt, mkWorld (db w) l' (trace w))
  | Raise e => (Raise e, w)
  end.

Definition channel_layer_group_add (group channel : string) : Aw L unit :=
  on_layer (group_add group channel).

Definition channel_layer_group_discard (group channel : string)
    : Aw L unit :=
  on_layer (group_discard group channel).

Definition channel_layer_group_send (group : string) (ev : Event)
    : Aw L unit :=
  on_layer (group_send group ev);;
  emit (GroupSend group ev).
End Runtime.

(** ** Serializers ([chat/serializers.py]) *)

Definition count_reactions (rs : list MessageReaction.t)
    : list (string * nat) :=
  let kinds := remove_dups (MessageReaction.reaction_type <$> rs) in
  (λ k, (k, List.length (filter (λ r, MessageReaction.reaction_type r = k) rs)))
    <$> kinds.

(** [MessageSerializer.get_reaction_counts]: the aggregate is built with
    [models.Count], [models] being the name [serializers.py] imports. *)
Definition get_reaction_counts (pk : Z) : Db (list (string * nat)) :=
  getattr serializers_py.models "Count";;
  db ← get;
  mret (count_reactions
          (filter (λ r, MessageReaction.message r = pk) (reactions db))).

Definition MessageSerializer_data (pk : Z) (obj : Message.t)
    : Db MessageData :=
  db ← get;
  let sender := users db !! Message.sender obj in
  let reply_to := Message.reply_to obj ≫= λ r, messages db !! r in
  let rs := filter (λ r, MessageReaction.message r = pk) (reactions db) in
  counts ← get_reaction_counts pk;
  mret (mkMessageData pk obj sender reply_to rs counts).

Definition DirectMessageSerializer_data (message : DirectMessageInstance)
    : Db DirectMessageData :=
  mret (mkDirectMessageData (dmi_pk message) (dmi_fields message)
          (dmi_sender message) (dmi_recipient message)).

(** [scope]: the text the URL pattern ([\d+]) captured, the integer the
    ORM reads from that text wherever the session passes it as an [id],
    and the resolved user. *)
Record Scope := mkScope {
  url_route_kwarg : string;
  url_route_id : Z;
  scope_user : ScopeUser;
}.

(** ** ORM queries the consumers make *)

(** [Model.objects.get(id=..., <conditions>)], [None] standing for
    [DoesNotExist]; an absent id matches no row. *)
Definition objects_get {A} (table : gmap Z A) (id : option Z)
    (cond : A → bool) : option (Z * A) :=
  pk ← id;
  row ← table !! pk;
  if cond row then Some (pk, row) else None.

(** [Message.objects.create(room=, sender=, content=, reply_to=)]: the
    insert is refused with [IntegrityError] when a foreign key names no
    row. *)
Definition Message_objects_create (room sender : Z) (content : string)
    (reply_to : option Z) : Db (Z * Message.t) :=
  now ← django_now;
  db ← get;
  let pk := next_pk (messages db) in
  let obj := Message.mk room sender content "text" reply_to
                        false None false None now now in
  if Message_foreign_keys db None obj then
    modify (with_messages <[pk := obj]>);;
    mret (pk, obj)
  else raise IntegrityError.

(** [DirectMessage.objects.create(sender=, recipient=, content=)], given
    the user objects; the recipient column is not nullable. *)
Definition DirectMessage_objects_create (sender : Z * User.t)
    (recipient : option (Z * User.t)) (content : string)
    : Db DirectMessageInstance :=
  match recipient with
  | None => raise IntegrityError
  | Some recipient =>
      now ← django_now;
      db ← get;
      let pk := next_pk (direct_messages db) in
      let obj := DirectMessage.mk sender.1 recipient.1 content "text"
                   false None false None false None now now in
      if DirectMessage_foreign_keys db None obj then
        modify (with_direct_messages <[pk := obj]>);;
        mret (mkDirectMessageInstance pk obj sender.2 recipient.2)
      else raise IntegrityError
  end.

Definition same_reaction (message user : Z) (reaction_type : string)
    (r : MessageReaction.t) : bool :=
  bool_decide (MessageReaction.message r = message
               ∧ MessageReaction.user r = user
               ∧ MessageReaction.reaction_type r = reaction_type).

(** [MessageReaction.objects.get_or_create(message=, user=,
    reaction_type=)]; the kind column is not nullable. *)
Definition MessageReaction_objects_get_or_create (message user : Z)
    (reaction_type : option string) : Db (MessageReaction.t * bool) :=
  match reaction_type with
  | None => raise IntegrityError
  | Some kind =>
      db ← get;
      match List.find (same_reaction message user kind) (reactions db) with
      | Some r => mret (r, false)
      | None =>
          now ← django_now;
          let r := MessageReaction.mk message user kind now in
          modify (with_reactions (λ rs, (rs ++ [r])%list));;
          mret (r, true)
      end
  end.

(** [MessageReaction.objects.filter(message=, user=,
    reaction_type=).delete()]. *)
Definition MessageReaction_objects_filter_delete (message user : Z)
    (reaction_type : option string) : Db unit :=
  match reaction_type with
  | None => mret tt
  | Some kind =>
      modify (with_reactions
                (List.filter (λ r, negb (same_reaction message user kind r))))
  end.

(** ** [ChatConsumer] *)

Module ChatConsumer.
(** The session. [self.room_id] is the text the URL pattern captured;
    apart from the group name, which [connect] builds from the text and
    the session keeps, every use of it is an [id] passed to the ORM, so
    the session is held by the integer the ORM reads from it. *)
Record t := mk {
  channel_name : string;
  room_id : Z;
  room_group_name : string;
  user : ScopeUser;
}.

Section Methods.
Context {L : Type} `{!ChannelLayer L}.
Context (json_loads : string → Decoded).

Definition accept (self : t) : Aw L unit := emit (Accept (channel_name self)).
Definition close (self : t) : Aw L unit := emit (Close (channel_name self)).
Definition send (self : t) (text_data : OutFrame) : Aw L unit :=
  emit (Send (channel_name self) text_data).

(** *** Database operations *)

Definition is_room_member (self : t) : Db bool :=
  db ← get;
  match rooms db !! room_id self with
  | Some room =>
      mret (match user_id (user self) with
            | Some uid => bool_decide (uid ∈ ChatRoom.members room)
            | None => false
            end)
  | None => mret false
  end.

Definition save_message (self : t) (content : string)
    (reply_to_id : option Z) : Db (option (Z * Message.t)) :=
  db ← get;
  match rooms db !! room_id self with
  | Some room =>
      let reply_to :=
        if int_truthy reply_to_id then
          match objects_get (messages db) reply_to_id
                  (λ m, bool_decide (Message.room m = room_id self)) with
          | Some (pk, _) => Some pk
          | None => None
          end
        else None in
      match user_id (user self) with
      | None => raise ValueError
      | Some uid =>
          message ← Message_objects_create (room_id self) uid content
                                           reply_to;
          mret (Some message)
      end
  | None => mret None
  end.

Definition serialize_message (message : Z * Message.t) : Db MessageData :=
  MessageSerializer_data message.1 message.2.

Definition add_message_reaction (self : t) (message_id : option Z)
    (reaction_type : option string) : Db (option MessageReaction.t) :=
  db ← get;
  match objects_get (messages db) message_id
          (λ m, bool_decide (Message.room m = room_id self)) with
  | Some (pk, _) =>
      match user_id (user self) with
      | None => raise TypeError
      | Some uid =>
          '(reaction, created) ←
            MessageReaction_objects_get_or_create pk uid reaction_type;
          mret (if created : bool then Some reaction else None)
      end
  | None => mret None
  end.

Definition remove_message_reaction (self : t) (message_id : option Z)
    (reaction_type : option string) : Db unit :=
  db ← get;
  match objects_get (messages db) message_id
          (λ m, bool_decide (Message.room m = room_id self)) with
  | Some (pk, _) =>
      match user_id (user self) with
      | None => raise TypeError
      | Some uid => MessageReaction_objects_filter_delete pk uid
                      reaction_type
      end
  | None => mret tt
  end.

Definition edit_message (self : t) (message_id : option Z)
    (new_content : string) : Db (option (Z * Message.t)) :=
  match user_id (user self) with
  | None => raise TypeError
  | Some uid =>
      db ← get;
      match objects_get (messages db) message_id
              (λ m, bool_decide (Message.room m = room_id self
                                 ∧ Message.sender m = uid)) with
      | Some (pk, message) =>
          message ← Message_edit_message pk message new_content;
          mret (Some (pk, message))
      | None => mret None
      end
  end.

Definition delete_message (self : t) (message_id : option Z)
    : Db (option (Z * Message.t)) :=
  match user_id (user self) with
  | None => raise TypeError
  | Some uid =>
      db ← get;
      match objects_get (messages db) message_id
              (λ m, bool_decide (Message.room m = room_id self
                                 ∧ Message.sender m = uid)) with
      | Some (pk, message) =>
          message ← Message_delete_message pk message;
          mret (Some (pk, message))
      | None => mret None
      end
  end.

(** [self.user.set_online_status(is_online)]; the user object the
    session holds is updated in place. *)
Definition update_user_status (self : t) (is_online : bool) : Db t :=
  match user self with
  | AnonymousUser => raise AttributeError
  | AuthUser pk row =>
      row ← User_set_online_status pk row is_online;
      mret (mk (channel_name self) (room_id self) (room_group_name self)
               (AuthUser pk row))
  end.

(** *** Lifecycle *)

Definition connect (channel : string) (scope : Scope) : Aw L t :=
  let self := mk channel (url_route_id scope)
                 ("chat_" +:+ url_route_kwarg scope)
                 (scope_user scope) in
  member ← database_sync_to_async (is_room_member self);
  if negb member then
    close self;;
    mret self
  else
    channel_layer_group_add (room_group_name self) (channel_name self);;
    accept self;;
    database_sync_to_async (update_user_status self true).

Definition disconnect (self : t) (close_code : Z) : Aw L t :=
  channel_layer_group_discard (room_group_name self) (channel_name self);;
  database_sync_to_async (update_user_status self false).

(** *** Inbound frames *)

Definition handle_chat_message (self : t) (data : Frame) : Aw L unit :=
  content ← get_content_strip data;
  let reply_to_id := frame_reply_to data in
  if negb (str_truthy content) then mret tt
  else
    message ← database_sync_to_async
                (save_message self content reply_to_id);
    match message with
    | Some message =>
        message_data ← database_sync_to_async (serialize_message message);
        channel_layer_group_send (room_group_name self)
          (chat_message_ev message_data)
    | None => mret tt
    end.

Definition handle_typing (self : t) (data : Frame) : Aw L unit :=
  let is_typing := default false (frame_is_typing data) in
  channel_layer_group_send (room_group_name self)
    (typing_indicator_ev (user_username (user self)) is_typing).

Definition handle_message_reaction (self : t) (data : Frame)
    : Aw L unit :=
  let message_id := frame_message_id data in
  let reaction_type := frame_reaction_type data in
  let action := default "add" (frame_action data) in
  reaction ←
    (if decide (action = "add") then
       database_sync_to_async
         (add_message_reaction self message_id reaction_type)
     else
       database_sync_to_async
         (remove_message_reaction self message_id reaction_type);;
       mret None);
  channel_layer_group_send (room_group_name self)
    (message_reaction_ev message_id reaction_type action
       (user_username (user self))).

Definition handle_message_edit (self : t) (data : Frame) : Aw L unit :=
  let message_id := frame_message_id data in
  new_content ← get_content_strip data;
  if negb (str_truthy new_content) then mret tt
  else
    message ← database_sync_to_async
                (edit_message self message_id new_content);
    match message with
    | Some message =>
        message_data ← database_sync_to_async (serialize_message message);
        channel_layer_group_send (room_group_name self)
          (message_edited_ev message_data)
    | None => mret tt
    end.

Definition handle_message_delete (self : t) (data : Frame) : Aw L unit :=
  let message_id := frame_message_id data in
  message ← database_sync_to_async (delete_message self message_id);
  match message with
  | Some _ =>
      channel_layer_group_send (room_group_name self)
        (message_deleted_ev message_id)
  | None => mret tt
  end.

(** [json_loads] is [json.loads]. [json.JSONDecodeError] is the one
    exception [receive] catches, and nothing the handlers call raises
    it. A value that is not an object has no [get]. *)
Definition receive (self : t) (text_data : string) : Aw L unit :=
  match json_loads text_data with
  | decode_failure e => raise e
  | decoded json_other => raise AttributeError
  | decoded (json_object data) =>
      let message_type := frame_type data in
      if decide (message_type = Some "chat_message") then
        handle_chat_message self data
      else if decide (message_type = Some "typing") then
        handle_typing self data
      else if decide (message_type = Some "message_reaction") then
        handle_message_reaction self data
      else if decide (message_type = Some "message_edit") then
        handle_message_edit self data
      else if decide (message_type = Some "message_delete") then
        handle_message_delete self data
      else mret tt
  | JSONDecodeError => send self (error_frame "Invalid JSON")
  end.

(** *** Events from the room group *)

Definition chat_message (self : t) (message : MessageData) : Aw L unit :=
  send self (event_frame (chat_message_ev message)).

Definition typing_indicator (self : t) (event_user : string)
    (is_typing : bool) : Aw L unit :=
  if decide (event_user ≠ user_username (user self)) then
    send self (event_frame (typing_indicator_ev event_user is_typing))
  else mret tt.

Definition message_reaction (self : t) (message_id : option Z)
    (reaction_type : option string) (action event_user : string)
    : Aw L unit :=
  send self (event_frame (message_reaction_ev message_id reaction_type
                            action event_user)).

Definition message_edited (self : t) (message : MessageData)
    : Aw L unit :=
  send self (event_frame (message_edited_ev message)).

Definition message_deleted (self : t) (message_id : option Z)
    : Aw L unit :=
  send self (event_frame (message_deleted_ev message_id)).

(** The framework calls the method the event's ['type'] names, and
    raises [ValueError] when the consumer has none. *)
Definition dispatch (self : t) (ev : Event) : Aw L unit :=
  match ev with
  | chat_message_ev message => chat_message self message
  | typing_indicator_ev u is_typing => typing_indicator self u is_typing
  | message_reaction_ev message_id reaction_type action u =>
      message_reaction self message_id reaction_type action u
  | message_edited_ev message => message_edited self message
  | message_deleted_ev message_id => message_deleted self message_id
  | direct_message_ev _ | messages_read_ev _ _ => raise ValueError
  end.
End Methods.
End ChatConsumer.

(** ** [DirectMessageConsumer] *)

Module DirectMessageConsumer.
(** The session, with [self.conversation_id] held as the room session
    holds [self.room_id]. *)
Record t := mk {
  channel_name : string;
  conversation_id : Z;
  room_group_name : string;
  user : ScopeUser;
}.

Section Methods.
Context {L : Type} `{!ChannelLayer L}.
Context (json_loads : string → Decoded).

Definition accept (self : t) : Aw L unit := emit (Accept (channel_name self)).
Definition close (self : t) : Aw L unit := emit (Close (channel_name self)).
Definition send (self : t) (text_data : OutFrame) : Aw L unit :=
  emit (Send (channel_name self) text_data).

(** *** Database operations *)

Definition is_conversation_participant (self : t) : Db bool :=
  db ← get;
  match conversations db !! conversation_id self with
  | Some conversation =>
      mret (match user_id (user self) with
            | Some uid =>
                bool_decide (uid ∈ Conversation.participants conversation)
            | None => false
            end)
  | None => mret false
  end.

(** [get_other_participant] returns the user object of the participant
    it finds (the queryset reads the user table), which is the recipient
    [create] is given; the sender it is given is the user object the
    session holds. *)
Definition save_direct_message (self : t) (content : string)
    : Db (option DirectMessageInstance) :=
  db ← get;
  match conversations db !! conversation_id self with
  | Some conversation =>
      match user self with
      | AnonymousUser => raise ValueError
      | AuthUser uid sender =>
          let recipient :=
            other ← Conversation_get_other_participant conversation uid;
            row ← users db !! other;
            Some (other, row) in
          message ← DirectMessage_objects_create (uid, sender) recipient
                                                 content;
          modify (with_conversations
                    <[conversation_id self :=
                        Conversation.mk
                          (Conversation.participants conversation)
                          (Some (dmi_pk message))]>);;
          mret (Some message)
      end
  | None => mret None
  end.

Definition serialize_direct_message (message : DirectMessageInstance)
    : Db DirectMessageData :=
  DirectMessageSerializer_data message.

(** [DirectMessage.objects.filter(id__in=, recipient=,
    is_read=False).update(is_read=True, read_at=timezone.now())]:
    the arguments of [update] are evaluated before the call. *)
Definition mark_messages_as_read (self : t) (message_ids : list Z)
    : Db unit :=
  match user_id (user self) with
  | None => raise TypeError
  | Some uid =>
      now ← timezone_now consumers_py.timezone;
      modify (with_direct_messages
        (map_imap (λ pk m,
           Some (if bool_decide (pk ∈ message_ids
                                 ∧ DirectMessage.recipient m = uid
                                 ∧ DirectMessage.is_read m = false)
                 then DirectMessage.mk
                        (DirectMessage.sender m)
                        (DirectMessage.recipient m)
                        (DirectMessage.content m)
                        (DirectMessage.message_type m)
                        true (Some now)
                        (DirectMessage.is_edited m)
                        (DirectMessage.edited_at m)
                        (DirectMessage.is_deleted m)
                        (DirectMessage.deleted_at m)
                        (DirectMessage.created_at m)
                        (DirectMessage.updated_at m)
                 else m))))
  end.

(** *** Lifecycle *)

Definition connect (channel : string) (scope : Scope) : Aw L t :=
  let self := mk channel (url_route_id scope)
                 ("direct_" +:+ url_route_kwarg scope)
                 (scope_user scope) in
  participant ← database_sync_to_async (is_conversation_participant self);
  if negb participant then
    close self;;
    mret self
  else
    channel_layer_group_add (room_group_name self) (channel_name self);;
    accept self;;
    mret self.

Definition disconnect (self : t) (close_code : Z) : Aw L t :=
  channel_layer_group_discard (room_group_name self) (channel_name self);;
  mret self.

(** *** Inbound frames *)

Definition handle_direct_message (self : t) (data : Frame) : Aw L unit :=
  content ← get_content_strip data;
  if negb (str_truthy content) then mret tt
  else
    message ← database_sync_to_async (save_direct_message self content);
    match message with
    | Some message =>
        message_data ← database_sync_to_async
                         (serialize_direct_message message);
        channel_layer_group_send (room_group_name self)
          (direct_message_ev message_data)
    | None => mret tt
    end.

Definition handle_typing (self : t) (data : Frame) : Aw L unit :=
  let is_typing := default false (frame_is_typing data) in
  channel_layer_group_send (room_group_name self)
    (typing_indicator_ev (user_username (user self)) is_typing).

Definition handle_message_read (self : t) (data : Frame) : Aw L unit :=
  let message_ids := default [] (frame_message_ids data) in
  database_sync_to_async (mark_messages_as_read self message_ids);;
  channel_layer_group_send (room_group_name self)
    (messages_read_ev message_ids (user_username (user self))).

Definition receive (self : t) (text_data : string) : Aw L unit :=
  match json_loads text_data with
  | decode_failure e => raise e
  | decoded json_other => raise AttributeError
  | decoded (json_object data) =>
      let message_type := frame_type data in
      if decide (message_type = Some "direct_message") then
        handle_direct_message self data
      else if decide (message_type = Some "typing") then
        handle_typing self data
      else if decide (message_type = Some "message_read") then
        handle_message_read self data
      else mret tt
  | JSONDecodeError => send self (error_frame "Invalid JSON")
  end.

(** *** Events from the conversation group *)

Definition direct_message (self : t) (message : DirectMessageData)
    : Aw L unit :=
  send self (event_frame (direct_message_ev message)).

Definition typing_indicator (self : t) (event_user : string)
    (is_typing : bool) : Aw L unit :=
  if decide (event_user ≠ user_username (user self)) then
    send self (event_frame (typing_indicator_ev event_user is_typing))
  else mret tt.

Definition messages_read (self : t) (message_ids : list Z)
    (event_user : string) : Aw L unit :=
  if decide (event_user ≠ user_username (user self)) then
    send self (event_frame (messages_read_ev message_ids event_user))
  else mret tt.

Definition dispatch (self : t) (ev : Event) : Aw L unit :=
  match ev with
  | direct_message_ev message => direct_message self message
  | typing_indicator_ev u is_typing => typing_indicator self u is_typing
  | messages_read_ev message_ids u => messages_read self message_ids u
  | chat_message_ev _ | message_reaction_ev _ _ _ _
  | message_edited_ev _ | message_deleted_ev _ => raise ValueError
  end.
End Methods.
End DirectMessageConsumer.

(** ** Channel-layer backends *)

(** An in-process backend: groups are sets of channel names, and a sent
    event is queued for every channel in the group at the time of the
    call. It never raises. *)
Record InMemoryChannelLayer := mkInMemory {
  groups : gmap string (gset string);
  queues : gmap string (list Event);
}.

Definition enqueue (ev : Event) (channel : string)
    (qs : gmap string (list Event)) : gmap string (list Event) :=
  <[channel := (default [] (qs !! channel) ++ [ev])%list]> qs.

Global Instance in_memory_layer : ChannelLayer InMemoryChannelLayer := {
  group_add group channel l :=
    Ok (mkInMemory
          (<[group := {[channel]} ∪ default ∅ (groups l !! group)]> (groups l))
          (queues l));
  group_discard group channel l :=
    Ok (mkInMemory
          (match groups l !! group with
           | Some chans =>
               let chans := chans ∖ {[channel]} in
               if decide (chans = ∅) then delete group (groups l)
               else <[group := chans]> (groups l)
           | None => groups l
           end)
          (queues l));
  group_send group ev l :=
    Ok (mkInMemory (groups l)
          (foldr (enqueue ev) (queues l)
                 (elements (default ∅ (groups l !! group)))));
}.

(** A backend whose server cannot be reached: every call raises. *)
Inductive UnreachableLayer := unreachable.

Global Instance unreachable_layer : ChannelLayer UnreachableLayer := {
  group_add _ _ _ := Raise ConnectionError;
  group_discard _ _ _ := Raise ConnectionError;
  group_send _ _ _ := Raise ConnectionError;
}.

(** ** Invariants of the store *)


(** [unique_together = ['message', 'user', 'reaction_type']]. *)
Definition count_reaction (message user : Z) (kind : string)
    (rs : list MessageReaction.t) : nat :=
  List.length (List.filter (same_reaction message user kind) rs).

(** ** A small deployment used in examples

    Room 1 has members alice (1) and bob (2); carol (3) is no member.
    Message 1 is alice's and live, message 2 is alice's and already
    soft-deleted. Conversation 1 is between alice and bob; direct
    message 1 was sent by bob to alice and is unread. *)

Definition alice : User.t := User.mk "alice" "offline" 10 false.
Definition bob : User.t := User.mk "bob" "offline" 10 false.
Definition carol : User.t := User.mk "carol" "offline" 10 false.

Definition demo_db : DB :=
  mkDB (list_to_map [(1, alice); (2, bob); (3, carol)])
       (list_to_map [(1, ChatRoom.mk "general" true {[1; 2]})])
       (list_to_map
          [(1, Message.mk 1 1 "hello" "text" None false None
                          false None 20 20);
           (2, Message.mk 1 1 deleted_placeholder "text" None false None
                          true (Some 30) 25 30)])
       []
       (list_to_map
          [(1, DirectMessage.mk 2 1 "ping" "text" false None false None
                                false None 40 40)])
       (list_to_map [(1, Conversation.mk [1; 2] (Some 1))])
       100.

Definition demo_layer : InMemoryChannelLayer :=
  mkInMemory (list_to_map [("chat_1", {["ws.alice"; "ws.bob"]});
                           ("direct_1", {["dm.alice"; "dm.bob"]})])
             ∅.

Definition demo_world : World InMemoryChannelLayer :=
  mkWorld demo_db demo_layer [].

Definition alice_room : ChatConsumer.t :=
  ChatConsumer.mk "ws.alice" 1 "chat_1" (AuthUser 1 alice).
Definition bob_room : ChatConsumer.t :=
  ChatConsumer.mk "ws.bob" 1 "chat_1" (AuthUser 2 bob).
Definition alice_dm : DirectMessageConsumer.t :=
  DirectMessageConsumer.mk "dm.alice" 1 "direct_1" (AuthUser 1 alice).

(** A decoder for the handful of frames the examples send. *)
Definition dquote : string := String (ascii_of_nat 34) EmptyString.

Definition ping_text : string :=
  "{" +:+ dquote +:+ "type" +:+ dquote +:+ ": "
      +:+ dquote +:+ "ping" +:+ dquote +:+ "}".

Definition demo_json_loads (text_data : string) : Decoded :=
  if decide (text_data = ping_text) then
    decoded (json_object
               (mkFrame (Some "ping") None None None None None None None))
  else if decide (text_data = "{}") then
    decoded (json_object (mkFrame None None None None None None None None))
  else if decide (text_data = "[1, 2]") then decoded json_other
  else if decide (text_data = "null") then decoded json_other
  else JSONDecodeError.

(** U+00A0 (no-break space) and U+2003 (em space), in UTF-8. *)
Definition nbsp : string :=
  String (ascii_of_nat 194) (String (ascii_of_nat 160) EmptyString).

Definition emsp : string :=
  String (ascii_of_nat 226)
    (String (ascii_of_nat 128) (String (ascii_of_nat 131) EmptyString)).

(** The tags [receive] dispatches on, per consumer. *)
Definition room_tags : list string :=
  ["chat_message"; "typing"; "message_reaction"; "message_edit";
   "message_delete"].

Definition conversation_tags : list string :=
  ["direct_message"; "typing"; "message_read"].

Definition unrecognized (tags : list string) (data : Frame) : Prop :=
  ∀ tag, frame_type data = Some tag → tag ∉ tags.

(** The outcome of a handler that wrote [ev] to its own socket and did
    nothing else. *)
Definition written {L} (channel : string) (ev : Event) (w : World L)
    : result unit * World L :=
  (Ok tt, mkWorld (db w) (layer w)
            (trace w ++ [Send channel (event_frame ev)])).

(** The same deployment while alice is connected to room 1 and the
    channel layer's server is down. *)
Definition alice_online : User.t := User.mk "alice" "online" 90 true.

Definition outage_world : World UnreachableLayer :=
  mkWorld (with_users <[1 := alice_online]> demo_db) unreachable [].

Definition alice_online_room : ChatConsumer.t :=
  ChatConsumer.mk "ws.alice" 1 "chat_1" (AuthUser 1 alice_online).

(** The rows [set_online_status] leaves behind. *)
Definition online_row (stored : User.t) (now : Z) : User.t :=
  User.mk (User.username stored) "online" now true.

Definition offline_row (stored self : User.t) : User.t :=
  User.mk (User.username stored) "offline" (User.last_seen self) false.

(** Frames the examples send. *)
Definition read_frame (ids : list Z) : Frame :=
  mkFrame (Some "message_read") None None None None None None (Some ids).

Definition edit_frame (id : Z) (content : string) : Frame :=
  mkFrame (Some "message_edit") (Some (json_str content)) None (Some id)
          None None None None.

Definition chat_frame (content : string) (reply_to : option Z) : Frame :=
  mkFrame (Some "chat_message") (Some (json_str content)) reply_to None
          None None None None.

Definition direct_frame (content : string) : Frame :=
  mkFrame (Some "direct_message") (Some (json_str content)) None None
          None None None None.

Definition typing_frame (is_typing : bool) : Frame :=
  mkFrame (Some "typing") None None None None None (Some is_typing) None.

(** The consumer's event loop on the in-process backend: the next event
    queued for the session's channel is taken off the queue and handed
    to the method its type names. *)
Definition next_event (channel : string)
    : Aw InMemoryChannelLayer (option Event) := λ w,
  match queues (layer w) !! channel with
  | Some (ev :: rest) =>
      (Ok (Some ev),
       mkWorld (db w)
         (mkInMemory (groups (layer w))
                     (<[channel := rest]> (queues (layer w))))
         (trace w))
  | _ => (Ok None, w)
  end.

Definition room_deliver (self : ChatConsumer.t)
    : Aw InMemoryChannelLayer unit :=
  ev ← next_event (ChatConsumer.channel_name self);
  match ev with
  | Some ev => ChatConsumer.dispatch self ev
  | None => mret tt
  end.

Definition conversation_deliver (self : DirectMessageConsumer.t)
    : Aw InMemoryChannelLayer unit :=
  ev ← next_event (DirectMessageConsumer.channel_name self);
  match ev with
  | Some ev => DirectMessageConsumer.dispatch self ev
  | None => mret tt
  end.

(** The world a coroutine leaves behind. *)
Definition after {L A} (m : Aw L A) (w : World L) : World L := (m w).2.

(** What went out on the socket of [channel]. *)
Definition sent_to (channel : string) (trace : list Effect)
    : list OutFrame :=
  omap (λ e, match e with
             | Send ch frame => if decide (ch = channel) then Some frame
                                else None
             | _ => None
             end) trace.

Definition delete_frame (id : Z) : Frame :=
  mkFrame (Some "message_delete") None None (Some id) None None None None.

Definition react_frame (id : Z) (kind action : string) : Frame :=
  mkFrame (Some "message_reaction") None None (Some id) (Some kind)
          (Some action) None None.

(** The rows [edit_message] and [delete_message] leave behind. *)
Definition edited_row (stored : Message.t) (new_content : string) (now : Z)
    : Message.t :=
  Message.mk (Message.room stored) (Message.sender stored) new_content
    (Message.message_type stored) (Message.reply_to stored) true (Some now)
    (Message.is_deleted stored) (Message.deleted_at stored)
    (Message.created_at stored) now.

Definition deleted_row (stored : Message.t) (now : Z) : Message.t :=
  Message.mk (Message.room stored) (Message.sender stored)
    deleted_placeholder (Message.message_type stored)
    (Message.reply_to stored) (Message.is_edited stored)
    (Message.edited_at stored) true (Some now)
    (Message.created_at stored) now.

(** ** Further model methods ([chat/models.py]) *)


(** [DirectMessage.mark_as_read]: [save(update_fields=['is_read',
    'read_at'])] writes those two columns of the stored row and raises
    when there is no row to update. *)
Definition DirectMessage_mark_as_read (pk : Z) (self : DirectMessage.t)
    : Db DirectMessage.t :=
  now ← timezone_now models_py.timezone;
  let self := DirectMessage.mk (DirectMessage.sender self)
                (DirectMessage.recipient self) (DirectMessage.content self)
                (DirectMessage.message_type self) true (Some now)
                (DirectMessage.is_edited self) (DirectMessage.edited_at self)
                (DirectMessage.is_deleted self) (DirectMessage.deleted_at self)
                (DirectMessage.created_at self)
                (DirectMessage.updated_at self) in
  db ← get;
  match direct_messages db !! pk with
  | None => raise DatabaseError
  | Some row =>
      modify (with_direct_messages
                <[pk := DirectMessage.mk (DirectMessage.sender row)
                          (DirectMessage.recipient row)
                          (DirectMessage.content row)
                          (DirectMessage.message_type row)
                          (DirectMessage.is_read self)
                          (DirectMessage.read_at self)
                          (DirectMessage.is_edited row)
                          (DirectMessage.edited_at row)
                          (DirectMessage.is_deleted row)
                          (DirectMessage.deleted_at row)
                          (DirectMessage.created_at row)
                          (DirectMessage.updated_at row)]>);;
      mret self
  end.

(** The rows [Conversation.get_unread_count] counts for [user]. *)
Definition unread_for (self : Conversation.t) (user : Z)
    (m : DirectMessage.t) : bool :=
  bool_decide
    (DirectMessage.sender m
       ∈ filter (λ p, p ≠ user) (Conversation.participants self)
     ∧ DirectMessage.recipient m = user
     ∧ DirectMessage.is_read m = false
     ∧ DirectMessage.is_deleted m = false).

(** [Conversation.get_unread_count]. *)
Definition Conversation_get_unread_count (self : Conversation.t) (user : Z)
    (db : DB) : nat :=
  size (filter (λ kv : Z * DirectMessage.t, unread_for self user kv.2 = true)
               (direct_messages db)).

(** ** Connection authentication ([chat/middlewares.py]) *)

(** What validating and decoding a token comes to: one of the exceptions
    [get_user_from_token] catches ([InvalidToken], [TokenError],
    [jwt.DecodeError]), the decoded token's [user_id] entry, or an
    exception of the token libraries that it does not catch. *)
Inductive token_outcome :=
  | token_rejected
  | token_decoded (user_id : option Z)
  | token_failure (e : exn).

Section Middleware.
Context (check_token : string → token_outcome).

(** [get_user_from_token]. *)
Definition get_user_from_token (token_string : string) : Db ScopeUser :=
  match check_token token_string with
  | token_rejected => mret AnonymousUser
  | token_failure e => raise e
  | token_decoded user_id =>
      if int_truthy user_id then
        db ← get;
        match objects_get (users db) user_id (λ _, true) with
        | Some (pk, user) =>
            user ← User_update_last_seen pk user;
            mret (AuthUser pk user)
        | None => mret AnonymousUser
        end
      else mret AnonymousUser
  end.

(** [JWTAuthMiddleware.__call__], up to the call of the inner
    application: the user it puts in the scope, given the [token] entry
    of the query string. *)
Definition JWTAuthMiddleware_call (token : option string) : Db ScopeUser :=
  match token with
  | Some token =>
      if str_truthy token then get_user_from_token token
      else mret AnonymousUser
  | None => mret AnonymousUser
  end.
End Middleware.

(** ** The REST callers of the model methods ([chat/views.py]) *)

Inductive Response :=
  | HTTP_200_OK
  | HTTP_201_CREATED
  | HTTP_204_NO_CONTENT
  | HTTP_400_BAD_REQUEST
  | HTTP_404_NOT_FOUND.

Module views_py.
Definition timezone : pyobject := datetime_timezone.
End views_py.

(** The keys of [MessageReaction.REACTION_TYPES]. *)
Definition REACTION_TYPES : list string :=
  ["like"; "love"; "laugh"; "wow"; "sad"; "angry"].

(** [MessageDetailView.get_queryset] for the authenticated [user]. *)
Definition MessageDetailView_get_queryset (user : Z) (db : DB)
    : gmap Z Message.t :=
  filter (λ kv : Z * Message.t,
            Message.sender kv.2 = user ∧ Message.is_deleted kv.2 = false)
         (messages db).

(** [DELETE messages/<pk>/]: the generic view fetches the object from
    the queryset, answering 404 when it is not there, and calls
    [perform_destroy]. *)
Definition MessageDetailView_destroy (user pk : Z) : Db Response :=
  db ← get;
  match MessageDetailView_get_queryset user db !! pk with
  | None => mret HTTP_404_NOT_FOUND
  | Some instance =>
      Message_delete_message pk instance;;
      mret HTTP_204_NO_CONTENT
  end.

(** [DirectMessageDetailView.get_queryset]. *)
Definition DirectMessageDetailView_get_queryset (user : Z) (db : DB)
    : gmap Z DirectMessage.t :=
  filter (λ kv : Z * DirectMessage.t,
            (DirectMessage.sender kv.2 = user
             ∨ DirectMessage.recipient kv.2 = user)
            ∧ DirectMessage.is_deleted kv.2 = false)
         (direct_messages db).

(** [DELETE direct-messages/<pk>/]; [perform_destroy] deletes only for
    the sender. *)
Definition DirectMessageDetailView_destroy (user pk : Z) : Db Response :=
  db ← get;
  match DirectMessageDetailView_get_queryset user db !! pk with
  | None => mret HTTP_404_NOT_FOUND
  | Some instance =>
      (if decide (DirectMessage.sender instance = user) then
         DirectMessage_delete_message pk instance;;
         mret tt
       else mret tt);;
      mret HTTP_204_NO_CONTENT
  end.

(** The rows [DirectMessage.mark_as_read] and [get_user_from_token]
    leave behind. *)
Definition read_row (stored : DirectMessage.t) (now : Z) : DirectMessage.t :=
  DirectMessage.mk (DirectMessage.sender stored)
    (DirectMessage.recipient stored) (DirectMessage.content stored)
    (DirectMessage.message_type stored) true (Some now)
    (DirectMessage.is_edited stored) (DirectMessage.edited_at stored)
    (DirectMessage.is_deleted stored) (DirectMessage.deleted_at stored)
    (DirectMessage.created_at stored) (DirectMessage.updated_at stored).

Definition seen_row (stored : User.t) (now : Z) : User.t :=
  User.mk (User.username stored) (User.status stored) now
          (User.is_online stored).

(** [POST messages/<message_id>/reactions/] by the authenticated
    [user]: [views.add_message_reaction]. *)
Definition views_add_message_reaction (user message_id : Z)
    (reaction_type : option string) : Db Response :=
  db ← get;
  match objects_get (messages db) (Some message_id)
          (λ m, match rooms db !! Message.room m with
                | Some room => bool_decide (user ∈ ChatRoom.members room)
                | None => false
                end) with
  | None => mret HTTP_404_NOT_FOUND
  | Some (pk, _) =>
      if match reaction_type with
         | Some kind => bool_decide (kind ∈ REACTION_TYPES)
         | None => false
         end then
        '(_, created) ←
          MessageReaction_objects_get_or_create pk user reaction_type;
        mret (if created : bool then HTTP_201_CREATED
              else HTTP_400_BAD_REQUEST)
      else mret HTTP_400_BAD_REQUEST
  end.

(** [POST conversations/<conversation_id>/read/] by the authenticated
    [user]: [views.mark_direct_messages_as_read]. As in the consumer,
    the arguments of [update] are evaluated before the call. *)
Definition views_mark_direct_messages_as_read (user conversation_id : Z)
    : Db Response :=
  db ← get;
  match objects_get (conversations db) (Some conversation_id)
          (λ c, bool_decide (user ∈ Conversation.participants c)) with
  | None => mret HTTP_404_NOT_FOUND
  | Some (_, conversation) =>
      let other_participant :=
        Conversation_get_other_participant conversation user in
      now ← timezone_now views_py.timezone;
      modify (with_direct_messages
        (fmap (λ m,
           if bool_decide (Some (DirectMessage.sender m) = other_participant
                           ∧ DirectMessage.recipient m = user
                           ∧ DirectMessage.is_read m = false)
           then read_row m now else m)));;
      mret HTTP_200_OK
  end.

(** The store when the clock reads [now]. *)
Definition with_clock (now : Z) (db : DB) : DB :=
  mkDB (users db) (rooms db) (messages db) (reactions db)
       (direct_messages db) (conversations db) now.

(** ** Predicates used in the properties below *)

(** The text [data.get('content', '')] returns, where it is one. *)
Definition content_text (data : Frame) : option string :=
  match frame_content data with
  | None => Some EmptyString
  | Some (json_str s) => Some s
  | Some json_not_str => None
  end.

(** Text made of spaces only: [strip()] empties it. *)
Inductive blank : string → Prop :=
  | blank_empty : blank EmptyString
  | blank_space bytes s :
      isspace bytes = true → blank s →
      blank (string_of_list_ascii bytes +:+ s).

(** [unique_together] on the reaction table, for every triple. *)
Definition reactions_unique (db : DB) : Prop :=
  ∀ message user kind,
    (count_reaction message user kind (reactions db) ≤ 1)%nat.

(** The wire after a step that wrote at most one thing, addressed to the
    session's own socket or its own group. *)
Definition own_output (channel group : string)
    (before after : list Effect) : Prop :=
  after = before
  ∨ after = (before ++ [Send channel (error_frame "Invalid JSON")])%list
  ∨ ∃ ev, after = (before ++ [GroupSend group ev])%list.

(** Computations that write nothing, and that send at most one event to
    [group] and write nothing else. *)
Definition silent {L A} (m : Aw L A) : Prop :=
  ∀ w, trace (m w).2 = trace w.

Definition sends_at_most_one {L A} (group : string) (m : Aw L A) : Prop :=
  ∀ w, trace (m w).2 = trace w
       ∨ ∃ ev, trace (m w).2 = (trace w ++ [GroupSend group ev])%list.

(** ORM code that leaves a part [f] of the store as it found it. *)
Definition db_keeps {X A} (f : DB → X) (m : Db A) : Prop :=
  ∀ db, f (m db).2 = f db.

(** A coroutine that leaves a part [f] of the store as it found it. *)
Definition aw_keeps {L X A} (f : DB → X) (m : Aw L A) : Prop :=
  ∀ w, f (db (m w).2) = f (db w).

(** What a room session's frames never touch, and what a conversation
    session's frames never touch. *)
Definition outside_room (db : DB) :=
  (users db, rooms db, direct_messages db, conversations db, clock db).

Definition outside_conversation (db : DB) :=
  (users db, rooms db, messages db, reactions db, clock db).

(** * Properties *)

(** ** Running the monads *)

Lemma bind_ok {S A B} (m : SE S A) (f : A → SE S B) s a s' :
  m s = (Ok a, s') → (m ≫= f) s = f a s'.
Proof. intros H. unfold mbind, SE_bind. by rewrite H. Qed.

Lemma bind_raise {S A B} (m : SE S A) (f : A → SE S B) s e s' :
  m s = (Raise e, s') → (m ≫= f) s = (Raise e, s').
Proof. intros H. unfold mbind, SE_bind. by rewrite H. Qed.

Lemma django_timezone_now db :
  timezone_now django_utils_timezone db = (Ok (clock db), db).
Proof. reflexivity. Qed.

Lemma models_timezone_now db :
  timezone_now models_py.timezone db = (Ok (clock db), db).
Proof. reflexivity. Qed.

(** [from datetime import timezone]: the class has no [now]. *)
Lemma consumers_timezone_now db :
  timezone_now consumers_py.timezone db = (Raise AttributeError, db).
Proof. reflexivity. Qed.

(** [from chat_project.accounts import models]: no [Count] there. *)
Lemma get_reaction_counts_raises pk db :
  get_reaction_counts pk db = (Raise AttributeError, db).
Proof. reflexivity. Qed.

Lemma MessageSerializer_data_raises pk obj db :
  MessageSerializer_data pk obj db = (Raise AttributeError, db).
Proof. reflexivity. Qed.

Lemma foreign_key_same {A} (table : gmap Z A) key :
  foreign_key table key key = true.
Proof.
  destruct key as [k|]; [|done]. simpl.
  by rewrite bool_decide_eq_true_2 by done.
Qed.

(** An instance that holds the room, the sender and the reply target of
    the stored row passes the foreign-key checks of an update. *)
Lemma Message_foreign_keys_stored db stored self :
  Message.room self = Message.room stored →
  Message.sender self = Message.sender stored →
  Message.reply_to self = Message.reply_to stored →
  Message_foreign_keys db (Some stored) self = true.
Proof.
  intros Hroom Hsender Hreply. unfold Message_foreign_keys.
  cbn [fmap option_fmap option_map mbind option_bind].
  rewrite Hroom, Hsender, Hreply. by rewrite !foreign_key_same.
Qed.

Lemma DirectMessage_foreign_keys_stored db stored self :
  DirectMessage.sender self = DirectMessage.sender stored →
  DirectMessage.recipient self = DirectMessage.recipient stored →
  DirectMessage_foreign_keys db (Some stored) self = true.
Proof.
  intros Hsender Hrecipient. unfold DirectMessage_foreign_keys.
  cbn [fmap option_fmap option_map].
  rewrite Hsender, Hrecipient. by rewrite !foreign_key_same.
Qed.

(** [save()] over a stored row: an update, which keeps the instance's
    [created_at]. *)
Lemma Message_save_update pk self stored db :
  messages db !! pk = Some stored →
  Message_foreign_keys db (Some stored) self = true →
  Message_save pk self db =
    let saved := Message.mk (Message.room self) (Message.sender self)
                   (Message.content self) (Message.message_type self)
                   (Message.reply_to self) (Message.is_edited self)
                   (Message.edited_at self) (Message.is_deleted self)
                   (Message.deleted_at self) (Message.created_at self)
                   (clock db) in
    (Ok saved, with_messages <[pk := saved]> db).
Proof.
  intros Hrow Hfk. unfold Message_save.
  rewrite (bind_ok _ _ _ _ _ (django_timezone_now db)).
  unfold mbind at 1, SE_bind, get. by rewrite Hrow, Hfk.
Qed.


Lemma Message_save_refused pk self db :
  Message_foreign_keys db (messages db !! pk) self = false →
  Message_save pk self db = (Raise IntegrityError, db).
Proof.
  intros Hfk. unfold Message_save.
  rewrite (bind_ok _ _ _ _ _ (django_timezone_now db)).
  unfold mbind at 1, SE_bind, get. by rewrite Hfk.
Qed.

Lemma DirectMessage_save_update pk self stored db :
  direct_messages db !! pk = Some stored →
  DirectMessage_foreign_keys db (Some stored) self = true →
  DirectMessage_save pk self db =
    let saved := DirectMessage.mk (DirectMessage.sender self)
                   (DirectMessage.recipient self) (DirectMessage.content self)
                   (DirectMessage.message_type self)
                   (DirectMessage.is_read self) (DirectMessage.read_at self)
                   (DirectMessage.is_edited self)
                   (DirectMessage.edited_at self)
                   (DirectMessage.is_deleted self)
                   (DirectMessage.deleted_at self)
                   (DirectMessage.created_at self) (clock db) in
    (Ok saved, with_direct_messages <[pk := saved]> db).
Proof.
  intros Hrow Hfk. unfold DirectMessage_save.
  rewrite (bind_ok _ _ _ _ _ (django_timezone_now db)).
  unfold mbind at 1, SE_bind, get. by rewrite Hrow, Hfk.
Qed.

Lemma DirectMessage_save_refused pk self db :
  DirectMessage_foreign_keys db (direct_messages db !! pk) self = false →
  DirectMessage_save pk self db = (Raise IntegrityError, db).
Proof.
  intros Hfk. unfold DirectMessage_save.
  rewrite (bind_ok _ _ _ _ _ (django_timezone_now db)).
  unfold mbind at 1, SE_bind, get. by rewrite Hfk.
Qed.

Lemma DirectMessage_save_insert pk self db :
  direct_messages db !! pk = None →
  DirectMessage_foreign_keys db None self = true →
  DirectMessage_save pk self db =
    let saved := DirectMessage.mk (DirectMessage.sender self)
                   (DirectMessage.recipient self) (DirectMessage.content self)
                   (DirectMessage.message_type self)
                   (DirectMessage.is_read self) (DirectMessage.read_at self)
                   (DirectMessage.is_edited self)
                   (DirectMessage.edited_at self)
                   (DirectMessage.is_deleted self)
                   (DirectMessage.deleted_at self) (clock db) (clock db) in
    (Ok saved, with_direct_messages <[pk := saved]> db).
Proof.
  intros Hrow Hfk. unfold DirectMessage_save.
  rewrite (bind_ok _ _ _ _ _ (django_timezone_now db)).
  unfold mbind at 1, SE_bind, get. by rewrite Hrow, Hfk.
Qed.

Lemma Message_edit_message_eq pk self stored new_content db :
  messages db !! pk = Some stored →
  Message_foreign_keys db (Some stored) self = true →
  Message_edit_message pk self new_content db =
    let saved := Message.mk (Message.room self) (Message.sender self)
                   new_content (Message.message_type self)
                   (Message.reply_to self) true (Some (clock db))
                   (Message.is_deleted self) (Message.deleted_at self)
                   (Message.created_at self) (clock db) in
    (Ok saved, with_messages <[pk := saved]> db).
Proof.
  intros Hrow Hfk. unfold Message_edit_message.
  rewrite (bind_ok _ _ _ _ _ (models_timezone_now db)).
  by rewrite (Message_save_update _ _ _ _ Hrow).
Qed.

Lemma Message_delete_message_eq pk self stored db :
  messages db !! pk = Some stored →
  Message_foreign_keys db (Some stored) self = true →
  Message_delete_message pk self db =
    let saved := Message.mk (Message.room self) (Message.sender self)
                   deleted_placeholder (Message.message_type self)
                   (Message.reply_to self) (Message.is_edited self)
                   (Message.edited_at self) true (Some (clock db))
                   (Message.created_at self) (clock db) in
    (Ok saved, with_messages <[pk := saved]> db).
Proof.
  intros Hrow Hfk. unfold Message_delete_message.
  rewrite (bind_ok _ _ _ _ _ (models_timezone_now db)).
  by rewrite (Message_save_update _ _ _ _ Hrow).
Qed.

Lemma DirectMessage_delete_message_eq pk self stored db :
  direct_messages db !! pk = Some stored →
  DirectMessage_foreign_keys db (Some stored) self = true →
  DirectMessage_delete_message pk self db =
    let saved := DirectMessage.mk (DirectMessage.sender self)
       (DirectMessage.recipient self) deleted_placeholder
       (DirectMessage.message_type self) (DirectMessage.is_read self)
       (DirectMessage.read_at self) (DirectMessage.is_edited self)
       (DirectMessage.edited_at self) true (Some (clock db))
       (DirectMessage.created_at self) (clock db) in
    (Ok saved, with_direct_messages <[pk := saved]> db).
Proof.
  intros Hrow Hfk. unfold DirectMessage_delete_message.
  rewrite (bind_ok _ _ _ _ _ (models_timezone_now db)).
  by rewrite (DirectMessage_save_update _ _ _ _ Hrow).
Qed.

(** The same for the instance the ORM has just loaded from the row. *)
Lemma Message_edit_message_loaded pk stored new_content db :
  messages db !! pk = Some stored →
  Message_edit_message pk stored new_content db =
    (Ok (edited_row stored new_content (clock db)),
     with_messages <[pk := edited_row stored new_content (clock db)]> db).
Proof.
  intros Hrow.
  by rewrite (Message_edit_message_eq _ _ _ _ _ Hrow
                (Message_foreign_keys_stored _ _ _ eq_refl eq_refl eq_refl)).
Qed.

Lemma Message_delete_message_loaded pk stored db :
  messages db !! pk = Some stored →
  Message_delete_message pk stored db =
    (Ok (deleted_row stored (clock db)),
     with_messages <[pk := deleted_row stored (clock db)]> db).
Proof.
  intros Hrow.
  by rewrite (Message_delete_message_eq _ _ _ _ Hrow
                (Message_foreign_keys_stored _ _ _ eq_refl eq_refl eq_refl)).
Qed.

Lemma objects_get_Some {A} (table : gmap Z A) id cond pk row :
  objects_get table id cond = Some (pk, row) ↔
  id = Some pk ∧ table !! pk = Some row ∧ cond row = true.
Proof.
  unfold objects_get. destruct id as [k|]; simpl.
  - destruct (table !! k) as [r|] eqn:Hk; simpl.
    + destruct (cond r) eqn:Hc; split.
      * intros [= <- <-]. done.
      * intros ([= <-] & Hrow & _). congruence.
      * done.
      * intros ([= <-] & Hrow & Hcond). congruence.
    + split; [done|]. intros ([= <-] & Hrow & _). congruence.
  - split; [done|]. by intros (? & _).
Qed.

Lemma objects_get_None {A} (table : gmap Z A) id cond :
  objects_get table id cond = None ↔
  ∀ pk row, id = Some pk → table !! pk = Some row → cond row = false.
Proof.
  unfold objects_get. destruct id as [k|]; simpl.
  - destruct (table !! k) as [r|] eqn:Hk; simpl.
    + destruct (cond r) eqn:Hc; split.
      * done.
      * intros Hno. specialize (Hno k r eq_refl Hk). congruence.
      * intros _ pk row [= <-] Hrow. congruence.
      * done.
    + split; [|done]. intros _ pk row [= <-] Hrow. congruence.
  - split; [|done]. by intros _ pk row.
Qed.

(** ** Soft delete *)

(** The consumer's delete, when it returns a message, has run the model's
    [delete_message] on the stored row of that key. *)
Lemma delete_message_success self id db pk saved db' :
  ChatConsumer.delete_message self id db = (Ok (Some (pk, saved)), db') →
  ∃ stored, id = Some pk ∧ messages db !! pk = Some stored
            ∧ Message.room stored = ChatConsumer.room_id self
            ∧ user_id (ChatConsumer.user self)
              = Some (Message.sender stored)
            ∧ Message_delete_message pk stored db = (Ok saved, db')
            ∧ saved = deleted_row stored (clock db)
            ∧ db' = with_messages <[pk := saved]> db.
Proof.
  unfold ChatConsumer.delete_message.
  destruct (user_id (ChatConsumer.user self)) as [uid|]; [|done].
  unfold mbind at 1, SE_bind, get.
  destruct (objects_get _ _ _) as [[k stored]|] eqn:Hget; [|done].
  apply objects_get_Some in Hget as (-> & Hrow & Hcond).
  apply bool_decide_eq_true in Hcond as [Hroom Hsender].
  rewrite (bind_ok _ _ _ _ _ (Message_delete_message_loaded k stored db Hrow)).
  intros [= <- <- <-]. exists stored.
  rewrite (Message_delete_message_loaded k stored db Hrow).
  by rewrite Hsender.
Qed.

(** C10. The soft-delete placeholder is the string "This message was
    deleted", the same for room messages and direct messages. A delete of
    a stored row whose write the database accepts (the instance's
    foreign keys are those of the row, or name stored rows) succeeds: it
    sets the content to the placeholder, [is_deleted] to true and
    [deleted_at] to the time of the deletion, and leaves the sender, the
    group key (the room; for a direct message the recipient) and the
    creation time as the instance has them. Every delete that succeeds
    through the room consumer is such a delete, by the instance just
    loaded from the stored row, so that these columns are the stored
    ones. *)
Theorem soft_delete_placeholder :
  deleted_placeholder = "This message was deleted"
  ∧ (∀ pk (self stored : Message.t) db,
       messages db !! pk = Some stored →
       Message_foreign_keys db (Some stored) self = true →
       ∃ saved,
         Message_delete_message pk self db
           = (Ok saved, with_messages <[pk := saved]> db)
         ∧ Message.content saved = deleted_placeholder
         ∧ Message.is_deleted saved = true
         ∧ Message.deleted_at saved = Some (clock db)
         ∧ Message.sender saved = Message.sender self
         ∧ Message.room saved = Message.room self
         ∧ Message.created_at saved = Message.created_at self)
  ∧ (∀ pk (self stored : DirectMessage.t) db,
       direct_messages db !! pk = Some stored →
       DirectMessage_foreign_keys db (Some stored) self = true →
       ∃ saved,
         DirectMessage_delete_message pk self db
           = (Ok saved, with_direct_messages <[pk := saved]> db)
         ∧ DirectMessage.content saved = deleted_placeholder
         ∧ DirectMessage.is_deleted saved = true
         ∧ DirectMessage.deleted_at saved = Some (clock db)
         ∧ DirectMessage.sender saved = DirectMessage.sender self
         ∧ DirectMessage.recipient saved = DirectMessage.recipient self
         ∧ DirectMessage.created_at saved = DirectMessage.created_at self)
  ∧ (∀ self id db pk saved db',
       ChatConsumer.delete_message self id db = (Ok (Some (pk, saved)), db') →
       ∃ stored,
         messages db !! pk = Some stored
         ∧ db' = with_messages <[pk := saved]> db
         ∧ Message.content saved = deleted_placeholder
         ∧ Message.is_deleted saved = true
         ∧ Message.deleted_at saved = Some (clock db)
         ∧ Message.sender saved = Message.sender stored
         ∧ Message.room saved = Message.room stored
         ∧ Message.created_at saved = Message.created_at stored).
Proof.
  split; [reflexivity|]. split; [|split].
  - intros pk self stored db Hrow Hfk.
    rewrite (Message_delete_message_eq _ _ _ _ Hrow Hfk). by eexists.
  - intros pk self stored db Hrow Hfk.
    rewrite (DirectMessage_delete_message_eq _ _ _ _ Hrow Hfk). by eexists.
  - intros self id db pk saved db' Hdel.
    apply delete_message_success in Hdel
      as (stored & _ & Hrow & _ & _ & _ & -> & ->).
    by exists stored.
Qed.

Lemma soft_delete_placeholder_witness :
  (∃ stored,
     messages demo_db !! 1 = Some stored
     ∧ Message.content stored = "hello"
     ∧ ∃ saved,
         ChatConsumer.delete_message alice_room (Some 1) demo_db
           = (Ok (Some (1, saved)), with_messages <[1 := saved]> demo_db)
         ∧ Message.content saved = "This message was deleted"
         ∧ Message.sender saved = Message.sender stored)
  ∧ (∃ saved,
       Message_delete_message 1
         (Message.mk 1 1 "hello" "text" None false None false None 20 20)
         demo_db
         = (Ok saved, with_messages <[1 := saved]> demo_db)
       ∧ Message.content saved = "This message was deleted"
       ∧ Message.created_at saved = 20)
  ∧ (∃ saved,
       DirectMessage_delete_message 1
         (DirectMessage.mk 2 1 "ping" "text" false None false None
                           false None 40 40)
         demo_db
         = (Ok saved, with_direct_messages <[1 := saved]> demo_db)
       ∧ DirectMessage.content saved = "This message was deleted"
       ∧ DirectMessage.created_at saved = 40).
Proof.
  split; [|split].
  - destruct (proj2 (proj2 (proj2 soft_delete_placeholder))
                alice_room (Some 1) demo_db 1
                (Message.mk 1 1 deleted_placeholder "text" None false None
                            true (Some 100) 20 100)
                _ eq_refl)
      as (stored & Hrow & Hdb & Hcontent & _ & _ & Hsender & _).
    exists stored. split; [exact Hrow|]. split.
    + vm_compute in Hrow. by injection Hrow as <-.
    + eexists. split; [reflexivity|]. split; [reflexivity|exact Hsender].
  - destruct (proj1 (proj2 soft_delete_placeholder) 1
                (Message.mk 1 1 "hello" "text" None false None
                            false None 20 20)
                (Message.mk 1 1 "hello" "text" None false None
                            false None 20 20)
                demo_db eq_refl eq_refl)
      as (saved & Hsaved & Hcontent & _ & _ & _ & _ & Hcreated).
    exists saved. split; [exact Hsaved|]. split; [exact Hcontent|].
    exact Hcreated.
  - destruct (proj1 (proj2 (proj2 soft_delete_placeholder)) 1
                (DirectMessage.mk 2 1 "ping" "text" false None false None
                                  false None 40 40)
                (DirectMessage.mk 2 1 "ping" "text" false None false None
                                  false None 40 40)
                demo_db eq_refl eq_refl)
      as (saved & Hsaved & Hcontent & _ & _ & _ & _ & Hcreated).
    exists saved. split; [exact Hsaved|]. split; [exact Hcontent|].
    exact Hcreated.
Defined.

(** ** The membership gate at join time *)

Lemma is_room_member_eq self db :
  ChatConsumer.is_room_member self db =
    (Ok match rooms db !! ChatConsumer.room_id self with
        | Some room =>
            match user_id (ChatConsumer.user self) with
            | Some uid => bool_decide (uid ∈ ChatRoom.members room)
            | None => false
            end
        | None => false
        end, db).
Proof.
  unfold ChatConsumer.is_room_member, mbind, SE_bind, get.
  by destruct (rooms db !! ChatConsumer.room_id self).
Qed.

Lemma is_conversation_participant_eq self db :
  DirectMessageConsumer.is_conversation_participant self db =
    (Ok match conversations db !! DirectMessageConsumer.conversation_id self
        with
        | Some conversation =>
            match user_id (DirectMessageConsumer.user self) with
            | Some uid =>
                bool_decide (uid ∈ Conversation.participants conversation)
            | None => false
            end
        | None => false
        end, db).
Proof.
  unfold DirectMessageConsumer.is_conversation_participant,
    mbind, SE_bind, get.
  by destruct (conversations db !! DirectMessageConsumer.conversation_id self).
Qed.

Lemma database_sync_to_async_eq {L A} (m : Db A) (w : World L) r db' :
  m (db w) = (r, db') →
  database_sync_to_async m w = (r, mkWorld db' (layer w) (trace w)).
Proof. intros H. unfold database_sync_to_async. by rewrite H. Qed.

Lemma world_eta {L} (w : World L) : mkWorld (db w) (layer w) (trace w) = w.
Proof. by destruct w. Qed.

Section Gate.
Context {L : Type} `{!ChannelLayer L}.

Lemma room_connect_refused channel scope (w : World L) :
  let self := ChatConsumer.mk channel (url_route_id scope)
                ("chat_" +:+ url_route_kwarg scope)
                (scope_user scope) in
  ChatConsumer.is_room_member self (db w) = (Ok false, db w) →
  ChatConsumer.connect channel scope w
    = (Ok self, mkWorld (db w) (layer w) (trace w ++ [Close channel])).
Proof.
  intros self Hcheck. unfold ChatConsumer.connect. fold self.
  rewrite (bind_ok _ _ _ _ _ (database_sync_to_async_eq _ _ _ _ Hcheck)).
  by rewrite world_eta.
Qed.

Lemma conversation_connect_refused channel scope (w : World L) :
  let self := DirectMessageConsumer.mk channel (url_route_id scope)
                ("direct_" +:+ url_route_kwarg scope)
                (scope_user scope) in
  DirectMessageConsumer.is_conversation_participant self (db w)
    = (Ok false, db w) →
  DirectMessageConsumer.connect channel scope w
    = (Ok self, mkWorld (db w) (layer w) (trace w ++ [Close channel])).
Proof.
  intros self Hcheck. unfold DirectMessageConsumer.connect. fold self.
  rewrite (bind_ok _ _ _ _ _ (database_sync_to_async_eq _ _ _ _ Hcheck)).
  by rewrite world_eta.
Qed.
End Gate.

(** C4. When the membership check of a joining session is false, which
    it is in particular when the group does not exist and when the
    session is anonymous, [connect] closes the connection and does
    nothing else: the channel layer (the live sets of all groups) and the
    store are as before, and the only thing on the wire is the close; no
    accept, no send, no group send. This holds for rooms and for
    conversations, on any channel layer. *)
Theorem join_refused_without_membership :
  ∀ (L : Type) (CL : ChannelLayer L) channel scope (w : World L),
    let room_self := ChatConsumer.mk channel (url_route_id scope)
                       ("chat_" +:+ url_route_kwarg scope)
                       (scope_user scope) in
    let dm_self := DirectMessageConsumer.mk channel (url_route_id scope)
                     ("direct_" +:+ url_route_kwarg scope)
                     (scope_user scope) in
    let refused := mkWorld (db w) (layer w) (trace w ++ [Close channel]) in
    (ChatConsumer.is_room_member room_self (db w) = (Ok false, db w) →
       ChatConsumer.connect channel scope w = (Ok room_self, refused))
    ∧ (DirectMessageConsumer.is_conversation_participant dm_self (db w)
         = (Ok false, db w) →
       DirectMessageConsumer.connect channel scope w = (Ok dm_self, refused))
    ∧ (rooms (db w) !! url_route_id scope = None
       ∨ scope_user scope = AnonymousUser →
       ChatConsumer.connect channel scope w = (Ok room_self, refused))
    ∧ (conversations (db w) !! url_route_id scope = None
       ∨ scope_user scope = AnonymousUser →
       DirectMessageConsumer.connect channel scope w = (Ok dm_self, refused)).
Proof.
  intros L CL channel scope w room_self dm_self refused.
  split; [apply room_connect_refused|].
  split; [apply conversation_connect_refused|].
  split.
  - intros Hno. apply room_connect_refused.
    rewrite is_room_member_eq. simpl.
    destruct Hno as [-> | ->]; [done|].
    by destruct (rooms (db w) !! url_route_id scope).
  - intros Hno. apply conversation_connect_refused.
    rewrite is_conversation_participant_eq. simpl.
    destruct Hno as [-> | ->]; [done|].
    by destruct (conversations (db w) !! url_route_id scope).
Qed.

Lemma join_refused_without_membership_witness :
  ChatConsumer.connect "ws.carol" (mkScope "1" 1 (AuthUser 3 carol)) demo_world
    = (Ok (ChatConsumer.mk "ws.carol" 1 "chat_1" (AuthUser 3 carol)),
       mkWorld demo_db demo_layer [Close "ws.carol"])
  ∧ DirectMessageConsumer.connect "dm.carol" (mkScope "1" 1 (AuthUser 3 carol))
      demo_world
    = (Ok (DirectMessageConsumer.mk "dm.carol" 1 "direct_1"
             (AuthUser 3 carol)),
       mkWorld demo_db demo_layer [Close "dm.carol"])
  ∧ ChatConsumer.connect "ws.anon" (mkScope "1" 1 AnonymousUser) demo_world
    = (Ok (ChatConsumer.mk "ws.anon" 1 "chat_1" AnonymousUser),
       mkWorld demo_db demo_layer [Close "ws.anon"])
  ∧ DirectMessageConsumer.connect "dm.gone" (mkScope "7" 7 (AuthUser 1 alice))
      demo_world
    = (Ok (DirectMessageConsumer.mk "dm.gone" 7 "direct_7"
             (AuthUser 1 alice)),
       mkWorld demo_db demo_layer [Close "dm.gone"]).
Proof.
  split; [|split; [|split]].
  - destruct (join_refused_without_membership InMemoryChannelLayer _
                "ws.carol" (mkScope "1" 1 (AuthUser 3 carol)) demo_world)
      as (Hcheck & _).
    apply Hcheck. reflexivity.
  - destruct (join_refused_without_membership InMemoryChannelLayer _
                "dm.carol" (mkScope "1" 1 (AuthUser 3 carol)) demo_world)
      as (_ & Hcheck & _).
    apply Hcheck. reflexivity.
  - destruct (join_refused_without_membership InMemoryChannelLayer _
                "ws.anon" (mkScope "1" 1 AnonymousUser) demo_world)
      as (_ & _ & Hroom & _).
    apply Hroom. right. reflexivity.
  - destruct (join_refused_without_membership InMemoryChannelLayer _
                "dm.gone" (mkScope "7" 7 (AuthUser 1 alice)) demo_world)
      as (_ & _ & _ & Hconversation).
    apply Hconversation. left. reflexivity.
Defined.

(** ** Inbound frames that name no operation *)

(** What [receive] does before it reaches a handler, on any channel
    layer and for any decoder. An object whose tag is none of the
    consumer's recognized tags (or that carries no tag) is ignored,
    leaving the store, the channel layer and the wire as they were; a
    text that does not decode produces exactly one reply, the error
    frame, sent to the receiving session's own channel. In neither case
    is there a close or a group send, and [receive] returns normally. A
    text that decodes to a value that is not an object is another
    matter: [data.get] raises [AttributeError], which [receive] does not
    catch, so that it ends with nothing written; any other exception of
    [json.loads] leaves it the same way. *)
Lemma receive_unknown_or_malformed :
  ∀ (L : Type) (CL : ChannelLayer L) (json_loads : string → Decoded)
    (room_self : ChatConsumer.t) (dm_self : DirectMessageConsumer.t)
    (text_data : string) (w : World L),
    (json_loads text_data = JSONDecodeError →
       ChatConsumer.receive json_loads room_self text_data w
         = (Ok tt, mkWorld (db w) (layer w)
                     (trace w ++ [Send (ChatConsumer.channel_name room_self)
                                       (error_frame "Invalid JSON")]))
       ∧ DirectMessageConsumer.receive json_loads dm_self text_data w
         = (Ok tt, mkWorld (db w) (layer w)
                     (trace w
                        ++ [Send (DirectMessageConsumer.channel_name dm_self)
                                 (error_frame "Invalid JSON")])))
    ∧ (∀ data, json_loads text_data = decoded (json_object data) →
         (unrecognized room_tags data →
            ChatConsumer.receive json_loads room_self text_data w = (Ok tt, w))
         ∧ (unrecognized conversation_tags data →
              DirectMessageConsumer.receive json_loads dm_self text_data w
                = (Ok tt, w)))
    ∧ (json_loads text_data = decoded json_other →
         ChatConsumer.receive json_loads room_self text_data w
           = (Raise AttributeError, w)
         ∧ DirectMessageConsumer.receive json_loads dm_self text_data w
           = (Raise AttributeError, w))
    ∧ (∀ e, json_loads text_data = decode_failure e →
         ChatConsumer.receive json_loads room_self text_data w
           = (Raise e, w)
         ∧ DirectMessageConsumer.receive json_loads dm_self text_data w
           = (Raise e, w)).
Proof.
  intros L CL json_loads room_self dm_self text_data w.
  split; [|split; [|split]].
  - intros Hbad. unfold ChatConsumer.receive, DirectMessageConsumer.receive.
    by rewrite Hbad.
  - intros data Hdata.
    unfold ChatConsumer.receive, DirectMessageConsumer.receive.
    rewrite Hdata. simpl. split; intros Hunknown.
    + repeat case_decide; try reflexivity;
        match goal with
        | Htag : frame_type data = Some _ |- _ =>
            exfalso; apply (Hunknown _ Htag); set_solver
        end.
    + repeat case_decide; try reflexivity;
        match goal with
        | Htag : frame_type data = Some _ |- _ =>
            exfalso; apply (Hunknown _ Htag); set_solver
        end.
  - intros Hother. unfold ChatConsumer.receive, DirectMessageConsumer.receive.
    by rewrite Hother.
  - intros e Hfailure.
    unfold ChatConsumer.receive, DirectMessageConsumer.receive.
    by rewrite Hfailure.
Qed.

Lemma receive_unknown_or_malformed_witness :
  ChatConsumer.receive demo_json_loads alice_room "{oops" demo_world
    = (Ok tt, mkWorld demo_db demo_layer
                [Send "ws.alice" (error_frame "Invalid JSON")])
  ∧ DirectMessageConsumer.receive demo_json_loads alice_dm "{oops" demo_world
    = (Ok tt, mkWorld demo_db demo_layer
                [Send "dm.alice" (error_frame "Invalid JSON")])
  ∧ ChatConsumer.receive demo_json_loads alice_room ping_text demo_world
    = (Ok tt, demo_world)
  ∧ DirectMessageConsumer.receive demo_json_loads alice_dm "{}" demo_world
    = (Ok tt, demo_world)
  ∧ ChatConsumer.receive demo_json_loads alice_room "[1, 2]" demo_world
    = (Raise AttributeError, demo_world)
  ∧ DirectMessageConsumer.receive demo_json_loads alice_dm "null" demo_world
    = (Raise AttributeError, demo_world).
Proof.
  split; [|split; [|split; [|split; [|split]]]].
  - apply (receive_unknown_or_malformed InMemoryChannelLayer _
             demo_json_loads alice_room alice_dm "{oops" demo_world).
    reflexivity.
  - apply (receive_unknown_or_malformed InMemoryChannelLayer _
             demo_json_loads alice_room alice_dm "{oops" demo_world).
    reflexivity.
  - destruct (receive_unknown_or_malformed InMemoryChannelLayer _
                demo_json_loads alice_room alice_dm ping_text demo_world)
      as (_ & Hignored & _).
    apply (Hignored (mkFrame (Some "ping") None None None None None None None));
      [reflexivity|].
    intros tag [= <-]. apply (bool_decide_unpack _). vm_compute. exact I.
  - destruct (receive_unknown_or_malformed InMemoryChannelLayer _
                demo_json_loads alice_room alice_dm "{}" demo_world)
      as (_ & Hignored & _).
    apply (Hignored (mkFrame None None None None None None None None));
      [reflexivity|].
    intros tag [=].
  - destruct (receive_unknown_or_malformed InMemoryChannelLayer _
                demo_json_loads alice_room alice_dm "[1, 2]" demo_world)
      as (_ & _ & Hother & _).
    apply Hother. reflexivity.
  - destruct (receive_unknown_or_malformed InMemoryChannelLayer _
                demo_json_loads alice_room alice_dm "null" demo_world)
      as (_ & _ & Hother & _).
    apply Hother. reflexivity.
Defined.

(** C8 at its failing input. Alice's room session receives the text
    [[1, 2]], and her conversation session the text [null]: valid JSON
    that is not an object, so a frame carrying none of the recognized
    tags. It is not ignored and not answered: [json.loads] returns a
    list (or [None]), [data.get('type')] raises [AttributeError], the
    [except json.JSONDecodeError] clause does not catch it, and the
    exception leaves [receive] with nothing sent. The frames the clause
    and the tag dispatch do cover behave as the claim says: a text that
    does not decode is answered once, on the session's own socket, and
    an object with an unknown tag or with none is ignored. *)
Theorem non_object_frame_raises :
  demo_json_loads "[1, 2]" = decoded json_other
  ∧ demo_json_loads "null" = decoded json_other
  ∧ ChatConsumer.receive demo_json_loads alice_room "[1, 2]" demo_world
    = (Raise AttributeError, demo_world)
  ∧ DirectMessageConsumer.receive demo_json_loads alice_dm "null" demo_world
    = (Raise AttributeError, demo_world)
  ∧ sent_to "ws.alice"
      (trace (after (ChatConsumer.receive demo_json_loads alice_room "[1, 2]")
                demo_world)) = []
  (* what the code does handle *)
  ∧ ChatConsumer.receive demo_json_loads alice_room "{oops" demo_world
    = (Ok tt, mkWorld demo_db demo_layer
                [Send "ws.alice" (error_frame "Invalid JSON")])
  ∧ ChatConsumer.receive demo_json_loads alice_room ping_text demo_world
    = (Ok tt, demo_world)
  ∧ DirectMessageConsumer.receive demo_json_loads alice_dm "{}" demo_world
    = (Ok tt, demo_world).
Proof. repeat split; vm_compute; reflexivity. Qed.

(** ** Sender exclusion on delivery *)

Section Delivery.
Context {L : Type} `{!ChannelLayer L}.

Lemma room_handle_typing_eq self data (w : World L) :
  let ev := typing_indicator_ev (user_username (ChatConsumer.user self))
              (default false (frame_is_typing data)) in
  ChatConsumer.handle_typing self data w =
    match group_send (ChatConsumer.room_group_name self) ev (layer w) with
    | Ok l' =>
        (Ok tt, mkWorld (db w) l'
                  (trace w
                     ++ [GroupSend (ChatConsumer.room_group_name self) ev]))
    | Raise e => (Raise e, w)
    end.
Proof.
  unfold ChatConsumer.handle_typing, channel_layer_group_send, on_layer,
    mbind, SE_bind. simpl.
  by destruct (group_send _ _ _).
Qed.

Lemma conversation_handle_typing_eq self data (w : World L) :
  let ev := typing_indicator_ev
              (user_username (DirectMessageConsumer.user self))
              (default false (frame_is_typing data)) in
  DirectMessageConsumer.handle_typing self data w =
    match group_send (DirectMessageConsumer.room_group_name self) ev
            (layer w) with
    | Ok l' =>
        (Ok tt, mkWorld (db w) l'
                  (trace w
                     ++ [GroupSend
                           (DirectMessageConsumer.room_group_name self) ev]))
    | Raise e => (Raise e, w)
    end.
Proof.
  unfold DirectMessageConsumer.handle_typing, channel_layer_group_send,
    on_layer, mbind, SE_bind. simpl.
  by destruct (group_send _ _ _).
Qed.
End Delivery.

(** What a session does with an event it is handed. Of the events a
    session can be handed, exactly the typing indicator and the read
    receipt are withheld from the session that originated them: the
    event carries the originator's user name (for typing, the one
    [handle_typing] puts there), and a session whose user name it is
    writes nothing. Every other kind (chat message, reaction, edit and
    delete in a room; direct message in a conversation) is written to
    the socket of every session it is handed to, the originator's
    included; a typing indicator or read receipt under another user name
    is written as well. *)
Lemma sender_exclusion_kinds :
  ∀ (L : Type) (CL : ChannelLayer L)
    (room_self : ChatConsumer.t) (dm_self : DirectMessageConsumer.t)
    (w : World L),
    let room_name := user_username (ChatConsumer.user room_self) in
    let dm_name := user_username (DirectMessageConsumer.user dm_self) in
    let room_ch := ChatConsumer.channel_name room_self in
    let dm_ch := DirectMessageConsumer.channel_name dm_self in
    (* the two excluded kinds, at their originator *)
    (∀ data l', group_send (ChatConsumer.room_group_name room_self)
                  (typing_indicator_ev room_name
                     (default false (frame_is_typing data))) (layer w)
                = Ok l' →
       ∃ ev, ChatConsumer.handle_typing room_self data w
               = (Ok tt, mkWorld (db w) l'
                    (trace w ++ [GroupSend
                                   (ChatConsumer.room_group_name room_self)
                                   ev]))
             ∧ ∀ w' : World L,
                 ChatConsumer.dispatch room_self ev w' = (Ok tt, w'))
    ∧ (∀ is_typing,
         ChatConsumer.dispatch room_self
           (typing_indicator_ev room_name is_typing) w = (Ok tt, w))
    ∧ (∀ is_typing,
         DirectMessageConsumer.dispatch dm_self
           (typing_indicator_ev dm_name is_typing) w = (Ok tt, w))
    ∧ (∀ message_ids,
         DirectMessageConsumer.dispatch dm_self
           (messages_read_ev message_ids dm_name) w = (Ok tt, w))
    (* the same two kinds, from somebody else *)
    ∧ (∀ other is_typing, other ≠ room_name →
         ChatConsumer.dispatch room_self
           (typing_indicator_ev other is_typing) w
         = written room_ch (typing_indicator_ev other is_typing) w)
    ∧ (∀ other is_typing, other ≠ dm_name →
         DirectMessageConsumer.dispatch dm_self
           (typing_indicator_ev other is_typing) w
         = written dm_ch (typing_indicator_ev other is_typing) w)
    ∧ (∀ other message_ids, other ≠ dm_name →
         DirectMessageConsumer.dispatch dm_self
           (messages_read_ev message_ids other) w
         = written dm_ch (messages_read_ev message_ids other) w)
    (* every other kind, whoever originated it *)
    ∧ (∀ message,
         ChatConsumer.dispatch room_self (chat_message_ev message) w
         = written room_ch (chat_message_ev message) w)
    ∧ (∀ message_id reaction_type action originator,
         ChatConsumer.dispatch room_self
           (message_reaction_ev message_id reaction_type action originator) w
         = written room_ch
             (message_reaction_ev message_id reaction_type action originator)
             w)
    ∧ (∀ message,
         ChatConsumer.dispatch room_self (message_edited_ev message) w
         = written room_ch (message_edited_ev message) w)
    ∧ (∀ message_id,
         ChatConsumer.dispatch room_self (message_deleted_ev message_id) w
         = written room_ch (message_deleted_ev message_id) w)
    ∧ (∀ message,
         DirectMessageConsumer.dispatch dm_self (direct_message_ev message) w
         = written dm_ch (direct_message_ev message) w).
Proof.
  intros L CL room_self dm_self w room_name dm_name room_ch dm_ch.
  split.
  { intros data l' Hsend. eexists. split.
    - rewrite room_handle_typing_eq. simpl. fold room_name.
      rewrite Hsend. reflexivity.
    - intros w'. simpl. unfold ChatConsumer.typing_indicator.
      fold room_name. by case_decide. }
  repeat split.
  - intros is_typing. simpl. unfold ChatConsumer.typing_indicator.
    fold room_name. by case_decide.
  - intros is_typing. simpl. unfold DirectMessageConsumer.typing_indicator.
    fold dm_name. by case_decide.
  - intros ids. simpl. unfold DirectMessageConsumer.messages_read.
    fold dm_name. by case_decide.
  - intros other is_typing Hother. simpl.
    unfold ChatConsumer.typing_indicator. fold room_name.
    by case_decide.
  - intros other is_typing Hother. simpl.
    unfold DirectMessageConsumer.typing_indicator. fold dm_name.
    by case_decide.
  - intros other ids Hother. simpl.
    unfold DirectMessageConsumer.messages_read. fold dm_name.
    by case_decide.
Qed.

Lemma sender_exclusion_kinds_witness :
  (∃ ev l',
     ChatConsumer.handle_typing alice_room
       (mkFrame (Some "typing") None None None None None (Some true) None)
       demo_world
     = (Ok tt, mkWorld demo_db l' [GroupSend "chat_1" ev])
     ∧ ChatConsumer.dispatch alice_room ev demo_world = (Ok tt, demo_world))
  ∧ ChatConsumer.dispatch bob_room (typing_indicator_ev "alice" true)
      demo_world
    = written "ws.bob" (typing_indicator_ev "alice" true) demo_world
  ∧ DirectMessageConsumer.dispatch alice_dm (messages_read_ev [1] "bob")
      demo_world
    = written "dm.alice" (messages_read_ev [1] "bob") demo_world.
Proof.
  split; [|split].
  - destruct (sender_exclusion_kinds InMemoryChannelLayer _
                alice_room alice_dm demo_world) as [Horigin _].
    destruct (Horigin
                (mkFrame (Some "typing") None None None None None
                         (Some true) None) _ eq_refl)
      as (ev & Hsent & Hback).
    exists ev. eexists. split; [exact Hsent|apply Hback].
  - destruct (sender_exclusion_kinds InMemoryChannelLayer _
                bob_room alice_dm demo_world)
      as (_ & _ & _ & _ & Hother & _).
    apply Hother. simpl. discriminate.
  - destruct (sender_exclusion_kinds InMemoryChannelLayer _
                alice_room alice_dm demo_world)
      as (_ & _ & _ & _ & _ & _ & Hread & _).
    apply Hread. simpl. discriminate.
Defined.

(** C7 at its failing input. Alice and bob are connected to room 1 on
    the in-process channel layer. Alice's chat message is stored, and
    then serializing it raises [AttributeError] in [get_reaction_counts]
    (the [models.Count] lookup in [accounts/models.py]), before the
    group send: no event is queued for any channel and nothing reaches
    alice's socket or bob's. Her edit of message 1 ends the same way.
    The kinds whose handler reaches its group send behave as the claim
    says: her delete is queued for both channels and written to both
    sockets, her own included; her typing indicator is queued for both
    and written to bob's socket only; and her direct message to bob, in
    conversation 1, is written to her own socket as well. *)
Theorem own_chat_message_is_not_delivered :
  let sent := ChatConsumer.handle_chat_message alice_room
                (chat_frame "hello all" None) demo_world in
  let edited := ChatConsumer.handle_message_edit alice_room
                  (edit_frame 1 "hello again") demo_world in
  let deleted := ChatConsumer.handle_message_delete alice_room
                   (delete_frame 1) demo_world in
  let typed := ChatConsumer.handle_typing alice_room (typing_frame true)
                 demo_world in
  let direct := DirectMessageConsumer.handle_direct_message alice_dm
                  (direct_frame "pong") demo_world in
  let pong pk := mkDirectMessageData pk
                   (DirectMessage.mk 1 2 "pong" "text" false None false None
                                     false None 100 100) alice bob in
  groups demo_layer !! "chat_1" = Some {["ws.alice"; "ws.bob"]}
  (* the chat message *)
  ∧ sent.1 = Raise AttributeError
  ∧ (∃ pk, messages demo_db !! pk = None
           ∧ messages (db sent.2) !! pk
             = Some (Message.mk 1 1 "hello all" "text" None false None
                                false None 100 100))
  ∧ layer sent.2 = demo_layer
  ∧ trace sent.2 = []
  ∧ sent_to "ws.alice" (trace (after (room_deliver alice_room) sent.2)) = []
  ∧ sent_to "ws.bob" (trace (after (room_deliver bob_room) sent.2)) = []
  (* the edit *)
  ∧ edited.1 = Raise AttributeError
  ∧ messages (db edited.2) !! 1
    = Some (Message.mk 1 1 "hello again" "text" None true (Some 100)
                       false None 20 100)
  ∧ layer edited.2 = demo_layer
  ∧ trace edited.2 = []
  ∧ sent_to "ws.alice" (trace (after (room_deliver alice_room) edited.2)) = []
  ∧ sent_to "ws.bob" (trace (after (room_deliver bob_room) edited.2)) = []
  (* the delete *)
  ∧ deleted.1 = Ok tt
  ∧ queues (layer deleted.2) !! "ws.alice"
    = Some [message_deleted_ev (Some 1)]
  ∧ queues (layer deleted.2) !! "ws.bob"
    = Some [message_deleted_ev (Some 1)]
  ∧ sent_to "ws.alice" (trace (after (room_deliver alice_room) deleted.2))
    = [event_frame (message_deleted_ev (Some 1))]
  ∧ sent_to "ws.bob" (trace (after (room_deliver bob_room) deleted.2))
    = [event_frame (message_deleted_ev (Some 1))]
  (* the typing indicator *)
  ∧ typed.1 = Ok tt
  ∧ queues (layer typed.2) !! "ws.alice"
    = Some [typing_indicator_ev "alice" true]
  ∧ queues (layer typed.2) !! "ws.bob"
    = Some [typing_indicator_ev "alice" true]
  ∧ sent_to "ws.alice" (trace (after (room_deliver alice_room) typed.2)) = []
  ∧ sent_to "ws.bob" (trace (after (room_deliver bob_room) typed.2))
    = [event_frame (typing_indicator_ev "alice" true)]
  (* the direct message *)
  ∧ direct.1 = Ok tt
  ∧ (∃ pk, queues (layer direct.2) !! "dm.bob"
           = Some [direct_message_ev (pong pk)]
           ∧ sent_to "dm.alice"
               (trace (after (conversation_deliver alice_dm) direct.2))
             = [event_frame (direct_message_ev (pong pk))]).
Proof.
  cbv zeta.
  repeat match goal with
         | |- _ ∧ _ => split
         | |- ∃ pk, messages _ !! _ = None ∧ _ => exists 3; split
         | |- ∃ pk, queues _ !! _ = _ ∧ _ => exists 2; split
         end; vm_compute; reflexivity.
Qed.

(** ** Create *)










Lemma get_content_strip_absent {S} data (s : S) :
  frame_content data = None →
  get_content_strip data s = (Ok EmptyString, s).
Proof. intros H. unfold get_content_strip. by rewrite H. Qed.

Lemma get_content_strip_text {S} data raw (s : S) :
  content_text data = Some raw →
  get_content_strip data s = (Ok (strip raw), s).
Proof.
  unfold content_text, get_content_strip.
  destruct (frame_content data) as [[text|]|]; [| |]; by intros [= <-].
Qed.

Lemma get_content_strip_no_text {S} data (s : S) :
  content_text data = None →
  get_content_strip data s = (Raise AttributeError, s).
Proof.
  unfold content_text, get_content_strip.
  by destruct (frame_content data) as [[text|]|].
Qed.

Lemma get_content_strip_not_str {S} data (s : S) :
  frame_content data = Some json_not_str →
  get_content_strip data s = (Raise AttributeError, s).
Proof. intros H. unfold get_content_strip. by rewrite H. Qed.








(** ** Presence *)

Lemma User_set_online_status_true pk self stored db :
  users db !! pk = Some stored →
  User_set_online_status pk self true db =
    (Ok (User.mk (User.username self) "online" (clock db) true),
     with_users <[pk := online_row stored (clock db)]> db).
Proof.
  intros Hrow.
  unfold User_set_online_status, User_update_last_seen.
  unfold mbind, SE_bind, get, modify, mret, SE_ret.
  rewrite models_timezone_now, Hrow. simpl.
  rewrite lookup_insert_eq. simpl.
  unfold with_users, online_row. simpl. by rewrite insert_insert_eq.
Qed.

Lemma User_set_online_status_false pk self stored db :
  users db !! pk = Some stored →
  User_set_online_status pk self false db =
    (Ok (User.mk (User.username self) "offline" (User.last_seen self) false),
     with_users <[pk := offline_row stored self]> db).
Proof.
  intros Hrow.
  unfold User_set_online_status.
  unfold mbind, SE_bind, get, modify, mret, SE_ret.
  by rewrite Hrow.
Qed.

Section Presence.
Context {L : Type} `{!ChannelLayer L}.

Lemma room_connect_joined channel scope (w : World L) pk row stored l' :
  let group := "chat_" +:+ url_route_kwarg scope in
  let self := ChatConsumer.mk channel (url_route_id scope) group
                (scope_user scope) in
  scope_user scope = AuthUser pk row →
  ChatConsumer.is_room_member self (db w) = (Ok true, db w) →
  users (db w) !! pk = Some stored →
  group_add group channel (layer w) = Ok l' →
  ChatConsumer.connect channel scope w
    = (Ok (ChatConsumer.mk channel (url_route_id scope) group
             (AuthUser pk (User.mk (User.username row) "online"
                             (clock (db w)) true))),
       mkWorld (with_users <[pk := online_row stored (clock (db w))]> (db w))
               l' (trace w ++ [Accept channel])).
Proof.
  intros group self Huser Hmember Hrow Hadd.
  unfold ChatConsumer.connect. fold group. fold self.
  rewrite (bind_ok _ _ _ _ _ (database_sync_to_async_eq _ _ _ _ Hmember)).
  rewrite world_eta. simpl.
  unfold channel_layer_group_add, on_layer, ChatConsumer.accept, emit,
    modify, mbind, SE_bind. simpl. rewrite Hadd. simpl.
  unfold database_sync_to_async, ChatConsumer.update_user_status. simpl.
  rewrite Huser.
  rewrite (bind_ok _ _ _ _ _ (User_set_online_status_true _ _ _ _ Hrow)).
  reflexivity.
Qed.

Lemma room_disconnect_left self close_code (w : World L) pk row stored l' :
  ChatConsumer.user self = AuthUser pk row →
  users (db w) !! pk = Some stored →
  group_discard (ChatConsumer.room_group_name self)
    (ChatConsumer.channel_name self) (layer w) = Ok l' →
  ChatConsumer.disconnect self close_code w
    = (Ok (ChatConsumer.mk (ChatConsumer.channel_name self)
             (ChatConsumer.room_id self) (ChatConsumer.room_group_name self)
             (AuthUser pk (User.mk (User.username row) "offline"
                             (User.last_seen row) false))),
       mkWorld (with_users <[pk := offline_row stored row]> (db w))
               l' (trace w)).
Proof.
  intros Huser Hrow Hdiscard.
  unfold ChatConsumer.disconnect, channel_layer_group_discard, on_layer,
    mbind, SE_bind. rewrite Hdiscard. simpl.
  unfold database_sync_to_async, ChatConsumer.update_user_status. simpl.
  rewrite Huser.
  rewrite (bind_ok _ _ _ _ _ (User_set_online_status_false _ _ _ _ Hrow)).
  reflexivity.
Qed.

(** A failing group discard ends [disconnect] before the flip. *)
Lemma room_disconnect_interrupted self close_code (w : World L) e :
  group_discard (ChatConsumer.room_group_name self)
    (ChatConsumer.channel_name self) (layer w) = Raise e →
  ChatConsumer.disconnect self close_code w = (Raise e, w).
Proof.
  intros Hdiscard.
  unfold ChatConsumer.disconnect, channel_layer_group_discard, on_layer,
    mbind, SE_bind. by rewrite Hdiscard.
Qed.

Lemma conversation_connect_keeps_store channel scope (w : World L) :
  db (DirectMessageConsumer.connect channel scope w).2 = db w.
Proof.
  unfold DirectMessageConsumer.connect.
  rewrite (bind_ok _ _ _ _ _
             (database_sync_to_async_eq _ _ _ _
                (is_conversation_participant_eq _ _))).
  rewrite world_eta.
  match goal with |- context [negb ?b] => destruct b end; simpl; [|done].
  unfold channel_layer_group_add, on_layer, mbind, SE_bind.
  by destruct (group_add _ _ _).
Qed.

Lemma conversation_disconnect_keeps_store self close_code (w : World L) :
  db (DirectMessageConsumer.disconnect self close_code w).2 = db w.
Proof.
  unfold DirectMessageConsumer.disconnect, channel_layer_group_discard,
    on_layer, mbind, SE_bind.
  by destruct (group_discard _ _ _).
Qed.
End Presence.

(** C9, as the code has it. Presence is flipped by room sessions only,
    once per transition, and after the channel-layer call of that
    transition: for a stored identity, a join whose membership check
    passes and whose group add returns writes the identity's row once,
    online; a close whose group discard returns writes it once, offline;
    a close whose group discard raises ends there, with the store as it
    was. A conversation session leaves the store as it was on connect and
    on disconnect, whatever else happens. *)
Theorem presence_flips_follow_registry :
  ∀ (L : Type) (CL : ChannelLayer L) (w : World L),
    (∀ channel scope pk row stored l',
       let group := "chat_" +:+ url_route_kwarg scope in
       scope_user scope = AuthUser pk row →
       ChatConsumer.is_room_member
         (ChatConsumer.mk channel (url_route_id scope) group
            (scope_user scope)) (db w) = (Ok true, db w) →
       users (db w) !! pk = Some stored →
       group_add group channel (layer w) = Ok l' →
       ∃ self,
         ChatConsumer.connect channel scope w
           = (Ok self,
              mkWorld (with_users <[pk := online_row stored (clock (db w))]>
                         (db w))
                      l' (trace w ++ [Accept channel]))
         ∧ User.is_online (online_row stored (clock (db w))) = true)
    ∧ (∀ self close_code pk row stored l',
         ChatConsumer.user self = AuthUser pk row →
         users (db w) !! pk = Some stored →
         group_discard (ChatConsumer.room_group_name self)
           (ChatConsumer.channel_name self) (layer w) = Ok l' →
         ∃ self',
           ChatConsumer.disconnect self close_code w
             = (Ok self',
                mkWorld (with_users <[pk := offline_row stored row]> (db w))
                        l' (trace w))
           ∧ User.is_online (offline_row stored row) = false)
    ∧ (∀ self close_code e,
         group_discard (ChatConsumer.room_group_name self)
           (ChatConsumer.channel_name self) (layer w) = Raise e →
         ChatConsumer.disconnect self close_code w = (Raise e, w))
    ∧ (∀ channel scope,
         db (DirectMessageConsumer.connect channel scope w).2 = db w)
    ∧ (∀ self close_code,
         db (DirectMessageConsumer.disconnect self close_code w).2 = db w).
Proof.
  intros L CL w. split; [|split; [|split; [|split]]].
  - intros channel scope pk row stored l' group Huser Hmember Hrow Hadd.
    eexists. split; [|reflexivity].
    by apply (room_connect_joined channel scope w pk row stored l').
  - intros self close_code pk row stored l' Huser Hrow Hdiscard.
    eexists. split; [|reflexivity].
    by apply (room_disconnect_left self close_code w pk row stored l').
  - intros self close_code e. apply room_disconnect_interrupted.
  - intros channel scope. apply conversation_connect_keeps_store.
  - intros self close_code. apply conversation_disconnect_keeps_store.
Qed.

Lemma presence_flips_follow_registry_witness :
  (∃ self l',
     ChatConsumer.connect "ws.alice" (mkScope "1" 1 (AuthUser 1 alice)) demo_world
       = (Ok self,
          mkWorld (with_users <[1 := online_row alice 100]> demo_db)
                  l' [Accept "ws.alice"]))
  ∧ (∃ self l',
       ChatConsumer.disconnect alice_online_room 1000
         (mkWorld (with_users <[1 := alice_online]> demo_db) demo_layer [])
       = (Ok self,
          mkWorld (with_users <[1 := offline_row alice_online alice_online]>
                     (with_users <[1 := alice_online]> demo_db))
                  l' []))
  ∧ ChatConsumer.disconnect alice_online_room 1000 outage_world
    = (Raise ConnectionError, outage_world).
Proof.
  split; [|split].
  - destruct (presence_flips_follow_registry InMemoryChannelLayer _
                demo_world) as [Hjoin _].
    destruct (Hjoin "ws.alice" (mkScope "1" 1 (AuthUser 1 alice)) 1 alice alice
                _ eq_refl eq_refl eq_refl eq_refl) as (self & Hconnect & _).
    eexists self, _. exact Hconnect.
  - destruct (presence_flips_follow_registry InMemoryChannelLayer _
                (mkWorld (with_users <[1 := alice_online]> demo_db)
                         demo_layer []))
      as (_ & Hleave & _).
    destruct (Hleave alice_online_room 1000 1 alice_online alice_online
                _ eq_refl eq_refl eq_refl) as (self & Hdisconnect & _).
    eexists self, _. exact Hdisconnect.
  - destruct (presence_flips_follow_registry UnreachableLayer _ outage_world)
      as (_ & _ & Hinterrupted & _).
    apply Hinterrupted. reflexivity.
Defined.

(** C9 as stated fails: with the channel layer down, closing alice's room
    session raises out of [disconnect] at the group discard, and her row
    stays online. *)
Lemma presence_flip_lost_when_discard_raises :
  ChatConsumer.disconnect alice_online_room 1000 outage_world
    = (Raise ConnectionError, outage_world)
  ∧ users (db outage_world) !! 1 = Some alice_online
  ∧ User.is_online alice_online = true
  ∧ ¬ (∀ (L : Type) (CL : ChannelLayer L) (self : ChatConsumer.t)
         (close_code : Z) (w : World L) pk row stored,
         ChatConsumer.user self = AuthUser pk row →
         users (db w) !! pk = Some stored →
         ∃ stored',
           users (db (ChatConsumer.disconnect self close_code w).2) !! pk
             = Some stored'
           ∧ User.is_online stored' = false).
Proof.
  split; [reflexivity|]. split; [reflexivity|]. split; [reflexivity|].
  intros Hclaim.
  destruct (Hclaim UnreachableLayer _ alice_online_room 1000 outage_world
              1 alice_online alice_online eq_refl eq_refl)
    as (stored' & Hrow & Hoffline).
  vm_compute in Hrow. injection Hrow as <-. discriminate Hoffline.
Qed.

(** ** MarkRead *)

Lemma mark_messages_as_read_raises self message_ids db :
  ∃ e, DirectMessageConsumer.mark_messages_as_read self message_ids db
       = (Raise e, db).
Proof.
  unfold DirectMessageConsumer.mark_messages_as_read.
  destruct (user_id (DirectMessageConsumer.user self)) as [uid|].
  - exists AttributeError.
    by rewrite (bind_raise _ _ _ _ _ (consumers_timezone_now db)).
  - by exists TypeError.
Qed.

(** C3 at its failing input. Direct message 1 is addressed to alice and
    unread; alice marks it read. [mark_messages_as_read] raises
    [AttributeError] at [timezone.now()], since [consumers.py] imports
    [timezone] from [datetime], and the row stays unread: the store is
    untouched, the exception leaves [handle_message_read], and no read
    receipt is sent. The same happens for every session, id list and
    store. *)
Theorem mark_read_raises_before_update :
  (∃ m, direct_messages demo_db !! 1 = Some m
        ∧ DirectMessage.recipient m = 1
        ∧ DirectMessage.is_read m = false)
  ∧ DirectMessageConsumer.mark_messages_as_read alice_dm [1] demo_db
    = (Raise AttributeError, demo_db)
  ∧ DirectMessageConsumer.handle_message_read alice_dm (read_frame [1])
      demo_world
    = (Raise AttributeError, demo_world)
  ∧ (∀ self message_ids db,
       ∃ e, DirectMessageConsumer.mark_messages_as_read self message_ids db
            = (Raise e, db)).
Proof.
  split; [by eexists|]. split; [reflexivity|]. split; [reflexivity|].
  apply mark_messages_as_read_raises.
Qed.

(** ** Edit and delete through the room consumer *)

Lemma owned_lookup self uid db pk stored :
  messages db !! pk = Some stored →
  Message.room stored = ChatConsumer.room_id self →
  Message.sender stored = uid →
  objects_get (messages db) (Some pk)
    (λ m, bool_decide (Message.room m = ChatConsumer.room_id self
                       ∧ Message.sender m = uid))
  = Some (pk, stored).
Proof.
  intros Hrow Hroom Hsender. apply objects_get_Some.
  split; [done|]. split; [done|]. by apply bool_decide_eq_true_2.
Qed.

Lemma not_owned_lookup self uid db id :
  (∀ pk stored, id = Some pk → messages db !! pk = Some stored →
     ¬ (Message.room stored = ChatConsumer.room_id self
        ∧ Message.sender stored = uid)) →
  objects_get (messages db) id
    (λ m, bool_decide (Message.room m = ChatConsumer.room_id self
                       ∧ Message.sender m = uid))
  = None.
Proof.
  intros Hno. apply objects_get_None. intros pk stored Hid Hrow.
  by apply bool_decide_eq_false_2, (Hno pk).
Qed.

Lemma edit_message_by_sender self uid row db pk stored new_content :
  ChatConsumer.user self = AuthUser uid row →
  messages db !! pk = Some stored →
  Message.room stored = ChatConsumer.room_id self →
  Message.sender stored = uid →
  ChatConsumer.edit_message self (Some pk) new_content db
    = (Ok (Some (pk, edited_row stored new_content (clock db))),
       with_messages <[pk := edited_row stored new_content (clock db)]> db).
Proof.
  intros Huser Hrow Hroom Hsender. unfold ChatConsumer.edit_message.
  rewrite Huser. cbn [user_id]. unfold mbind at 1, SE_bind, get.
  rewrite (owned_lookup self uid db pk stored Hrow Hroom Hsender).
  by rewrite (bind_ok _ _ _ _ _ (Message_edit_message_loaded _ _ _ _ Hrow)).
Qed.

Lemma edit_message_refused self uid row db id new_content :
  ChatConsumer.user self = AuthUser uid row →
  (∀ pk stored, id = Some pk → messages db !! pk = Some stored →
     ¬ (Message.room stored = ChatConsumer.room_id self
        ∧ Message.sender stored = uid)) →
  ChatConsumer.edit_message self id new_content db = (Ok None, db).
Proof.
  intros Huser Hno. unfold ChatConsumer.edit_message.
  rewrite Huser. cbn [user_id]. unfold mbind, SE_bind, get.
  by rewrite (not_owned_lookup self uid db id Hno).
Qed.

Lemma delete_message_by_sender self uid row db pk stored :
  ChatConsumer.user self = AuthUser uid row →
  messages db !! pk = Some stored →
  Message.room stored = ChatConsumer.room_id self →
  Message.sender stored = uid →
  ChatConsumer.delete_message self (Some pk) db
    = (Ok (Some (pk, deleted_row stored (clock db))),
       with_messages <[pk := deleted_row stored (clock db)]> db).
Proof.
  intros Huser Hrow Hroom Hsender. unfold ChatConsumer.delete_message.
  rewrite Huser. cbn [user_id]. unfold mbind at 1, SE_bind, get.
  rewrite (owned_lookup self uid db pk stored Hrow Hroom Hsender).
  by rewrite (bind_ok _ _ _ _ _ (Message_delete_message_loaded _ _ _ Hrow)).
Qed.

Lemma delete_message_refused self uid row db id :
  ChatConsumer.user self = AuthUser uid row →
  (∀ pk stored, id = Some pk → messages db !! pk = Some stored →
     ¬ (Message.room stored = ChatConsumer.room_id self
        ∧ Message.sender stored = uid)) →
  ChatConsumer.delete_message self id db = (Ok None, db).
Proof.
  intros Huser Hno. unfold ChatConsumer.delete_message.
  rewrite Huser. cbn [user_id]. unfold mbind, SE_bind, get.
  by rewrite (not_owned_lookup self uid db id Hno).
Qed.

Section EditDelete.
Context {L : Type} `{!ChannelLayer L}.

(** An edit request that names no message of the room sent by the
    requester changes nothing and sends nothing. *)
Lemma handle_message_edit_refused self uid row data raw (w : World L) :
  ChatConsumer.user self = AuthUser uid row →
  content_text data = Some raw →
  (∀ pk stored, frame_message_id data = Some pk →
     messages (db w) !! pk = Some stored →
     ¬ (Message.room stored = ChatConsumer.room_id self
        ∧ Message.sender stored = uid)) →
  ChatConsumer.handle_message_edit self data w = (Ok tt, w).
Proof.
  intros Huser Hraw Hno. unfold ChatConsumer.handle_message_edit.
  rewrite (bind_ok _ _ _ _ _ (get_content_strip_text _ _ _ Hraw)).
  destruct (str_truthy _); simpl; [|done].
  rewrite (bind_ok _ _ _ _ _
             (database_sync_to_async_eq _ _ _ _
                (edit_message_refused self uid row (db w) _ _ Huser Hno))).
  by rewrite world_eta.
Qed.

(** The sender's edit is stored; the serializer then raises, so the
    handler ends without a group send. *)
Lemma handle_message_edit_by_sender self uid row data raw (w : World L)
    pk stored :
  let new_content := strip raw in
  ChatConsumer.user self = AuthUser uid row →
  content_text data = Some raw →
  frame_message_id data = Some pk →
  str_truthy new_content = true →
  messages (db w) !! pk = Some stored →
  Message.room stored = ChatConsumer.room_id self →
  Message.sender stored = uid →
  ChatConsumer.handle_message_edit self data w
    = (Raise AttributeError,
       mkWorld (with_messages
                  <[pk := edited_row stored new_content (clock (db w))]>
                  (db w))
               (layer w) (trace w)).
Proof.
  intros new_content Huser Hraw Hid Hcontent Hrow Hroom Hsender.
  unfold ChatConsumer.handle_message_edit.
  rewrite (bind_ok _ _ _ _ _ (get_content_strip_text _ _ _ Hraw)).
  fold new_content. rewrite Hcontent, Hid. simpl.
  rewrite (bind_ok _ _ _ _ _
             (database_sync_to_async_eq _ _ _ _
                (edit_message_by_sender self uid row (db w) pk stored
                   new_content Huser Hrow Hroom Hsender))).
  reflexivity.
Qed.

Lemma handle_message_delete_refused self uid row data (w : World L) :
  ChatConsumer.user self = AuthUser uid row →
  (∀ pk stored, frame_message_id data = Some pk →
     messages (db w) !! pk = Some stored →
     ¬ (Message.room stored = ChatConsumer.room_id self
        ∧ Message.sender stored = uid)) →
  ChatConsumer.handle_message_delete self data w = (Ok tt, w).
Proof.
  intros Huser Hno. unfold ChatConsumer.handle_message_delete.
  rewrite (bind_ok _ _ _ _ _
             (database_sync_to_async_eq _ _ _ _
                (delete_message_refused self uid row (db w) _ Huser Hno))).
  by rewrite world_eta.
Qed.

(** The sender's delete is stored and announced, whether or not the
    message was deleted before. *)
Lemma handle_message_delete_by_sender self uid row data (w : World L)
    pk stored l' :
  ChatConsumer.user self = AuthUser uid row →
  frame_message_id data = Some pk →
  messages (db w) !! pk = Some stored →
  Message.room stored = ChatConsumer.room_id self →
  Message.sender stored = uid →
  group_send (ChatConsumer.room_group_name self)
    (message_deleted_ev (Some pk)) (layer w) = Ok l' →
  ChatConsumer.handle_message_delete self data w
    = (Ok tt,
       mkWorld (with_messages <[pk := deleted_row stored (clock (db w))]>
                  (db w))
               l'
               (trace w ++ [GroupSend (ChatConsumer.room_group_name self)
                              (message_deleted_ev (Some pk))])).
Proof.
  intros Huser Hid Hrow Hroom Hsender Hsend.
  unfold ChatConsumer.handle_message_delete. rewrite Hid.
  rewrite (bind_ok _ _ _ _ _
             (database_sync_to_async_eq _ _ _ _
                (delete_message_by_sender self uid row (db w) pk stored
                   Huser Hrow Hroom Hsender))).
  unfold channel_layer_group_send, on_layer, emit, modify, mbind, SE_bind.
  simpl. by rewrite Hsend.
Qed.
End EditDelete.

(** C5 at its failing input. Alice, the sender of message 1 in room 1,
    edits it. The edit is stored: content replaced by the stripped new
    content, [is_edited] set, [edited_at] set to the time of the edit.
    The fanout event does not follow: serializing the message raises
    [AttributeError] in [get_reaction_counts], where [models.Count] is
    looked up in [accounts/models.py], so [handle_message_edit] ends
    before its group send, with nothing on the wire and the channel
    layer as it was. *)
Theorem sender_edit_is_stored_but_not_announced :
  messages demo_db !! 1
    = Some (Message.mk 1 1 "hello" "text" None false None false None 20 20)
  ∧ ChatConsumer.edit_message alice_room (Some 1) "hi there" demo_db
    = (Ok (Some (1, Message.mk 1 1 "hi there" "text" None true (Some 100)
                               false None 20 100)),
       with_messages
         <[1 := Message.mk 1 1 "hi there" "text" None true (Some 100)
                           false None 20 100]> demo_db)
  ∧ (∀ pk obj db, MessageSerializer_data pk obj db
                  = (Raise AttributeError, db))
  ∧ ChatConsumer.handle_message_edit alice_room (edit_frame 1 " hi there ")
      demo_world
    = (Raise AttributeError,
       mkWorld
         (with_messages
            <[1 := Message.mk 1 1 "hi there" "text" None true (Some 100)
                              false None 20 100]> demo_db)
         demo_layer []).
Proof.
  split; [reflexivity|]. split.
  { exact (edit_message_by_sender alice_room 1 alice demo_db 1
             (Message.mk 1 1 "hello" "text" None false None false None 20 20)
             "hi there" eq_refl eq_refl eq_refl eq_refl). }
  split; [apply MessageSerializer_data_raises|].
  exact (handle_message_edit_by_sender alice_room 1 alice
           (edit_frame 1 " hi there ") " hi there " demo_world 1
           (Message.mk 1 1 "hello" "text" None false None false None 20 20)
           eq_refl eq_refl eq_refl eq_refl eq_refl eq_refl eq_refl).
Qed.

(** C1 at its failing input. Message 2 of room 1 is alice's and already
    soft-deleted at time 30. Her second delete, at time 100, is accepted:
    [deleted_at] moves to 100 and a [message_deleted] event goes to the
    room group. Her edit of it is accepted as well: the placeholder is
    replaced by the new content and the message is marked edited. Neither
    lookup in [consumers.py] looks at [is_deleted]. *)
Theorem deleted_message_accepts_delete_and_edit :
  messages demo_db !! 2
    = Some (Message.mk 1 1 deleted_placeholder "text" None false None
                       true (Some 30) 25 30)
  ∧ (∃ l',
       ChatConsumer.handle_message_delete alice_room (delete_frame 2)
         demo_world
       = (Ok tt,
          mkWorld
            (with_messages
               <[2 := Message.mk 1 1 deleted_placeholder "text" None false
                                 None true (Some 100) 25 100]> demo_db)
            l' [GroupSend "chat_1" (message_deleted_ev (Some 2))]))
  ∧ ChatConsumer.edit_message alice_room (Some 2) "second thoughts" demo_db
    = (Ok (Some (2, Message.mk 1 1 "second thoughts" "text" None true
                               (Some 100) true (Some 30) 25 100)),
       with_messages
         <[2 := Message.mk 1 1 "second thoughts" "text" None true (Some 100)
                           true (Some 30) 25 100]> demo_db)
  ∧ messages
      (db (ChatConsumer.handle_message_edit alice_room
             (edit_frame 2 "second thoughts") demo_world).2) !! 2
    = Some (Message.mk 1 1 "second thoughts" "text" None true (Some 100)
                       true (Some 30) 25 100).
Proof.
  split; [reflexivity|]. split; [|split].
  - eexists.
    exact (handle_message_delete_by_sender alice_room 1 alice
             (delete_frame 2) demo_world 2
             (Message.mk 1 1 deleted_placeholder "text" None false None
                         true (Some 30) 25 30)
             _ eq_refl eq_refl eq_refl eq_refl eq_refl eq_refl).
  - exact (edit_message_by_sender alice_room 1 alice demo_db 2
             (Message.mk 1 1 deleted_placeholder "text" None false None
                         true (Some 30) 25 30)
             "second thoughts" eq_refl eq_refl eq_refl eq_refl).
  - rewrite (handle_message_edit_by_sender alice_room 1 alice
               (edit_frame 2 "second thoughts") "second thoughts"
               demo_world 2
               (Message.mk 1 1 deleted_placeholder "text" None false None
                           true (Some 30) 25 30)
               eq_refl eq_refl eq_refl eq_refl eq_refl eq_refl eq_refl).
    reflexivity.
Qed.

(** ** Reactions *)

Lemma find_none_count message user kind rs :
  List.find (same_reaction message user kind) rs = None ↔
  count_reaction message user kind rs = 0%nat.
Proof.
  unfold count_reaction. induction rs as [|r rs IH]; simpl; [done|].
  destruct (same_reaction message user kind r); simpl; [done|]. exact IH.
Qed.

Lemma count_reaction_app message user kind rs rs' :
  count_reaction message user kind (rs ++ rs') =
  (count_reaction message user kind rs
   + count_reaction message user kind rs')%nat.
Proof.
  unfold count_reaction. by rewrite List.filter_app, List.length_app.
Qed.

Lemma same_reaction_refl message user kind now :
  same_reaction message user kind
    (MessageReaction.mk message user kind now) = true.
Proof. unfold same_reaction. by apply bool_decide_eq_true_2. Qed.

(** [get_or_create] on a triple without a row stores one row for it. *)
Lemma get_or_create_new message user kind db :
  count_reaction message user kind (reactions db) = 0%nat →
  ∃ r, MessageReaction_objects_get_or_create message user (Some kind) db
         = (Ok (r, true), with_reactions (λ rs, (rs ++ [r])%list) db)
       ∧ count_reaction message user kind (reactions db ++ [r]) = 1%nat.
Proof.
  intros Hcount. exists (MessageReaction.mk message user kind (clock db)).
  split.
  - unfold MessageReaction_objects_get_or_create, mbind at 1, SE_bind, get.
    apply find_none_count in Hcount. by rewrite Hcount.
  - rewrite count_reaction_app, Hcount. unfold count_reaction. simpl.
    by rewrite same_reaction_refl.
Qed.

(** [get_or_create] on a triple that has a row leaves the store alone. *)
Lemma get_or_create_existing message user kind db :
  count_reaction message user kind (reactions db) ≠ 0%nat →
  ∃ r, MessageReaction_objects_get_or_create message user (Some kind) db
         = (Ok (r, false), db).
Proof.
  intros Hcount.
  unfold MessageReaction_objects_get_or_create, mbind, SE_bind, get.
  destruct (List.find _ _) as [r|] eqn:Hfind; [by exists r|].
  by apply find_none_count in Hfind.
Qed.

(** Adding the same reaction twice stores exactly one row for the
    triple, and the second add reports nothing created. *)
Lemma react_add_twice_one_row self uid row db pk stored kind :
  ChatConsumer.user self = AuthUser uid row →
  messages db !! pk = Some stored →
  Message.room stored = ChatConsumer.room_id self →
  count_reaction pk uid kind (reactions db) = 0%nat →
  ∃ r db1,
    ChatConsumer.add_message_reaction self (Some pk) (Some kind) db
      = (Ok (Some r), db1)
    ∧ ChatConsumer.add_message_reaction self (Some pk) (Some kind) db1
      = (Ok None, db1)
    ∧ count_reaction pk uid kind (reactions db1) = 1%nat.
Proof.
  intros Huser Hrow Hroom Hcount.
  destruct (get_or_create_new pk uid kind db Hcount) as (r & Hcreate & Hone).
  exists r, (with_reactions (λ rs, (rs ++ [r])%list) db).
  assert (∀ db', messages db' = messages db →
            objects_get (messages db') (Some pk)
              (λ m, bool_decide (Message.room m = ChatConsumer.room_id self))
            = Some (pk, stored)) as Hget.
  { intros db' ->. apply objects_get_Some.
    split; [done|]. split; [done|]. by apply bool_decide_eq_true_2. }
  split; [|split].
  - unfold ChatConsumer.add_message_reaction, mbind at 1, SE_bind, get.
    cbv beta iota.
    rewrite (Hget db eq_refl), Huser. cbn [user_id].
    by rewrite (bind_ok _ _ _ _ _ Hcreate).
  - unfold ChatConsumer.add_message_reaction, mbind at 1, SE_bind, get.
    cbv beta iota.
    rewrite (Hget (with_reactions (λ rs, (rs ++ [r])%list) db) eq_refl), Huser.
    cbn [user_id].
    destruct (get_or_create_existing pk uid kind
                (with_reactions (λ rs, (rs ++ [r])%list) db))
      as (r' & Hexisting).
    { simpl. by rewrite Hone. }
    by rewrite (bind_ok _ _ _ _ _ Hexisting).
  - exact Hone.
Qed.

Section Reactions.
Context {L : Type} `{!ChannelLayer L}.

(** [handle_message_reaction] with action add: whatever
    [add_message_reaction] returns, the group send follows. *)
Lemma handle_message_reaction_add_eq self data (w : World L) :
  default "add" (frame_action data) = "add" →
  ChatConsumer.handle_message_reaction self data w =
    match database_sync_to_async
            (ChatConsumer.add_message_reaction self (frame_message_id data)
               (frame_reaction_type data)) w with
    | (Ok _, w1) =>
        channel_layer_group_send (ChatConsumer.room_group_name self)
          (message_reaction_ev (frame_message_id data)
             (frame_reaction_type data) "add"
             (user_username (ChatConsumer.user self))) w1
    | (Raise e, w1) => (Raise e, w1)
    end.
Proof.
  intros Haction. unfold ChatConsumer.handle_message_reaction.
  rewrite Haction. simpl. unfold mbind at 1, SE_bind.
  by destruct (database_sync_to_async _ w) as [[?|?] ?].
Qed.
End Reactions.

(** C2 at its failing input. Alice adds the reaction "like" to message 1
    twice. The store ends with exactly one row for the triple, and the
    second [add_message_reaction] returns nothing and changes nothing;
    but [handle_message_reaction] does not look at what it returned, and
    the second add is sent to the room group like the first. An add that
    names a missing message is sent to the group as well. *)
Theorem duplicate_reaction_is_announced :
  let like := message_reaction_ev (Some 1) (Some "like") "add" "alice" in
  let first := ChatConsumer.handle_message_reaction alice_room
                 (react_frame 1 "like" "add") demo_world in
  let second := ChatConsumer.handle_message_reaction alice_room
                  (react_frame 1 "like" "add") first.2 in
  first.1 = Ok tt
  ∧ reactions (db first.2) = [MessageReaction.mk 1 1 "like" 100]
  ∧ trace first.2 = [GroupSend "chat_1" like]
  ∧ ChatConsumer.add_message_reaction alice_room (Some 1) (Some "like")
      (db first.2) = (Ok None, db first.2)
  ∧ second.1 = Ok tt
  ∧ db second.2 = db first.2
  ∧ count_reaction 1 1 "like" (reactions (db second.2)) = 1%nat
  ∧ trace second.2 = [GroupSend "chat_1" like; GroupSend "chat_1" like]
  ∧ (let missing := ChatConsumer.handle_message_reaction alice_room
                      (react_frame 99 "like" "add") demo_world in
     missing.1 = Ok tt
     ∧ db missing.2 = demo_db
     ∧ trace missing.2
       = [GroupSend "chat_1"
            (message_reaction_ev (Some 99) (Some "like") "add" "alice")]).
Proof. vm_compute. repeat split; reflexivity. Qed.

(** ** Fanout on the in-memory channel layer *)

Lemma foldr_enqueue_lookup ev (chans : list string) qs ch :
  NoDup chans →
  foldr (enqueue ev) qs chans !! ch =
    if decide (ch ∈ chans) then Some (default [] (qs !! ch) ++ [ev])%list
    else qs !! ch.
Proof.
  induction chans as [|c chans IH]; intros Hnodup; simpl.
  - destruct (decide (ch ∈ [])) as [Hin|]; [|done].
    by apply not_elem_of_nil in Hin.
  - apply NoDup_cons in Hnodup as [Hfresh Hnodup].
    specialize (IH Hnodup). unfold enqueue at 1.
    destruct (decide (c = ch)) as [-> | Hne].
    + rewrite lookup_insert_eq.
      rewrite decide_True by (apply elem_of_cons; by left).
      rewrite IH. by rewrite decide_False.
    + rewrite lookup_insert_ne by done. rewrite IH.
      destruct (decide (ch ∈ chans)) as [Hin | Hout].
      * by rewrite decide_True by (apply elem_of_cons; by right).
      * rewrite decide_False; [done|].
        intros [-> | Hin]%elem_of_cons; done.
Qed.

(** A group send on the in-memory layer queues the event once for each
    channel that is in the group at the time of the call, the sender's
    own included, and for no other channel. *)
Lemma in_memory_group_send_fanout (l : InMemoryChannelLayer) group ev ch :
  ∃ l', group_send group ev l = Ok l'
        ∧ groups l' = groups l
        ∧ queues l' !! ch =
            if decide (ch ∈ default ∅ (groups l !! group)) then
              Some (default [] (queues l !! ch) ++ [ev])%list
            else queues l !! ch.
Proof.
  eexists. split; [reflexivity|]. split; [reflexivity|]. simpl.
  rewrite foldr_enqueue_lookup by apply NoDup_elements.
  destruct (decide (ch ∈ default ∅ (groups l !! group))) as [Hin | Hout].
  - by rewrite decide_True by (by apply elem_of_elements).
  - rewrite decide_False; [done|]. by rewrite elem_of_elements.
Qed.

(** * Further properties of the code *)

(** ** Blank content *)

(** The first byte of a space of two or three bytes is no space, nor
    are the first two bytes of one of three. *)
Lemma isspace_two_bytes a b :
  isspace [a; b] = true → isspace [a] = false.
Proof.
  unfold isspace. cbn [fmap list_fmap].
  generalize (nat_of_ascii a) (nat_of_ascii b). intros na nb.
  destruct (Nat.eqb_spec na 194) as [->|_]; [done|].
  by rewrite andb_false_l.
Qed.

Lemma isspace_three_bytes a b c :
  isspace [a; b; c] = true → isspace [a] = false ∧ isspace [a; b] = false.
Proof.
  unfold isspace. cbn [fmap list_fmap].
  generalize (nat_of_ascii a) (nat_of_ascii b) (nat_of_ascii c).
  intros na nb nc.
  destruct (Nat.eqb_spec na 225) as [->|_]; [done|].
  destruct (Nat.eqb_spec na 226) as [->|_]; [done|].
  destruct (Nat.eqb_spec na 227) as [->|_]; [done|].
  by rewrite !andb_false_l.
Qed.

Lemma lstrip_blank s : blank s → lstrip s = EmptyString.
Proof.
  induction 1 as [|bytes s Hspace _ IH]; [done|].
  destruct bytes as [|a [|b [|c [|d bytes]]]]; try done.
  - change (string_of_list_ascii [a] +:+ s) with (String a s).
    unfold lstrip. cbn [lstrip_by]. by rewrite Hspace.
  - change (string_of_list_ascii [a; b] +:+ s) with (String a (String b s)).
    unfold lstrip. cbn [lstrip_by].
    by rewrite (isspace_two_bytes _ _ Hspace), Hspace.
  - change (string_of_list_ascii [a; b; c] +:+ s)
      with (String a (String b (String c s))).
    destruct (isspace_three_bytes _ _ _ Hspace) as [Hone Htwo].
    unfold lstrip. cbn [lstrip_by]. by rewrite Hone, Htwo, Hspace.
Qed.

Lemma strip_blank s : blank s → strip s = EmptyString.
Proof. intros Hs. unfold strip. by rewrite (lstrip_blank s Hs). Qed.

(** X1. A frame that asks to create or edit a message, or to create a
    direct message, with content that is missing, empty or made of
    spaces only (the code points [str.strip()] removes) is dropped by
    [receive]: the store, the channel layer and the wire are as before,
    and nothing is raised. *)
Theorem blank_content_is_dropped :
  ∀ (L : Type) (CL : ChannelLayer L) (json_loads : string → Decoded)
    (room_self : ChatConsumer.t) (dm_self : DirectMessageConsumer.t)
    (text_data : string) (data : Frame) (raw : string) (w : World L),
    json_loads text_data = decoded (json_object data) →
    content_text data = Some raw →
    blank raw →
    (frame_type data = Some "chat_message"
     ∨ frame_type data = Some "message_edit" →
       ChatConsumer.receive json_loads room_self text_data w = (Ok tt, w))
    ∧ (frame_type data = Some "direct_message" →
         DirectMessageConsumer.receive json_loads dm_self text_data w
           = (Ok tt, w)).
Proof.
  intros L CL json_loads room_self dm_self text_data data raw w
    Hdata Hraw Hblank.
  apply strip_blank in Hblank.
  unfold ChatConsumer.receive, DirectMessageConsumer.receive.
  rewrite Hdata. split.
  - intros [Htag | Htag]; rewrite Htag; simpl.
    + unfold ChatConsumer.handle_chat_message.
      rewrite (bind_ok _ _ _ _ _ (get_content_strip_text _ _ _ Hraw)).
      by rewrite Hblank.
    + unfold ChatConsumer.handle_message_edit.
      rewrite (bind_ok _ _ _ _ _ (get_content_strip_text _ _ _ Hraw)).
      by rewrite Hblank.
  - intros Htag. rewrite Htag. simpl.
    unfold DirectMessageConsumer.handle_direct_message.
    rewrite (bind_ok _ _ _ _ _ (get_content_strip_text _ _ _ Hraw)).
    by rewrite Hblank.
Qed.

Lemma blank_content_is_dropped_witness :
  ChatConsumer.receive
    (λ _, decoded (json_object (edit_frame 1 (" " +:+ nbsp +:+ emsp))))
    bob_room "frame" demo_world
  = (Ok tt, demo_world)
  ∧ DirectMessageConsumer.receive
      (λ _, decoded (json_object
                    (mkFrame (Some "direct_message") None None None
                             None None None None)))
      alice_dm "frame" demo_world
    = (Ok tt, demo_world).
Proof.
  split.
  - destruct (blank_content_is_dropped InMemoryChannelLayer _
                (λ _, decoded (json_object
                              (edit_frame 1 (" " +:+ nbsp +:+ emsp))))
                bob_room alice_dm "frame" _ (" " +:+ nbsp +:+ emsp)
                demo_world eq_refl eq_refl)
      as [Hroom _].
    + apply (blank_space [ascii_of_nat 32] (nbsp +:+ emsp) eq_refl).
      apply (blank_space [ascii_of_nat 194; ascii_of_nat 160] emsp eq_refl).
      apply (blank_space [ascii_of_nat 226; ascii_of_nat 128;
                          ascii_of_nat 131] EmptyString eq_refl).
      apply blank_empty.
    + apply Hroom. right. reflexivity.
  - destruct (blank_content_is_dropped InMemoryChannelLayer _
                (λ _, decoded (json_object
                              (mkFrame (Some "direct_message") None None None
                                       None None None None)))
                bob_room alice_dm "frame" _ EmptyString demo_world
                eq_refl eq_refl)
      as [_ Hdm].
    + apply blank_empty.
    + apply Hdm. reflexivity.
Defined.

(** ** Edits and deletes that are refused or accepted *)

(** X2. An edit or a delete that names no message, a message of another
    room, or a message somebody else sent does nothing at all: the store
    keeps every row as it was, nothing goes to the group or to the
    requester, and the handler returns normally (an edit whose content
    is no text has raised [AttributeError] before the lookup). *)
Theorem foreign_edit_or_delete_is_ignored :
  ∀ (L : Type) (CL : ChannelLayer L) (self : ChatConsumer.t) uid row
    (data : Frame) (w : World L),
    ChatConsumer.user self = AuthUser uid row →
    (frame_message_id data = None
     ∨ (∃ pk, frame_message_id data = Some pk ∧ messages (db w) !! pk = None)
     ∨ (∃ pk stored, frame_message_id data = Some pk
                     ∧ messages (db w) !! pk = Some stored
                     ∧ (Message.room stored ≠ ChatConsumer.room_id self
                        ∨ Message.sender stored ≠ uid))) →
    ChatConsumer.handle_message_edit self data w
      = (match content_text data with
         | Some _ => Ok tt
         | None => Raise AttributeError
         end, w)
    ∧ ChatConsumer.handle_message_delete self data w = (Ok tt, w).
Proof.
  intros L CL self uid row data w Huser Hforeign.
  assert (∀ pk stored, frame_message_id data = Some pk →
            messages (db w) !! pk = Some stored →
            ¬ (Message.room stored = ChatConsumer.room_id self
               ∧ Message.sender stored = uid)) as Hno.
  { intros pk stored Hid Hrow [Hroom Hsender].
    destruct Hforeign as [Hnone | [(k & Hk & Hmiss) | (k & m & Hk & Hm & Hor)]].
    - congruence.
    - congruence.
    - assert (k = pk) as -> by congruence.
      assert (m = stored) as -> by congruence.
      by destruct Hor. }
  split.
  - destruct (content_text data) as [raw|] eqn:Hraw.
    + by apply (handle_message_edit_refused self uid row data raw).
    + unfold ChatConsumer.handle_message_edit.
      rewrite (bind_raise _ _ _ _ _ (get_content_strip_no_text _ _ Hraw)).
      reflexivity.
  - by apply (handle_message_delete_refused self uid row).
Qed.

Lemma foreign_edit_or_delete_is_ignored_witness :
  ChatConsumer.handle_message_edit bob_room (edit_frame 1 "mine now")
    demo_world = (Ok tt, demo_world)
  ∧ ChatConsumer.handle_message_delete bob_room (delete_frame 1)
      demo_world = (Ok tt, demo_world)
  ∧ ChatConsumer.handle_message_delete alice_room (delete_frame 42)
      demo_world = (Ok tt, demo_world).
Proof.
  split; [|split].
  - apply (foreign_edit_or_delete_is_ignored InMemoryChannelLayer _
             bob_room 2 bob (edit_frame 1 "mine now") demo_world eq_refl).
    right. right. eexists 1, _. split; [reflexivity|].
    split; [reflexivity|]. right. simpl. discriminate.
  - apply (foreign_edit_or_delete_is_ignored InMemoryChannelLayer _
             bob_room 2 bob (delete_frame 1) demo_world eq_refl).
    right. right. eexists 1, _. split; [reflexivity|].
    split; [reflexivity|]. right. simpl. discriminate.
  - apply (foreign_edit_or_delete_is_ignored InMemoryChannelLayer _
             alice_room 1 alice (delete_frame 42) demo_world eq_refl).
    right. left. exists 42. split; reflexivity.
Defined.

(** X3. A delete by the sender of a message of the session's room is
    stored before it is announced. When the group send returns, exactly
    one [message_deleted] event carrying the requested id goes to the
    room group; when it raises, the exception leaves the handler and the
    deletion stays stored, unannounced. Either way the row of that id is
    the only thing in the store that changes. *)
Theorem sender_delete_is_stored_then_announced :
  ∀ (L : Type) (CL : ChannelLayer L) (self : ChatConsumer.t) uid row
    (data : Frame) (w : World L) pk stored,
    ChatConsumer.user self = AuthUser uid row →
    frame_message_id data = Some pk →
    messages (db w) !! pk = Some stored →
    Message.room stored = ChatConsumer.room_id self →
    Message.sender stored = uid →
    let group := ChatConsumer.room_group_name self in
    let ev := message_deleted_ev (Some pk) in
    let stored_db :=
      with_messages <[pk := deleted_row stored (clock (db w))]> (db w) in
    ChatConsumer.handle_message_delete self data w
      = match group_send group ev (layer w) with
        | Ok l' => (Ok tt, mkWorld stored_db l'
                             (trace w ++ [GroupSend group ev]))
        | Raise e => (Raise e, mkWorld stored_db (layer w) (trace w))
        end
    ∧ (∀ k, k ≠ pk → messages stored_db !! k = messages (db w) !! k)
    ∧ reactions stored_db = reactions (db w)
    ∧ outside_room stored_db = outside_room (db w).
Proof.
  intros L CL self uid row data w pk stored Huser Hid Hrow Hroom Hsender
    group ev stored_db.
  split; [|split; [|done]].
  - unfold ChatConsumer.handle_message_delete. rewrite Hid.
    rewrite (bind_ok _ _ _ _ _
               (database_sync_to_async_eq _ _ _ _
                  (delete_message_by_sender self uid row (db w) pk stored
                     Huser Hrow Hroom Hsender))).
    unfold channel_layer_group_send, on_layer, emit, modify, mbind, SE_bind.
    simpl. fold group ev stored_db.
    by destruct (group_send group ev (layer w)).
  - intros k Hk. simpl. by rewrite lookup_insert_ne.
Qed.

Lemma sender_delete_is_stored_then_announced_witness :
  ∃ l',
    ChatConsumer.handle_message_delete alice_room (delete_frame 1) demo_world
    = (Ok tt,
       mkWorld
         (with_messages
            <[1 := Message.mk 1 1 deleted_placeholder "text" None false None
                              true (Some 100) 20 100]> demo_db)
         l' [GroupSend "chat_1" (message_deleted_ev (Some 1))]).
Proof.
  eexists.
  destruct (sender_delete_is_stored_then_announced InMemoryChannelLayer _
              alice_room 1 alice (delete_frame 1) demo_world 1
              (Message.mk 1 1 "hello" "text" None false None false None 20 20)
              eq_refl eq_refl eq_refl eq_refl eq_refl) as [Hrun _].
  rewrite Hrun. reflexivity.
Defined.

(** ** Reactions: removal and uniqueness *)

Lemma same_reaction_true message user kind r :
  same_reaction message user kind r = true ↔
  MessageReaction.message r = message
  ∧ MessageReaction.user r = user
  ∧ MessageReaction.reaction_type r = kind.
Proof. unfold same_reaction. apply bool_decide_eq_true. Qed.



Lemma count_filter_le message user kind (P : MessageReaction.t → bool) rs :
  (count_reaction message user kind (List.filter P rs)
   ≤ count_reaction message user kind rs)%nat.
Proof.
  unfold count_reaction. induction rs as [|r rs IH]; simpl; [done|].
  destruct (P r); simpl; destruct (same_reaction message user kind r);
    simpl; lia.
Qed.





Lemma add_message_reaction_rows self id kind db :
  reactions (ChatConsumer.add_message_reaction self id kind db).2
    = reactions db
  ∨ ∃ r, reactions (ChatConsumer.add_message_reaction self id kind db).2
           = (reactions db ++ [r])%list
         ∧ count_reaction (MessageReaction.message r) (MessageReaction.user r)
             (MessageReaction.reaction_type r) (reactions db) = 0%nat.
Proof.
  remember (ChatConsumer.add_message_reaction self id kind db).2
    as db' eqn:Hdb'.
  unfold ChatConsumer.add_message_reaction, mbind at 1, SE_bind, get in Hdb'.
  cbv beta iota in Hdb'.
  destruct (objects_get _ _ _) as [[pk stored]|]; [|left; by subst].
  destruct (user_id (ChatConsumer.user self)) as [uid|]; [|left; by subst].
  destruct kind as [kind|]; [|left; by subst].
  destruct (decide (count_reaction pk uid kind (reactions db) = 0%nat))
    as [Hnone | Hsome].
  - right. exists (MessageReaction.mk pk uid kind (clock db)).
    destruct (get_or_create_new pk uid kind db Hnone) as (r & Hrun & _).
    assert (r = MessageReaction.mk pk uid kind (clock db)) as ->.
    { unfold MessageReaction_objects_get_or_create, mbind, SE_bind, get
        in Hrun.
      rewrite (proj2 (find_none_count pk uid kind (reactions db)) Hnone)
        in Hrun.
      by injection Hrun as <-. }
    rewrite (bind_ok _ _ _ _ _ Hrun) in Hdb'. subst db'.
    split; [reflexivity|exact Hnone].
  - destruct (get_or_create_existing pk uid kind db Hsome) as (r & Hrun).
    rewrite (bind_ok _ _ _ _ _ Hrun) in Hdb'. left. by subst.
Qed.

Lemma remove_message_reaction_rows self id kind db :
  ∃ P, reactions (ChatConsumer.remove_message_reaction self id kind db).2
       = List.filter P (reactions db).
Proof.
  assert (reactions db = List.filter (λ _, true) (reactions db)) as Hall.
  { induction (reactions db) as [|r rs IH]; simpl; [done|]. by f_equal. }
  remember (ChatConsumer.remove_message_reaction self id kind db).2
    as db' eqn:Hdb'.
  unfold ChatConsumer.remove_message_reaction, mbind, SE_bind, get in Hdb'.
  cbv beta iota in Hdb'.
  destruct (objects_get _ _ _) as [[pk stored]|];
    [|exists (λ _, true); by subst].
  destruct (user_id (ChatConsumer.user self)) as [uid|];
    [|exists (λ _, true); by subst].
  destruct kind as [kind|]; [|exists (λ _, true); by subst].
  subst db'. by eexists.
Qed.

(** X5. The reaction table stays free of duplicates: if no (message,
    user, kind) triple has more than one row, then none has after the
    consumer's add or remove, whatever the session, the message id and
    the kind, and whether the call returns or raises. *)
Theorem reactions_stay_unique :
  ∀ (self : ChatConsumer.t) id kind db,
    reactions_unique db →
    reactions_unique (ChatConsumer.add_message_reaction self id kind db).2
    ∧ reactions_unique
        (ChatConsumer.remove_message_reaction self id kind db).2.
Proof.
  intros self id kind db Hunique. split; intros m u k.
  - destruct (add_message_reaction_rows self id kind db)
      as [-> | (r & -> & Hnew)]; [apply Hunique|].
    rewrite count_reaction_app. unfold count_reaction at 2. simpl.
    destruct (same_reaction m u k r) eqn:Hr; simpl.
    + apply same_reaction_true in Hr as (<- & <- & <-). rewrite Hnew. lia.
    + specialize (Hunique m u k). lia.
  - destruct (remove_message_reaction_rows self id kind db) as [P ->].
    etransitivity; [apply count_filter_le|apply Hunique].
Qed.

Lemma reactions_stay_unique_witness :
  (count_reaction 1%Z 1%Z "like"
     (reactions
        (ChatConsumer.add_message_reaction alice_room (Some 1%Z)
           (Some "like") demo_db).2) ≤ 1)%nat.
Proof.
  apply (reactions_stay_unique alice_room (Some 1) (Some "like") demo_db).
  intros m u k. unfold count_reaction. simpl. lia.
Defined.

(** ** Direct messages: create *)

Lemma other_participant_spec self user p :
  Conversation_get_other_participant self user = Some p →
  p ≠ user ∧ p ∈ Conversation.participants self.
Proof.
  unfold Conversation_get_other_participant. intros Hhead.
  apply head_Some_elem_of in Hhead.
  apply list_elem_of_filter in Hhead as [Hne Hin]. done.
Qed.

Lemma no_other_participant self user :
  Conversation_get_other_participant self user = None ↔
  ∀ p, p ∈ Conversation.participants self → p = user.
Proof.
  unfold Conversation_get_other_participant. rewrite head_None. split.
  - intros Hnil p Hin. destruct (decide (p = user)) as [|Hne]; [done|].
    assert (p ∈ filter (λ q, q ≠ user) (Conversation.participants self))
      as Hp by (by apply list_elem_of_filter).
    rewrite Hnil in Hp. by apply not_elem_of_nil in Hp.
  - intros Hall.
    destruct (filter _ _) as [|q qs] eqn:Hfilter; [done|].
    assert (q ∈ filter (λ q, q ≠ user) (Conversation.participants self))
      as Hq by (rewrite Hfilter; apply elem_of_cons; by left).
    apply list_elem_of_filter in Hq as [Hne Hin]. by apply Hall in Hin.
Qed.

(** X6. [Conversation.get_other_participant] returns a participant
    other than the given user, and nothing exactly when there is none.
    In a conversation of two distinct users each is the other's other
    participant; a user who is not in it gets the first of the two. *)
Theorem other_participant_of_a_pair :
  (∀ self user p,
     Conversation_get_other_participant self user = Some p →
     p ≠ user ∧ p ∈ Conversation.participants self)
  ∧ (∀ self user,
       Conversation_get_other_participant self user = None ↔
       ∀ p, p ∈ Conversation.participants self → p = user)
  ∧ (∀ a b last, a ≠ b →
       let self := Conversation.mk [a; b] last in
       Conversation_get_other_participant self a = Some b
       ∧ Conversation_get_other_participant self b = Some a
       ∧ ∀ c, c ≠ a →  c ≠ b →
           Conversation_get_other_participant self c = Some a).
Proof.
  split; [apply other_participant_spec|].
  split; [apply no_other_participant|].
  intros a b last Hab self.
  unfold Conversation_get_other_participant, self. simpl.
  split; [|split].
  - rewrite filter_cons_False by (intros H; by apply H).
    by rewrite filter_cons_True.
  - rewrite filter_cons_True by done.
    reflexivity.
  - intros c Hca Hcb. by rewrite filter_cons_True.
Qed.

Lemma other_participant_of_a_pair_witness :
  Conversation_get_other_participant (Conversation.mk [1; 2] (Some 1)) 1
    = Some 2
  ∧ Conversation_get_other_participant (Conversation.mk [1; 2] (Some 1)) 2
    = Some 1
  ∧ Conversation_get_other_participant (Conversation.mk [1; 2] (Some 1)) 3
    = Some 1.
Proof.
  destruct other_participant_of_a_pair as (_ & _ & Hpair).
  destruct (Hpair 1 2 (Some 1) ltac:(discriminate)) as (Ha & Hb & Hc).
  split; [exact Ha|]. split; [exact Hb|].
  apply Hc; discriminate.
Defined.









(** ** Presence writes *)

(** X9. [User.set_online_status] on a stored user writes that user's
    row and no other: the flag is the one asked for and the status text
    goes with it; going online stamps [last_seen] with the time of the
    call, going offline stores the [last_seen] the calling object holds,
    whatever the row held; the user name is kept. Without a row to
    update it raises [DatabaseError] and writes nothing. *)
Theorem online_status_write :
  ∀ pk (self : User.t) (is_online : bool) db,
    (∀ stored, users db !! pk = Some stored →
       ∃ self' row',
         User_set_online_status pk self is_online db
           = (Ok self', with_users <[pk := row']> db)
         ∧ User.is_online row' = is_online
         ∧ User.status row' = (if is_online then "online" else "offline")
         ∧ User.last_seen row'
           = (if is_online then clock db else User.last_seen self)
         ∧ User.username row' = User.username stored
         ∧ User.is_online self' = is_online
         ∧ User.last_seen self' = User.last_seen row'
         ∧ User.username self' = User.username self)
    ∧ (users db !! pk = None →
       User_set_online_status pk self is_online db
         = (Raise DatabaseError, db)).
Proof.
  intros pk self is_online db. split.
  - intros stored Hrow. destruct is_online.
    + rewrite (User_set_online_status_true pk self stored db Hrow).
      by eexists _, _.
    + rewrite (User_set_online_status_false pk self stored db Hrow).
      by eexists _, _.
  - intros Hmissing.
    unfold User_set_online_status, User_update_last_seen.
    destruct is_online.
    + unfold mbind, SE_bind, get, raise.
      rewrite models_timezone_now. cbv beta iota. by rewrite Hmissing.
    + unfold mbind, SE_bind, get, raise, mret, SE_ret.
      cbv beta iota. by rewrite Hmissing.
Qed.

Lemma online_status_write_witness :
  ∃ self',
    User_set_online_status 1 (User.mk "alice" "online" 55 true) false
      (with_users <[1 := alice_online]> demo_db)
    = (Ok self',
       with_users <[1 := User.mk "alice" "offline" 55 false]>
         (with_users <[1 := alice_online]> demo_db))
  ∧ User_set_online_status 9 alice true demo_db
    = (Raise DatabaseError, demo_db).
Proof.
  destruct (online_status_write 1 (User.mk "alice" "online" 55 true) false
              (with_users <[1 := alice_online]> demo_db)) as [Hstored _].
  destruct (Hstored alice_online eq_refl)
    as (self' & row' & Hrun & _).
  exists self'. split.
  - rewrite Hrun. vm_compute in Hrun. by injection Hrun as <- <-.
  - by apply (online_status_write 9 alice true demo_db).
Defined.

(** ** Joining while the channel layer fails *)

(** X10. A join that passes the membership check registers before it
    accepts. If the group add raises, [connect] ends there: nothing is
    accepted, written or stored, and a room session's user is not marked
    online. If it returns, a conversation session is accepted with the
    store as it was. *)
Theorem join_stops_at_failed_registration :
  ∀ (L : Type) (CL : ChannelLayer L) channel scope (w : World L),
    let room_group := "chat_" +:+ url_route_kwarg scope in
    let dm_group := "direct_" +:+ url_route_kwarg scope in
    let room_self := ChatConsumer.mk channel (url_route_id scope) room_group
                       (scope_user scope) in
    let dm_self := DirectMessageConsumer.mk channel (url_route_id scope)
                     dm_group (scope_user scope) in
    (ChatConsumer.is_room_member room_self (db w) = (Ok true, db w) →
     ∀ e, group_add room_group channel (layer w) = Raise e →
          ChatConsumer.connect channel scope w = (Raise e, w))
    ∧ (DirectMessageConsumer.is_conversation_participant dm_self (db w)
         = (Ok true, db w) →
       DirectMessageConsumer.connect channel scope w
         = match group_add dm_group channel (layer w) with
           | Ok l' => (Ok dm_self,
                       mkWorld (db w) l' (trace w ++ [Accept channel]))
           | Raise e => (Raise e, w)
           end).
Proof.
  intros L CL channel scope w room_group dm_group room_self dm_self. split.
  - intros Hmember e Hadd. unfold ChatConsumer.connect.
    fold room_group. fold room_self.
    rewrite (bind_ok _ _ _ _ _ (database_sync_to_async_eq _ _ _ _ Hmember)).
    rewrite world_eta. cbn [negb].
    unfold channel_layer_group_add, on_layer, mbind, SE_bind.
    cbn [ChatConsumer.room_group_name ChatConsumer.channel_name room_self].
    by rewrite Hadd.
  - intros Hparticipant. unfold DirectMessageConsumer.connect.
    fold dm_group. fold dm_self.
    rewrite (bind_ok _ _ _ _ _
               (database_sync_to_async_eq _ _ _ _ Hparticipant)).
    rewrite world_eta. cbn [negb].
    unfold channel_layer_group_add, on_layer, DirectMessageConsumer.accept,
      emit, modify, mbind, SE_bind, mret, SE_ret.
    cbn [DirectMessageConsumer.room_group_name
         DirectMessageConsumer.channel_name dm_self].
    by destruct (group_add dm_group channel (layer w)).
Qed.

Lemma join_stops_at_failed_registration_witness :
  ChatConsumer.connect "ws.alice" (mkScope "1" 1 (AuthUser 1 alice))
    (mkWorld demo_db unreachable [])
  = (Raise ConnectionError, mkWorld demo_db unreachable [])
  ∧ ∃ l',
      DirectMessageConsumer.connect "dm.bob" (mkScope "1" 1 (AuthUser 2 bob))
        demo_world
      = (Ok (DirectMessageConsumer.mk "dm.bob" 1 "direct_1" (AuthUser 2 bob)),
         mkWorld demo_db l' [Accept "dm.bob"]).
Proof.
  split.
  - destruct (join_stops_at_failed_registration UnreachableLayer _
                "ws.alice" (mkScope "1" 1 (AuthUser 1 alice))
                (mkWorld demo_db unreachable [])) as [Hroom _].
    apply Hroom; reflexivity.
  - eexists.
    destruct (join_stops_at_failed_registration InMemoryChannelLayer _
                "dm.bob" (mkScope "1" 1 (AuthUser 2 bob)) demo_world)
      as [_ Hdm].
    rewrite Hdm; reflexivity.
Defined.

(** ** What a session's frames can write *)

Section Wire.
Context {L : Type} `{!ChannelLayer L}.

Lemma silent_ret {A} (a : A) : silent (mret a : Aw L A).
Proof. by intros w. Qed.

Lemma silent_database_sync_to_async {A} (m : Db A) :
  silent (database_sync_to_async m : Aw L A).
Proof.
  intros w. unfold database_sync_to_async. by destruct (m (db w)).
Qed.

Lemma silent_bind {A B} (m : Aw L A) (k : A → Aw L B) :
  silent m → (∀ a, silent (k a)) → silent (m ≫= k).
Proof.
  intros Hm Hk w. unfold mbind, SE_bind. specialize (Hm w).
  destruct (m w) as [[a|e] w1]; simpl in *; [|done].
  by rewrite Hk.
Qed.

Lemma silent_get_content_strip data :
  silent (get_content_strip data : Aw L string).
Proof.
  intros w. unfold get_content_strip.
  by destruct (frame_content data) as [[text|]|].
Qed.

Lemma sends_of_silent {A} group (m : Aw L A) :
  silent m → sends_at_most_one group m.
Proof. intros Hm w. left. apply Hm. Qed.

Lemma sends_bind {A B} group (m : Aw L A) (k : A → Aw L B) :
  silent m → (∀ a, sends_at_most_one group (k a)) →
  sends_at_most_one group (m ≫= k).
Proof.
  intros Hm Hk w. unfold mbind, SE_bind. specialize (Hm w).
  destruct (m w) as [[a|e] w1]; simpl in *; [|by left].
  rewrite <- Hm. apply Hk.
Qed.

Lemma sends_group_send group ev :
  sends_at_most_one group (channel_layer_group_send group ev : Aw L unit).
Proof.
  intros w. unfold channel_layer_group_send, on_layer, emit, modify,
    mbind, SE_bind.
  destruct (group_send group ev (layer w)); simpl; [|by left].
  right. by exists ev.
Qed.

Lemma room_chat_message_sends self data :
  sends_at_most_one (ChatConsumer.room_group_name self)
    (ChatConsumer.handle_chat_message self data : Aw L unit).
Proof.
  unfold ChatConsumer.handle_chat_message.
  apply sends_bind; [apply silent_get_content_strip|]. intros content.
  destruct (negb _); [apply sends_of_silent, silent_ret|].
  apply sends_bind; [apply silent_database_sync_to_async|].
  intros [message|]; [|apply sends_of_silent, silent_ret].
  apply sends_bind; [apply silent_database_sync_to_async|].
  intros message_data. apply sends_group_send.
Qed.

Lemma room_message_edit_sends self data :
  sends_at_most_one (ChatConsumer.room_group_name self)
    (ChatConsumer.handle_message_edit self data : Aw L unit).
Proof.
  unfold ChatConsumer.handle_message_edit.
  apply sends_bind; [apply silent_get_content_strip|]. intros content.
  destruct (negb _); [apply sends_of_silent, silent_ret|].
  apply sends_bind; [apply silent_database_sync_to_async|].
  intros [message|]; [|apply sends_of_silent, silent_ret].
  apply sends_bind; [apply silent_database_sync_to_async|].
  intros message_data. apply sends_group_send.
Qed.

Lemma room_message_delete_sends self data :
  sends_at_most_one (ChatConsumer.room_group_name self)
    (ChatConsumer.handle_message_delete self data : Aw L unit).
Proof.
  unfold ChatConsumer.handle_message_delete.
  apply sends_bind; [apply silent_database_sync_to_async|].
  intros [message|]; [apply sends_group_send|].
  apply sends_of_silent, silent_ret.
Qed.

Lemma room_message_reaction_sends self data :
  sends_at_most_one (ChatConsumer.room_group_name self)
    (ChatConsumer.handle_message_reaction self data : Aw L unit).
Proof.
  unfold ChatConsumer.handle_message_reaction.
  apply sends_bind; [|intros reaction; apply sends_group_send].
  destruct (decide _); [apply silent_database_sync_to_async|].
  apply silent_bind; [apply silent_database_sync_to_async|].
  intros []. apply silent_ret.
Qed.

Lemma conversation_direct_message_sends self data :
  sends_at_most_one (DirectMessageConsumer.room_group_name self)
    (DirectMessageConsumer.handle_direct_message self data : Aw L unit).
Proof.
  unfold DirectMessageConsumer.handle_direct_message.
  apply sends_bind; [apply silent_get_content_strip|]. intros content.
  destruct (negb _); [apply sends_of_silent, silent_ret|].
  apply sends_bind; [apply silent_database_sync_to_async|].
  intros [message|]; [|apply sends_of_silent, silent_ret].
  apply sends_bind; [apply silent_database_sync_to_async|].
  intros message_data. apply sends_group_send.
Qed.

Lemma conversation_message_read_sends self data :
  sends_at_most_one (DirectMessageConsumer.room_group_name self)
    (DirectMessageConsumer.handle_message_read self data : Aw L unit).
Proof.
  unfold DirectMessageConsumer.handle_message_read.
  apply sends_bind; [apply silent_database_sync_to_async|].
  intros []. apply sends_group_send.
Qed.

Lemma room_handle_typing_sends self data :
  sends_at_most_one (ChatConsumer.room_group_name self)
    (ChatConsumer.handle_typing self data : Aw L unit).
Proof. unfold ChatConsumer.handle_typing. apply sends_group_send. Qed.

Lemma conversation_handle_typing_sends self data :
  sends_at_most_one (DirectMessageConsumer.room_group_name self)
    (DirectMessageConsumer.handle_typing self data : Aw L unit).
Proof.
  unfold DirectMessageConsumer.handle_typing. apply sends_group_send.
Qed.

Lemma own_output_of_sends {A} channel group (m : Aw L A) w :
  sends_at_most_one group m →
  own_output channel group (trace w) (trace (m w).2).
Proof.
  intros Hm. destruct (Hm w) as [Hsame | [ev Hsent]].
  - by left.
  - right. right. by exists ev.
Qed.
End Wire.

(** X11. One inbound frame makes a session write at most one thing, and
    only to itself or to its own group: after [receive], whatever the
    text, the decoder, the store and the channel layer, and whether it
    returns or raises, the wire is as before, or has one more entry that
    is the "Invalid JSON" reply on the session's own socket or an event
    sent to the session's own group. In particular [receive] never
    accepts, never closes, and never writes an event to a socket. *)
Theorem receive_writes_at_most_once :
  ∀ (L : Type) (CL : ChannelLayer L) (json_loads : string → Decoded)
    (room_self : ChatConsumer.t) (dm_self : DirectMessageConsumer.t)
    (text_data : string) (w : World L),
    own_output (ChatConsumer.channel_name room_self)
      (ChatConsumer.room_group_name room_self) (trace w)
      (trace (ChatConsumer.receive json_loads room_self text_data w).2)
    ∧ own_output (DirectMessageConsumer.channel_name dm_self)
        (DirectMessageConsumer.room_group_name dm_self) (trace w)
        (trace
           (DirectMessageConsumer.receive json_loads dm_self text_data w).2).
Proof.
  intros L CL json_loads room_self dm_self text_data w. split.
  - unfold ChatConsumer.receive.
    destruct (json_loads text_data) as [[data|]| |e];
      [|by left|right; by left|by left].
    cbv zeta. repeat case_decide.
    + apply own_output_of_sends, room_chat_message_sends.
    + apply own_output_of_sends.
      apply (room_handle_typing_sends room_self data).
    + apply own_output_of_sends, room_message_reaction_sends.
    + apply own_output_of_sends, room_message_edit_sends.
    + apply own_output_of_sends, room_message_delete_sends.
    + by left.
  - unfold DirectMessageConsumer.receive.
    destruct (json_loads text_data) as [[data|]| |e];
      [|by left|right; by left|by left].
    cbv zeta. repeat case_decide.
    + apply own_output_of_sends, conversation_direct_message_sends.
    + apply own_output_of_sends.
      apply (conversation_handle_typing_sends dm_self data).
    + apply own_output_of_sends, conversation_message_read_sends.
    + by left.
Qed.

(** ** What a session's frames can store *)

Lemma db_keeps_ret {X A} (f : DB → X) (a : A) : db_keeps f (mret a : Db A).
Proof. by intros db. Qed.

Lemma db_keeps_raise {X A} (f : DB → X) e : db_keeps f (raise e : Db A).
Proof. by intros db. Qed.

Lemma db_keeps_get {X} (f : DB → X) : db_keeps f (get : Db DB).
Proof. by intros db. Qed.

Lemma db_keeps_modify {X} (f : DB → X) (g : DB → DB) :
  (∀ db, f (g db) = f db) → db_keeps f (modify g : Db unit).
Proof. intros Hg db. apply Hg. Qed.

Lemma db_keeps_bind {X A B} (f : DB → X) (m : Db A) (k : A → Db B) :
  db_keeps f m → (∀ a, db_keeps f (k a)) → db_keeps f (m ≫= k).
Proof.
  intros Hm Hk db. unfold mbind, SE_bind. specialize (Hm db).
  destruct (m db) as [[a|e] db1]; simpl in *; [|done].
  by rewrite Hk.
Qed.

Lemma db_keeps_getattr {X} (f : DB → X) o name :
  db_keeps f (getattr o name : Db unit).
Proof.
  unfold getattr. destruct (hasattr o name);
    [apply db_keeps_ret|apply db_keeps_raise].
Qed.

Lemma db_keeps_timezone_now {X} (f : DB → X) o :
  db_keeps f (timezone_now o).
Proof.
  unfold timezone_now. apply db_keeps_bind; [apply db_keeps_getattr|].
  intros _. apply db_keeps_bind; [apply db_keeps_get|].
  intros db. apply db_keeps_ret.
Qed.

(** Walks an ORM computation whose writes are [modify] steps that keep
    the part of the store in question by computation. *)
Ltac db_keeps_walk :=
  repeat first
    [ match goal with
      | |- db_keeps _ (match ?x with _ => _ end) => destruct x
      end
    | apply db_keeps_ret
    | apply db_keeps_raise
    | apply db_keeps_get
    | apply db_keeps_getattr
    | apply db_keeps_timezone_now
    | apply db_keeps_modify; intros ?; reflexivity
    | apply db_keeps_bind; [|intros ?] ].

Ltac db_keeps_unfold :=
  unfold ChatConsumer.save_message, ChatConsumer.edit_message,
    ChatConsumer.delete_message, ChatConsumer.add_message_reaction,
    ChatConsumer.remove_message_reaction, ChatConsumer.serialize_message,
    DirectMessageConsumer.save_direct_message,
    DirectMessageConsumer.mark_messages_as_read,
    DirectMessageConsumer.serialize_direct_message,
    MessageSerializer_data, get_reaction_counts,
    DirectMessageSerializer_data,
    Message_objects_create, Message_edit_message, Message_delete_message,
    Message_save, MessageReaction_objects_get_or_create,
    MessageReaction_objects_filter_delete, DirectMessage_objects_create,
    django_now.

Lemma save_message_keeps_outside self content id :
  db_keeps outside_room (ChatConsumer.save_message self content id).
Proof. db_keeps_unfold. db_keeps_walk. Qed.

Lemma edit_message_keeps_outside self id content :
  db_keeps outside_room (ChatConsumer.edit_message self id content).
Proof. db_keeps_unfold. db_keeps_walk. Qed.

Lemma delete_message_keeps_outside self id :
  db_keeps outside_room (ChatConsumer.delete_message self id).
Proof. db_keeps_unfold. db_keeps_walk. Qed.

Lemma add_message_reaction_keeps_outside self id kind :
  db_keeps outside_room (ChatConsumer.add_message_reaction self id kind).
Proof. db_keeps_unfold. db_keeps_walk. Qed.

Lemma remove_message_reaction_keeps_outside self id kind :
  db_keeps outside_room (ChatConsumer.remove_message_reaction self id kind).
Proof. db_keeps_unfold. db_keeps_walk. Qed.

Lemma serialize_message_keeps_outside message :
  db_keeps outside_room (ChatConsumer.serialize_message message).
Proof. db_keeps_unfold. db_keeps_walk. Qed.

Lemma save_direct_message_keeps_outside self content :
  db_keeps outside_conversation
    (DirectMessageConsumer.save_direct_message self content).
Proof. db_keeps_unfold. db_keeps_walk. Qed.

Lemma mark_messages_as_read_keeps_outside self message_ids :
  db_keeps outside_conversation
    (DirectMessageConsumer.mark_messages_as_read self message_ids).
Proof. db_keeps_unfold. db_keeps_walk. Qed.

Lemma serialize_direct_message_keeps_outside message :
  db_keeps outside_conversation
    (DirectMessageConsumer.serialize_direct_message message).
Proof. db_keeps_unfold. db_keeps_walk. Qed.

Section Footprint.
Context {L : Type} `{!ChannelLayer L}.

Lemma aw_keeps_ret {X A} (f : DB → X) (a : A) : aw_keeps f (mret a : Aw L A).
Proof. by intros w. Qed.

Lemma aw_keeps_database_sync_to_async {X A} (f : DB → X) (m : Db A) :
  db_keeps f m → aw_keeps f (database_sync_to_async m : Aw L A).
Proof.
  intros Hm w. unfold database_sync_to_async. specialize (Hm (db w)).
  by destruct (m (db w)).
Qed.

Lemma aw_keeps_bind {X A B} (f : DB → X) (m : Aw L A) (k : A → Aw L B) :
  aw_keeps f m → (∀ a, aw_keeps f (k a)) → aw_keeps f (m ≫= k).
Proof.
  intros Hm Hk w. unfold mbind, SE_bind. specialize (Hm w).
  destruct (m w) as [[a|e] w1]; simpl in *; [|done].
  by rewrite Hk.
Qed.

Lemma aw_keeps_group_send {X} (f : DB → X) group ev :
  aw_keeps f (channel_layer_group_send group ev : Aw L unit).
Proof.
  intros w. unfold channel_layer_group_send, on_layer, emit, modify,
    mbind, SE_bind.
  by destruct (group_send group ev (layer w)).
Qed.

Lemma aw_keeps_get_content_strip {X} (f : DB → X) data :
  aw_keeps f (get_content_strip data : Aw L string).
Proof.
  intros w. unfold get_content_strip.
  by destruct (frame_content data) as [[text|]|].
Qed.
End Footprint.

Section HandlerFootprint.
Context {L : Type} `{!ChannelLayer L}.

Lemma room_chat_message_keeps self data :
  aw_keeps outside_room
    (ChatConsumer.handle_chat_message self data : Aw L unit).
Proof.
  unfold ChatConsumer.handle_chat_message.
  apply aw_keeps_bind; [apply aw_keeps_get_content_strip|]. intros content.
  destruct (negb _); [apply aw_keeps_ret|].
  apply aw_keeps_bind.
  { apply aw_keeps_database_sync_to_async, save_message_keeps_outside. }
  intros [message|]; [|apply aw_keeps_ret].
  apply aw_keeps_bind.
  { apply aw_keeps_database_sync_to_async, serialize_message_keeps_outside. }
  intros message_data. apply aw_keeps_group_send.
Qed.

Lemma room_typing_keeps self data :
  aw_keeps outside_room (ChatConsumer.handle_typing self data : Aw L unit).
Proof. unfold ChatConsumer.handle_typing. apply aw_keeps_group_send. Qed.

Lemma room_message_reaction_keeps self data :
  aw_keeps outside_room
    (ChatConsumer.handle_message_reaction self data : Aw L unit).
Proof.
  unfold ChatConsumer.handle_message_reaction.
  apply aw_keeps_bind; [|intros reaction; apply aw_keeps_group_send].
  destruct (decide _).
  - apply aw_keeps_database_sync_to_async,
      add_message_reaction_keeps_outside.
  - apply aw_keeps_bind; [|intros []; apply aw_keeps_ret].
    apply aw_keeps_database_sync_to_async,
      remove_message_reaction_keeps_outside.
Qed.

Lemma room_message_edit_keeps self data :
  aw_keeps outside_room
    (ChatConsumer.handle_message_edit self data : Aw L unit).
Proof.
  unfold ChatConsumer.handle_message_edit.
  apply aw_keeps_bind; [apply aw_keeps_get_content_strip|]. intros content.
  destruct (negb _); [apply aw_keeps_ret|].
  apply aw_keeps_bind.
  { apply aw_keeps_database_sync_to_async, edit_message_keeps_outside. }
  intros [message|]; [|apply aw_keeps_ret].
  apply aw_keeps_bind.
  { apply aw_keeps_database_sync_to_async, serialize_message_keeps_outside. }
  intros message_data. apply aw_keeps_group_send.
Qed.

Lemma room_message_delete_keeps self data :
  aw_keeps outside_room
    (ChatConsumer.handle_message_delete self data : Aw L unit).
Proof.
  unfold ChatConsumer.handle_message_delete.
  apply aw_keeps_bind.
  { apply aw_keeps_database_sync_to_async, delete_message_keeps_outside. }
  intros [message|]; [apply aw_keeps_group_send|apply aw_keeps_ret].
Qed.

Lemma conversation_direct_message_keeps self data :
  aw_keeps outside_conversation
    (DirectMessageConsumer.handle_direct_message self data : Aw L unit).
Proof.
  unfold DirectMessageConsumer.handle_direct_message.
  apply aw_keeps_bind; [apply aw_keeps_get_content_strip|]. intros content.
  destruct (negb _); [apply aw_keeps_ret|].
  apply aw_keeps_bind.
  { apply aw_keeps_database_sync_to_async,
      save_direct_message_keeps_outside. }
  intros [message|]; [|apply aw_keeps_ret].
  apply aw_keeps_bind.
  { apply aw_keeps_database_sync_to_async,
      serialize_direct_message_keeps_outside. }
  intros message_data. apply aw_keeps_group_send.
Qed.

Lemma conversation_typing_keeps self data :
  aw_keeps outside_conversation
    (DirectMessageConsumer.handle_typing self data : Aw L unit).
Proof.
  unfold DirectMessageConsumer.handle_typing. apply aw_keeps_group_send.
Qed.

Lemma conversation_message_read_keeps self data :
  aw_keeps outside_conversation
    (DirectMessageConsumer.handle_message_read self data : Aw L unit).
Proof.
  unfold DirectMessageConsumer.handle_message_read.
  apply aw_keeps_bind; [|intros []; apply aw_keeps_group_send].
  apply aw_keeps_database_sync_to_async,
    mark_messages_as_read_keeps_outside.
Qed.
End HandlerFootprint.

(** X12. A room session's frames can change messages and reactions and
    nothing else: after [receive], whatever the text, the decoder and
    the channel layer, and whether it returns or raises, the users, the
    rooms and their members, the direct messages, the conversations and
    the clock are as before. A conversation session's frames can change
    direct messages and conversations and nothing else: users, rooms,
    room messages, reactions and the clock are as before. *)
Theorem receive_store_footprint :
  ∀ (L : Type) (CL : ChannelLayer L) (json_loads : string → Decoded)
    (room_self : ChatConsumer.t) (dm_self : DirectMessageConsumer.t)
    (text_data : string) (w : World L),
    outside_room
      (db (ChatConsumer.receive json_loads room_self text_data w).2)
      = outside_room (db w)
    ∧ outside_conversation
        (db (DirectMessageConsumer.receive json_loads dm_self text_data w).2)
      = outside_conversation (db w).
Proof.
  intros L CL json_loads room_self dm_self text_data w. split.
  - unfold ChatConsumer.receive.
    destruct (json_loads text_data) as [[data|]| |e]; [|reflexivity..].
    cbv zeta. repeat case_decide.
    + apply room_chat_message_keeps.
    + apply room_typing_keeps.
    + apply room_message_reaction_keeps.
    + apply room_message_edit_keeps.
    + apply room_message_delete_keeps.
    + reflexivity.
  - unfold DirectMessageConsumer.receive.
    destruct (json_loads text_data) as [[data|]| |e]; [|reflexivity..].
    cbv zeta. repeat case_decide.
    + apply conversation_direct_message_keeps.
    + apply conversation_typing_keeps.
    + apply conversation_message_read_keeps.
    + reflexivity.
Qed.

(** ** Authenticating a connection *)

Lemma User_update_last_seen_eq pk self stored db :
  users db !! pk = Some stored →
  User_update_last_seen pk self db
    = (Ok (seen_row self (clock db)),
       with_users <[pk := seen_row stored (clock db)]> db).
Proof.
  intros Hrow. unfold User_update_last_seen, mbind, SE_bind, get, modify.
  rewrite models_timezone_now. cbv beta iota. by rewrite Hrow.
Qed.

(** X13. Authentication of a connection degrades to anonymous and writes
    only the authenticated user's [last_seen]. With no token or an empty
    one, a token the checks reject, a decoded token without a usable
    [user_id], or one naming no stored user, the scope gets the anonymous
    user and the store is untouched. With a token naming a stored user,
    the scope gets that user and exactly that user's [last_seen] is set
    to the time of the call. An exception of the token libraries that is
    not among those caught leaves the middleware, the store untouched. *)
Theorem token_authentication :
  ∀ (check_token : string → token_outcome) db,
    JWTAuthMiddleware_call check_token None db = (Ok AnonymousUser, db)
    ∧ JWTAuthMiddleware_call check_token (Some EmptyString) db
      = (Ok AnonymousUser, db)
    ∧ (∀ token, str_truthy token = true →
         (check_token token = token_rejected →
            JWTAuthMiddleware_call check_token (Some token) db
              = (Ok AnonymousUser, db))
         ∧ (∀ user_id,
              check_token token = token_decoded user_id →
              user_id = None ∨ user_id = Some 0
              ∨ (∃ pk, user_id = Some pk ∧ users db !! pk = None) →
              JWTAuthMiddleware_call check_token (Some token) db
                = (Ok AnonymousUser, db))
         ∧ (∀ pk stored,
              check_token token = token_decoded (Some pk) →
              pk ≠ 0 →
              users db !! pk = Some stored →
              JWTAuthMiddleware_call check_token (Some token) db
                = (Ok (AuthUser pk (seen_row stored (clock db))),
                   with_users <[pk := seen_row stored (clock db)]> db))
         ∧ (∀ e, check_token token = token_failure e →
              JWTAuthMiddleware_call check_token (Some token) db
                = (Raise e, db))).
Proof.
  intros check_token db. split; [reflexivity|]. split; [reflexivity|].
  intros token Htoken.
  unfold JWTAuthMiddleware_call, get_user_from_token. rewrite Htoken.
  split; [|split; [|split]].
  - by intros ->.
  - intros user_id -> [-> | [-> | (pk & -> & Hmissing)]]; [done|done|].
    destruct (int_truthy (Some pk)); [|done].
    unfold mbind, SE_bind, get, objects_get. simpl. by rewrite Hmissing.
  - intros pk stored -> Hpk Hrow.
    unfold int_truthy. destruct (Z.eqb_spec pk 0) as [|_]; [done|].
    cbn [negb]. unfold mbind at 1, SE_bind, get. cbv beta iota.
    unfold objects_get. simpl. rewrite Hrow. simpl.
    by rewrite (bind_ok _ _ _ _ _ (User_update_last_seen_eq pk stored stored
                                      db Hrow)).
  - by intros e ->.
Qed.

Lemma token_authentication_witness :
  JWTAuthMiddleware_call
    (λ token, if decide (token = "good") then token_decoded (Some 2)
              else token_rejected)
    (Some "good") demo_db
  = (Ok (AuthUser 2 (User.mk "bob" "offline" 100 false)),
     with_users <[2 := User.mk "bob" "offline" 100 false]> demo_db)
  ∧ JWTAuthMiddleware_call
      (λ token, if decide (token = "good") then token_decoded (Some 2)
                else token_rejected)
      (Some "forged") demo_db
    = (Ok AnonymousUser, demo_db).
Proof.
  destruct (token_authentication
              (λ token, if decide (token = "good") then token_decoded (Some 2)
                        else token_rejected) demo_db)
    as (_ & _ & Htoken).
  split.
  - destruct (Htoken "good" eq_refl) as (_ & _ & Hknown & _).
    apply (Hknown 2 bob); [reflexivity|discriminate|reflexivity].
  - destruct (Htoken "forged" eq_refl) as (Hrejected & _).
    apply Hrejected. reflexivity.
Defined.

(** ** Editing, reading and counting *)





Lemma DirectMessage_mark_as_read_eq pk self stored db :
  direct_messages db !! pk = Some stored →
  DirectMessage_mark_as_read pk self db
    = (Ok (read_row self (clock db)),
       with_direct_messages <[pk := read_row stored (clock db)]> db).
Proof.
  intros Hrow.
  unfold DirectMessage_mark_as_read, mbind, SE_bind, get, modify.
  rewrite models_timezone_now. cbv beta iota. by rewrite Hrow.
Qed.

(** X15. [DirectMessage.mark_as_read] on a stored message marks it read
    at the time of the call and writes nothing else: every other column
    of the row keeps what the store held, whatever the calling object
    holds, [updated_at] included, and no other row changes. Without a
    row to update it raises [DatabaseError] and writes nothing. *)
Theorem mark_as_read_writes_two_columns :
  ∀ pk (self : DirectMessage.t) db,
    (∀ stored, direct_messages db !! pk = Some stored →
       ∃ self' row',
         DirectMessage_mark_as_read pk self db
           = (Ok self', with_direct_messages <[pk := row']> db)
         ∧ DirectMessage.is_read row' = true
         ∧ DirectMessage.read_at row' = Some (clock db)
         ∧ DirectMessage.is_read self' = true
         ∧ DirectMessage.read_at self' = Some (clock db)
         ∧ DirectMessage.content row' = DirectMessage.content stored
         ∧ DirectMessage.sender row' = DirectMessage.sender stored
         ∧ DirectMessage.recipient row' = DirectMessage.recipient stored
         ∧ DirectMessage.is_edited row' = DirectMessage.is_edited stored
         ∧ DirectMessage.is_deleted row' = DirectMessage.is_deleted stored
         ∧ DirectMessage.created_at row' = DirectMessage.created_at stored
         ∧ DirectMessage.updated_at row' = DirectMessage.updated_at stored)
    ∧ (direct_messages db !! pk = None →
       DirectMessage_mark_as_read pk self db = (Raise DatabaseError, db)).
Proof.
  intros pk self db. split.
  - intros stored Hrow.
    rewrite (DirectMessage_mark_as_read_eq pk self stored db Hrow).
    by eexists _, _.
  - intros Hmissing.
    unfold DirectMessage_mark_as_read, mbind, SE_bind, get, raise.
    rewrite models_timezone_now. cbv beta iota. by rewrite Hmissing.
Qed.

Lemma mark_as_read_writes_two_columns_witness :
  (∃ self' row',
     DirectMessage_mark_as_read 1
       (DirectMessage.mk 2 1 "stale copy" "text" false None false None
                         false None 40 40) demo_db
     = (Ok self', with_direct_messages <[1 := row']> demo_db)
     ∧ DirectMessage.is_read row' = true
     ∧ DirectMessage.read_at row' = Some 100
     ∧ DirectMessage.content row' = "ping"
     ∧ DirectMessage.content self' = "stale copy")
  ∧ DirectMessage_mark_as_read 5
      (DirectMessage.mk 2 1 "ping" "text" false None false None
                        false None 40 40) demo_db
    = (Raise DatabaseError, demo_db).
Proof.
  split.
  - destruct (mark_as_read_writes_two_columns 1
                (DirectMessage.mk 2 1 "stale copy" "text" false None false
                                  None false None 40 40) demo_db)
      as [Hstored _].
    destruct (Hstored (DirectMessage.mk 2 1 "ping" "text" false None false
                                        None false None 40 40) eq_refl)
      as (self' & row' & Hrun & Hread & Hat & _ & _ & Hcontent & _).
    exists self', row'. split; [exact Hrun|]. split; [exact Hread|].
    split; [exact Hat|]. split; [exact Hcontent|].
    rewrite (DirectMessage_mark_as_read_eq 1 _ _ demo_db eq_refl) in Hrun.
    by injection Hrun as <- _.
  - apply (mark_as_read_writes_two_columns 5). reflexivity.
Defined.

Lemma unread_count_after_rewrite self user db pk stored row' :
  direct_messages db !! pk = Some stored →
  unread_for self user stored = true →
  unread_for self user row' = false →
  S (Conversation_get_unread_count self user
       (with_direct_messages <[pk := row']> db))
  = Conversation_get_unread_count self user db.
Proof.
  intros Hrow Hcounted Hnot. unfold Conversation_get_unread_count. simpl.
  rewrite map_filter_insert_False by (simpl; congruence).
  rewrite map_filter_delete.
  assert (filter (λ kv : Z * DirectMessage.t,
                    unread_for self user kv.2 = true)
                 (direct_messages db) !! pk = Some stored) as Hin.
  { by apply map_lookup_filter_Some. }
  rewrite map_size_delete, Hin. simpl.
  assert (size (filter (λ kv : Z * DirectMessage.t,
                          unread_for self user kv.2 = true)
                       (direct_messages db)) ≠ 0%nat) as Hpos.
  { intros Hzero. apply map_size_empty_inv in Hzero.
    rewrite Hzero in Hin. by rewrite lookup_empty in Hin. }
  lia.
Qed.

Lemma unread_for_true self user m :
  unread_for self user m = true ↔
  DirectMessage.sender m
    ∈ filter (λ p, p ≠ user) (Conversation.participants self)
  ∧ DirectMessage.recipient m = user
  ∧ DirectMessage.is_read m = false
  ∧ DirectMessage.is_deleted m = false.
Proof. unfold unread_for. apply bool_decide_eq_true. Qed.

(** X16. [Conversation.get_unread_count] counts, for a user, the stored
    direct messages addressed to that user by another participant that
    are neither read nor deleted. Marking one of them as read takes
    exactly one off the count, and so does soft-deleting it (where the
    database accepts the write: the instance's sender and recipient are
    those of the row, or stored users); doing either to a message that
    is not counted leaves the count as it was. *)
Theorem unread_count_follows_read_and_delete :
  ∀ (self : Conversation.t) user pk (obj stored : DirectMessage.t) db,
    direct_messages db !! pk = Some stored →
    (unread_for self user stored = true →
       S (Conversation_get_unread_count self user
            (DirectMessage_mark_as_read pk obj db).2)
       = Conversation_get_unread_count self user db
       ∧ (DirectMessage_foreign_keys db (Some stored) obj = true →
          S (Conversation_get_unread_count self user
               (DirectMessage_delete_message pk obj db).2)
          = Conversation_get_unread_count self user db))
    ∧ (unread_for self user stored = false →
       Conversation_get_unread_count self user
         (DirectMessage_mark_as_read pk obj db).2
       = Conversation_get_unread_count self user db
       ∧ Conversation_get_unread_count self user
           (DirectMessage_delete_message pk obj db).2
         = Conversation_get_unread_count self user db).
Proof.
  intros self user pk obj stored db Hrow.
  rewrite (DirectMessage_mark_as_read_eq pk obj stored db Hrow).
  cbn [snd].
  assert (∀ row', unread_for self user row' = false →
            unread_for self user stored = false →
            Conversation_get_unread_count self user
              (with_direct_messages <[pk := row']> db)
            = Conversation_get_unread_count self user db) as Hskip.
  { intros row' Hnot Hstored. unfold Conversation_get_unread_count. simpl.
    rewrite map_filter_insert_not'; [done|simpl; congruence|].
    intros y Hy. simpl. congruence. }
  assert (unread_for self user (read_row stored (clock db)) = false)
    as Hread.
  { apply not_true_is_false. rewrite unread_for_true. simpl.
    intros (_ & _ & Hunread & _). done. }
  assert (∀ m, DirectMessage.is_deleted m = true →
               unread_for self user m = false) as Hdeleted.
  { intros m Hm. apply not_true_is_false. rewrite unread_for_true.
    intros (_ & _ & _ & Hlive). congruence. }
  split.
  - intros Hcounted. split.
    + by apply (unread_count_after_rewrite self user db pk stored).
    + intros Hfk.
      rewrite (DirectMessage_delete_message_eq _ _ _ _ Hrow Hfk).
      cbv zeta. cbn [snd].
      apply (unread_count_after_rewrite self user db pk stored);
        [done|done|]. by apply Hdeleted.
  - intros Hnot. split.
    + by apply Hskip.
    + destruct (DirectMessage_foreign_keys db (Some stored) obj) eqn:Hfk.
      * rewrite (DirectMessage_delete_message_eq _ _ _ _ Hrow Hfk).
        cbv zeta. cbn [snd]. apply Hskip; [|done]. by apply Hdeleted.
      * unfold DirectMessage_delete_message.
        rewrite (bind_ok _ _ _ _ _ (models_timezone_now db)).
        rewrite DirectMessage_save_refused; [done|]. by rewrite Hrow.
Qed.

Lemma unread_count_follows_read_and_delete_witness :
  Conversation_get_unread_count (Conversation.mk [1; 2] (Some 1)) 1 demo_db
    = 1%nat
  ∧ Conversation_get_unread_count (Conversation.mk [1; 2] (Some 1)) 1
      (DirectMessage_mark_as_read 1
         (DirectMessage.mk 2 1 "ping" "text" false None false None
                           false None 40 40) demo_db).2
    = 0%nat
  ∧ Conversation_get_unread_count (Conversation.mk [1; 2] (Some 1)) 1
      (DirectMessage_delete_message 1
         (DirectMessage.mk 2 1 "ping" "text" false None false None
                           false None 40 40) demo_db).2
    = 0%nat.
Proof.
  assert (Conversation_get_unread_count (Conversation.mk [1; 2] (Some 1)) 1
            demo_db = 1%nat) as Hone by (vm_compute; reflexivity).
  split; [exact Hone|].
  destruct (unread_count_follows_read_and_delete
              (Conversation.mk [1; 2] (Some 1)) 1 1
              (DirectMessage.mk 2 1 "ping" "text" false None false None
                                false None 40 40)
              (DirectMessage.mk 2 1 "ping" "text" false None false None
                                false None 40 40)
              demo_db eq_refl) as [Hcounted _].
  destruct (Hcounted eq_refl) as [Hread Hdelete].
  specialize (Hdelete eq_refl).
  rewrite Hone in Hread, Hdelete.
  split; [exact (eq_add_S _ _ Hread)|exact (eq_add_S _ _ Hdelete)].
Defined.

(** ** The REST callers *)

Lemma message_queryset_lookup user db pk m :
  MessageDetailView_get_queryset user db !! pk = Some m ↔
  messages db !! pk = Some m
  ∧ Message.sender m = user ∧ Message.is_deleted m = false.
Proof.
  unfold MessageDetailView_get_queryset.
  rewrite map_lookup_filter_Some. done.
Qed.

Lemma message_queryset_miss user db pk :
  (∀ stored, messages db !! pk = Some stored →
     Message.sender stored ≠ user ∨ Message.is_deleted stored = true) →
  MessageDetailView_get_queryset user db !! pk = None.
Proof.
  intros Hno.
  destruct (MessageDetailView_get_queryset user db !! pk) as [m|] eqn:Hm;
    [|done].
  apply message_queryset_lookup in Hm as (Hrow & Hsender & Hlive).
  destruct (Hno m Hrow); congruence.
Qed.

(** X17. Deleting a message over REST is a one-way transition. For the
    requester's own message that is not yet deleted, the view applies
    the soft delete and answers 204; asked again, at any later time, it
    answers 404 and changes nothing. It also answers 404 and changes
    nothing for a missing message or somebody else's. *)
Theorem rest_delete_is_one_way :
  ∀ user pk db,
    (∀ stored,
       messages db !! pk = Some stored →
       Message.sender stored = user →
       Message.is_deleted stored = false →
       let deleted :=
         with_messages <[pk := deleted_row stored (clock db)]> db in
       MessageDetailView_destroy user pk db
         = (Ok HTTP_204_NO_CONTENT, deleted)
       ∧ ∀ later,
           MessageDetailView_destroy user pk (with_clock later deleted)
             = (Ok HTTP_404_NOT_FOUND, with_clock later deleted))
    ∧ ((∀ stored, messages db !! pk = Some stored →
          Message.sender stored ≠ user ∨ Message.is_deleted stored = true) →
       MessageDetailView_destroy user pk db = (Ok HTTP_404_NOT_FOUND, db)).
Proof.
  intros user pk db. split.
  - intros stored Hrow Hsender Hlive deleted. split.
    + unfold MessageDetailView_destroy, mbind at 1, SE_bind, get.
      cbv beta iota.
      rewrite (proj2 (message_queryset_lookup user db pk stored)) by done.
      by rewrite (bind_ok _ _ _ _ _
                    (Message_delete_message_loaded _ _ _ Hrow)).
    + intros later.
      unfold MessageDetailView_destroy, mbind, SE_bind, get.
      cbv beta iota. rewrite message_queryset_miss; [done|].
      intros m Hm. right. unfold deleted in Hm. simpl in Hm.
      rewrite lookup_insert_eq in Hm. by injection Hm as <-.
  - intros Hno.
    unfold MessageDetailView_destroy, mbind, SE_bind, get.
    cbv beta iota. by rewrite message_queryset_miss.
Qed.

Lemma rest_delete_is_one_way_witness :
  MessageDetailView_destroy 1 1 demo_db
    = (Ok HTTP_204_NO_CONTENT,
       with_messages
         <[1 := Message.mk 1 1 deleted_placeholder "text" None false None
                           true (Some 100) 20 100]> demo_db)
  ∧ MessageDetailView_destroy 1 2 demo_db = (Ok HTTP_404_NOT_FOUND, demo_db)
  ∧ MessageDetailView_destroy 2 1 demo_db = (Ok HTTP_404_NOT_FOUND, demo_db).
Proof.
  split; [|split].
  - destruct (rest_delete_is_one_way 1 1 demo_db) as [Hown _].
    apply (Hown (Message.mk 1 1 "hello" "text" None false None false None
                            20 20)); reflexivity.
  - destruct (rest_delete_is_one_way 1 2 demo_db) as [_ Hrefused].
    apply Hrefused. intros stored Hstored. right.
    vm_compute in Hstored. by injection Hstored as <-.
  - destruct (rest_delete_is_one_way 2 1 demo_db) as [_ Hrefused].
    apply Hrefused. intros stored Hstored. left.
    vm_compute in Hstored. injection Hstored as <-. simpl. discriminate.
Defined.

Lemma direct_queryset_lookup user db pk m :
  DirectMessageDetailView_get_queryset user db !! pk = Some m ↔
  direct_messages db !! pk = Some m
  ∧ (DirectMessage.sender m = user ∨ DirectMessage.recipient m = user)
  ∧ DirectMessage.is_deleted m = false.
Proof.
  unfold DirectMessageDetailView_get_queryset.
  rewrite map_lookup_filter_Some. done.
Qed.

(** X18. Deleting a direct message over REST. Asked by the sender of a
    message that is not deleted, the view applies the soft delete and
    answers 204. Asked by its recipient, it answers 204 as well and
    deletes nothing. Asked by anybody else, or for a message already
    deleted, it answers 404 and changes nothing. *)
Theorem rest_direct_delete_by_role :
  ∀ user pk db stored,
    direct_messages db !! pk = Some stored →
    (DirectMessage.is_deleted stored = false →
       (DirectMessage.sender stored = user →
          ∃ saved,
            DirectMessageDetailView_destroy user pk db
              = (Ok HTTP_204_NO_CONTENT,
                 with_direct_messages <[pk := saved]> db)
            ∧ DirectMessage.is_deleted saved = true
            ∧ DirectMessage.content saved = deleted_placeholder)
       ∧ (DirectMessage.sender stored ≠ user →
          DirectMessage.recipient stored = user →
          DirectMessageDetailView_destroy user pk db
            = (Ok HTTP_204_NO_CONTENT, db)))
    ∧ (DirectMessage.is_deleted stored = true
       ∨ (DirectMessage.sender stored ≠ user
          ∧ DirectMessage.recipient stored ≠ user) →
       DirectMessageDetailView_destroy user pk db
         = (Ok HTTP_404_NOT_FOUND, db)).
Proof.
  intros user pk db stored Hrow. split.
  - intros Hlive. split.
    + intros Hsender. eexists.
      unfold DirectMessageDetailView_destroy, mbind at 1, SE_bind, get.
      cbv beta iota.
      rewrite (proj2 (direct_queryset_lookup user db pk stored))
        by (split; [done|split; [by left|done]]).
      rewrite decide_True by done.
      unfold mbind at 1, SE_bind.
      rewrite (bind_ok _ _ _ _ _
                 (DirectMessage_delete_message_eq pk stored stored db Hrow
                    (DirectMessage_foreign_keys_stored _ _ _
                       eq_refl eq_refl))).
      cbv zeta. split; [reflexivity|]. by split.
    + intros Hnot_sender Hrecipient.
      unfold DirectMessageDetailView_destroy, mbind at 1, SE_bind, get.
      cbv beta iota.
      rewrite (proj2 (direct_queryset_lookup user db pk stored))
        by (split; [done|split; [by right|done]]).
      by rewrite decide_False by done.
  - intros Hout.
    unfold DirectMessageDetailView_destroy, mbind, SE_bind, get.
    cbv beta iota.
    destruct (DirectMessageDetailView_get_queryset user db !! pk)
      as [m|] eqn:Hm; [|done].
    apply direct_queryset_lookup in Hm as (Hm & Hrole & Hlive).
    assert (m = stored) as -> by congruence.
    destruct Hout as [Hdeleted | [Hs Hr]]; [congruence|].
    by destruct Hrole.
Qed.

Lemma rest_direct_delete_by_role_witness :
  DirectMessageDetailView_destroy 1 1 demo_db
    = (Ok HTTP_204_NO_CONTENT, demo_db)
  ∧ DirectMessageDetailView_destroy 3 1 demo_db
    = (Ok HTTP_404_NOT_FOUND, demo_db)
  ∧ ∃ saved,
      DirectMessageDetailView_destroy 2 1 demo_db
        = (Ok HTTP_204_NO_CONTENT,
           with_direct_messages <[1 := saved]> demo_db)
      ∧ DirectMessage.content saved = "This message was deleted".
Proof.
  pose (ping := DirectMessage.mk 2 1 "ping" "text" false None false None
                                 false None 40 40).
  split; [|split].
  - destruct (rest_direct_delete_by_role 1 1 demo_db ping eq_refl)
      as [Hlive _].
    destruct (Hlive eq_refl) as [_ Hrecipient].
    apply Hrecipient; [discriminate|reflexivity].
  - destruct (rest_direct_delete_by_role 3 1 demo_db ping eq_refl)
      as [_ Hout].
    apply Hout. right. split; discriminate.
  - destruct (rest_direct_delete_by_role 2 1 demo_db ping eq_refl)
      as [Hlive _].
    destruct (Hlive eq_refl) as [Hsender _].
    destruct (Hsender eq_refl) as (saved & Hrun & _ & Hcontent).
    exists saved. split; [exact Hrun|exact Hcontent].
Defined.

Lemma views_timezone_now db :
  timezone_now views_py.timezone db = (Raise AttributeError, db).
Proof. reflexivity. Qed.

(** X19. Marking a conversation read over REST never marks anything.
    For a conversation that does not exist or that the requester is not
    in, the view answers 404. For a participant it raises
    [AttributeError] at [timezone.now()], [views.py] importing
    [timezone] from [datetime] as [consumers.py] does, before any row is
    updated. The store is untouched in every case. *)
Theorem rest_mark_read_never_updates :
  ∀ user conversation_id db,
    (∀ conversation,
       conversations db !! conversation_id = Some conversation →
       user ∈ Conversation.participants conversation →
       views_mark_direct_messages_as_read user conversation_id db
         = (Raise AttributeError, db))
    ∧ ((∀ conversation,
          conversations db !! conversation_id = Some conversation →
          user ∉ Conversation.participants conversation) →
       views_mark_direct_messages_as_read user conversation_id db
         = (Ok HTTP_404_NOT_FOUND, db))
    ∧ (views_mark_direct_messages_as_read user conversation_id db).2 = db.
Proof.
  intros user conversation_id db.
  assert (∀ conversation,
            conversations db !! conversation_id = Some conversation →
            user ∈ Conversation.participants conversation →
            views_mark_direct_messages_as_read user conversation_id db
              = (Raise AttributeError, db)) as Hin.
  { intros conversation Hrow Hparticipant.
    unfold views_mark_direct_messages_as_read, mbind at 1, SE_bind, get.
    cbv beta iota. unfold objects_get. simpl. rewrite Hrow. simpl.
    rewrite bool_decide_eq_true_2 by done.
    by rewrite (bind_raise _ _ _ _ _ (views_timezone_now db)). }
  assert ((∀ conversation,
             conversations db !! conversation_id = Some conversation →
             user ∉ Conversation.participants conversation) →
          views_mark_direct_messages_as_read user conversation_id db
            = (Ok HTTP_404_NOT_FOUND, db)) as Hout.
  { intros Hno.
    unfold views_mark_direct_messages_as_read, mbind, SE_bind, get.
    cbv beta iota. unfold objects_get. simpl.
    destruct (conversations db !! conversation_id) as [c|] eqn:Hc;
      simpl; [|done].
    by rewrite bool_decide_eq_false_2 by (by apply Hno). }
  split; [exact Hin|]. split; [exact Hout|].
  destruct (conversations db !! conversation_id) as [c|] eqn:Hc.
  - destruct (decide (user ∈ Conversation.participants c)) as [Hp|Hp].
    + by rewrite (Hin c).
    + rewrite Hout; [done|]. intros c' [= <-]. done.
  - rewrite Hout; [done|]. intros c' [=].
Qed.

Lemma rest_mark_read_never_updates_witness :
  views_mark_direct_messages_as_read 1 1 demo_db
    = (Raise AttributeError, demo_db)
  ∧ views_mark_direct_messages_as_read 3 1 demo_db
    = (Ok HTTP_404_NOT_FOUND, demo_db).
Proof.
  destruct (rest_mark_read_never_updates 1 1 demo_db) as (Hin & _).
  destruct (rest_mark_read_never_updates 3 1 demo_db) as (_ & Hout & _).
  split.
  - apply (Hin (Conversation.mk [1; 2] (Some 1))); [reflexivity|].
    simpl. apply elem_of_cons. by left.
  - apply Hout. intros conversation Hrow. vm_compute in Hrow.
    injection Hrow as <-. simpl. intros Hin3.
    apply elem_of_cons in Hin3 as [|Hin3]; [discriminate|].
    apply elem_of_cons in Hin3 as [|Hin3]; [discriminate|].
    by apply not_elem_of_nil in Hin3.
Defined.

(** ** Creating a room message, end to end *)



(** ** Reactions without a kind, and reactions over REST *)

(** X21. A reaction frame without [reaction_type]. As an add on a
    message of the room it is refused by the store with
    [IntegrityError], which leaves the handler: nothing is stored or
    sent. With any other action it removes nothing, and is announced to
    the room group all the same, the event carrying no kind. *)
Theorem reaction_without_kind :
  ∀ (L : Type) (CL : ChannelLayer L) (self : ChatConsumer.t) uid row
    (data : Frame) (w : World L) pk stored,
    ChatConsumer.user self = AuthUser uid row →
    frame_message_id data = Some pk →
    frame_reaction_type data = None →
    messages (db w) !! pk = Some stored →
    Message.room stored = ChatConsumer.room_id self →
    let action := default "add" (frame_action data) in
    let group := ChatConsumer.room_group_name self in
    let ev := message_reaction_ev (Some pk) None action (User.username row) in
    (action = "add" →
       ChatConsumer.handle_message_reaction self data w
         = (Raise IntegrityError, w))
    ∧ (action ≠ "add" →
       ChatConsumer.handle_message_reaction self data w
         = match group_send group ev (layer w) with
           | Ok l' => (Ok tt, mkWorld (db w) l'
                                (trace w ++ [GroupSend group ev]))
           | Raise e => (Raise e, w)
           end).
Proof.
  intros L CL self uid row data w pk stored Huser Hid Hkind Hrow Hroom
    action group ev.
  assert (objects_get (messages (db w)) (Some pk)
            (λ m, bool_decide (Message.room m = ChatConsumer.room_id self))
          = Some (pk, stored)) as Hget.
  { apply objects_get_Some. split; [done|]. split; [done|].
    by apply bool_decide_eq_true_2. }
  split; intros Haction;
    unfold ChatConsumer.handle_message_reaction; fold action;
    rewrite Hid, Hkind.
  - rewrite decide_True by done.
    unfold mbind at 1, SE_bind, database_sync_to_async,
      ChatConsumer.add_message_reaction.
    unfold mbind at 1, SE_bind, get. cbv beta iota.
    rewrite Hget, Huser. cbn [user_id].
    unfold MessageReaction_objects_get_or_create, mbind, SE_bind, raise.
    by rewrite world_eta.
  - rewrite decide_False by done.
    unfold mbind at 1, SE_bind.
    unfold mbind at 1, SE_bind, database_sync_to_async,
      ChatConsumer.remove_message_reaction.
    unfold mbind at 1, SE_bind, get. cbv beta iota.
    rewrite Hget, Huser. cbn [user_id].
    unfold MessageReaction_objects_filter_delete, mret, SE_ret.
    rewrite world_eta.
    unfold channel_layer_group_send, on_layer, emit, modify, mbind, SE_bind.
    cbn [user_username]. fold group. fold ev.
    by destruct (group_send group ev (layer w)).
Qed.

Lemma reaction_without_kind_witness :
  ChatConsumer.handle_message_reaction alice_room
    (mkFrame (Some "message_reaction") None None (Some 1) None None None None)
    demo_world
  = (Raise IntegrityError, demo_world).
Proof.
  destruct (reaction_without_kind InMemoryChannelLayer _ alice_room 1 alice
              (mkFrame (Some "message_reaction") None None (Some 1) None None
                       None None)
              demo_world 1
              (Message.mk 1 1 "hello" "text" None false None false None 20 20)
              eq_refl eq_refl eq_refl eq_refl eq_refl) as [Hadd _].
  apply Hadd. reflexivity.
Defined.

Lemma member_message_lookup user db pk stored room :
  messages db !! pk = Some stored →
  rooms db !! Message.room stored = Some room →
  user ∈ ChatRoom.members room →
  objects_get (messages db) (Some pk)
    (λ m, match rooms db !! Message.room m with
          | Some room => bool_decide (user ∈ ChatRoom.members room)
          | None => false
          end)
  = Some (pk, stored).
Proof.
  intros Hrow Hroom Hmember. apply objects_get_Some.
  split; [done|]. split; [done|]. rewrite Hroom.
  by apply bool_decide_eq_true_2.
Qed.

(** X22. Adding a reaction over REST is validated and idempotent. For a
    member of the message's room and one of the six reaction kinds, the
    first add stores one row for the (message, user, kind) triple and
    answers 201; an add of a triple that has a row answers 400 and
    stores nothing. A kind that is missing or not one of the six is
    answered 400, a message that is missing or in a room the requester
    is not a member of is answered 404, and in both cases nothing is
    stored. *)
Theorem rest_reaction_add_is_validated :
  ∀ user pk reaction_type db,
    (∀ stored room kind,
       messages db !! pk = Some stored →
       rooms db !! Message.room stored = Some room →
       user ∈ ChatRoom.members room →
       reaction_type = Some kind →
       (kind ∈ REACTION_TYPES →
          (count_reaction pk user kind (reactions db) = 0%nat →
             views_add_message_reaction user pk reaction_type db
               = (Ok HTTP_201_CREATED,
                  with_reactions
                    (λ rs, (rs ++ [MessageReaction.mk pk user kind
                                     (clock db)])%list) db))
          ∧ (count_reaction pk user kind (reactions db) ≠ 0%nat →
             views_add_message_reaction user pk reaction_type db
               = (Ok HTTP_400_BAD_REQUEST, db)))
       ∧ (kind ∉ REACTION_TYPES →
          views_add_message_reaction user pk reaction_type db
            = (Ok HTTP_400_BAD_REQUEST, db)))
    ∧ (∀ stored room,
         messages db !! pk = Some stored →
         rooms db !! Message.room stored = Some room →
         user ∈ ChatRoom.members room →
         reaction_type = None →
         views_add_message_reaction user pk reaction_type db
           = (Ok HTTP_400_BAD_REQUEST, db))
    ∧ ((∀ stored room,
          messages db !! pk = Some stored →
          rooms db !! Message.room stored = Some room →
          user ∉ ChatRoom.members room) →
       views_add_message_reaction user pk reaction_type db
         = (Ok HTTP_404_NOT_FOUND, db)).
Proof.
  intros user pk reaction_type db. split; [|split].
  - intros stored room kind Hrow Hroom Hmember ->.
    pose proof (member_message_lookup user db pk stored room
                  Hrow Hroom Hmember) as Hget.
    split; [intros Hkind; split; intros Hcount|intros Hkind];
      unfold views_add_message_reaction, mbind at 1, SE_bind, get;
      cbv beta iota; rewrite Hget.
    + rewrite bool_decide_eq_true_2 by done.
      unfold MessageReaction_objects_get_or_create.
      unfold mbind at 1, SE_bind. unfold mbind at 1, SE_bind, get.
      cbv beta iota.
      rewrite (proj2 (find_none_count pk user kind (reactions db)) Hcount).
      reflexivity.
    + rewrite bool_decide_eq_true_2 by done.
      destruct (get_or_create_existing pk user kind db Hcount) as [r Hrun].
      by rewrite (bind_ok _ _ _ _ _ Hrun).
    + by rewrite bool_decide_eq_false_2 by done.
  - intros stored room Hrow Hroom Hmember ->.
    unfold views_add_message_reaction, mbind at 1, SE_bind, get.
    cbv beta iota.
    by rewrite (member_message_lookup user db pk stored room
                  Hrow Hroom Hmember).
  - intros Hno.
    unfold views_add_message_reaction, mbind, SE_bind, get.
    cbv beta iota.
    destruct (objects_get _ _ _) as [[k m]|] eqn:Hget; [|done].
    apply objects_get_Some in Hget as ([= <-] & Hrow & Hcond).
    destruct (rooms db !! Message.room m) as [room|] eqn:Hroom; [|done].
    apply bool_decide_eq_true in Hcond. by destruct (Hno m room).
Qed.

Lemma rest_reaction_add_is_validated_witness :
  views_add_message_reaction 2 1 (Some "love") demo_db
    = (Ok HTTP_201_CREATED,
       with_reactions (λ rs, (rs ++ [MessageReaction.mk 1 2 "love" 100])%list)
         demo_db)
  ∧ views_add_message_reaction 2 1 (Some "meh") demo_db
    = (Ok HTTP_400_BAD_REQUEST, demo_db)
  ∧ views_add_message_reaction 3 1 (Some "love") demo_db
    = (Ok HTTP_404_NOT_FOUND, demo_db).
Proof.
  pose (hello := Message.mk 1 1 "hello" "text" None false None false None
                            20 20).
  pose (general := ChatRoom.mk "general" true {[1; 2]}).
  assert ((2:Z) ∈ ChatRoom.members general) as Hbob.
  { apply (bool_decide_unpack _). vm_compute. exact I. }
  split; [|split].
  - destruct (rest_reaction_add_is_validated 2 1 (Some "love") demo_db)
      as [Hmember _].
    destruct (Hmember hello general "love" eq_refl eq_refl Hbob eq_refl)
      as [Hvalid _].
    apply Hvalid; [|reflexivity].
    apply (bool_decide_unpack _). vm_compute. exact I.
  - destruct (rest_reaction_add_is_validated 2 1 (Some "meh") demo_db)
      as [Hmember _].
    destruct (Hmember hello general "meh" eq_refl eq_refl Hbob eq_refl)
      as [_ Hinvalid].
    apply Hinvalid. apply (bool_decide_unpack _). vm_compute. exact I.
  - destruct (rest_reaction_add_is_validated 3 1 (Some "love") demo_db)
      as (_ & _ & Hforeign).
    apply Hforeign. intros stored room Hstored Hroom.
    vm_compute in Hstored. injection Hstored as <-.
    vm_compute in Hroom. injection Hroom as <-.
    apply (bool_decide_unpack _). vm_compute. exact I.
Defined.
